(** * nexus-neuro-twin: pattern synthesis, grid interpolation and readout

    A shallow embedding of [src/backend/simulation_db.py] and
    [src/backend/neuro_controller.py].

    Modelling choices.
    - A numpy [float64] is idealised as a real number ([R]); rounding,
      overflow, [nan] and [inf] are outside the model.
    - A 1-D array is a [list R], a 2-D array a row-major [list (list R)],
      the 5x5xN array of the database a [list (list (list R))].
    - A Python exception is a value of [exception]; a call that can raise
      returns a [result].
    - [time.time()] and [np.random.randn] are inputs of the functions that
      call them. *)

From Stdlib Require Import Ascii String DecimalString.
From Stdlib Require Import Reals Lra Lia ZArith Bool Arith List FinFun.
Import ListNotations.
Open Scope R_scope.

(* ================================================================== *)
(** * Exceptions and the [result] monad *)
(* ================================================================== *)

(** The [ValueError]s numpy raises in the modelled code. *)
Inductive value_error : Type :=
| ShapesNotAligned      (* np.dot: "shapes ... not aligned" *)
| CouldNotBroadcast     (* "operands could not be broadcast together" *)
| CannotReshape         (* "cannot reshape array of size ... into shape ..." *)
| ZeroSizeReduction.    (* np.max of an empty array *)

Inductive exception : Type :=
| ValueError (why : value_error)
| IndexError
| KeyError
| ImportError
| OtherError (name : string).

Inductive result (A : Type) : Type :=
| Ok (a : A)
| Raise (e : exception).
Arguments Ok {A} a.
Arguments Raise {A} e.

Definition bind {A B : Type} (m : result A) (k : A -> result B) : result B :=
  match m with
  | Ok a => k a
  | Raise e => Raise e
  end.

Notation "x <- m ;; k" := (bind m (fun x => k))
  (at level 61, m at next level, right associativity).

(** A [for] loop whose body can raise: the first exception ends the loop. *)
Fixpoint for_each {S A : Type} (body : S -> A -> result S) (l : list A) (s : S)
  : result S :=
  match l with
  | [] => Ok s
  | a :: l' => s' <- body s a ;; for_each body l' s'
  end.

(* ================================================================== *)
(** * numpy and scipy primitives *)
(* ================================================================== *)

Module Numpy.

#[warning="-notation-for-abbreviation"]
Notation ndarray1 := (list R).
#[warning="-notation-for-abbreviation"]
Notation ndarray2 := (list (list R)).
#[warning="-notation-for-abbreviation"]
Notation ndarray3 := (list (list (list R))).

(** [a.shape == (r, c)] *)
Definition has_shape (r c : nat) (a : ndarray2) : Prop :=
  length a = r /\ Forall (fun row => length row = c) a.

Definition lengths_eqb (a b : list nat) : bool :=
  if list_eq_dec Nat.eq_dec a b then true else false.

Definition same_shape (a b : ndarray2) : bool :=
  lengths_eqb (map (@length R) a) (map (@length R) b).

Definition zeros (n : nat) : ndarray1 := repeat 0 n.
Definition zeros2 (r c : nat) : ndarray2 := repeat (zeros c) r.

(** [a.flatten()] *)
Definition flatten (a : ndarray2) : ndarray1 := concat a.

(** Rows of length [c] cut from a flat array. *)
Fixpoint chunks (r c : nat) (v : ndarray1) : ndarray2 :=
  match r with
  | O => []
  | S r' => firstn c v :: chunks r' c (skipn c v)
  end.

(** [v.reshape((r, c))] *)
Definition reshape (r c : nat) (v : ndarray1) : result ndarray2 :=
  if Nat.eq_dec (length v) (r * c) then Ok (chunks r c v)
  else Raise (ValueError CannotReshape).

(** Elementwise operations. *)
Definition map1 (f : R -> R) (a : ndarray2) : ndarray2 := map (map f) a.

Definition vmap2 (f : R -> R -> R) (u v : ndarray1) : ndarray1 :=
  map (fun p => f (fst p) (snd p)) (combine u v).

Definition map2 (f : R -> R -> R) (a b : ndarray2) : ndarray2 :=
  map (fun p => vmap2 f (fst p) (snd p)) (combine a b).

Definition vmap3 (f : R -> R -> R -> R) (u v w : ndarray1) : ndarray1 :=
  map (fun p => f (fst (fst p)) (snd (fst p)) (snd p)) (combine (combine u v) w).

Definition map3 (f : R -> R -> R -> R) (a b c : ndarray2) : ndarray2 :=
  map (fun p => vmap3 f (fst (fst p)) (snd (fst p)) (snd p))
      (combine (combine a b) c).

(** [np.abs(a)], [a / s], [a * s] with [s] a scalar *)
Definition np_abs (a : ndarray2) : ndarray2 := map1 Rabs a.
Definition div_scalar (a : ndarray2) (s : R) : ndarray2 := map1 (fun v => v / s) a.
Definition mul_scalar (a : ndarray2) (s : R) : ndarray2 := map1 (fun v => v * s) a.

(** [np.max(a)]: raises on an empty array. *)
Definition np_max (a : ndarray2) : result R :=
  match flatten a with
  | [] => Raise (ValueError ZeroSizeReduction)
  | x :: t => Ok (fold_left Rmax t x)
  end.

(** [np.linspace(start, stop, num)] *)
Definition linspace (start stop : R) (num : nat) : ndarray1 :=
  map (fun i => start + INR i * ((stop - start) / INR (num - 1))) (seq 0 num).

(** [np.meshgrid(x, y)] with the default [indexing='xy']:
    both results have shape [(len(y), len(x))]. *)
Definition meshgrid (x y : ndarray1) : ndarray2 * ndarray2 :=
  (map (fun _ => x) y, map (fun yi => map (fun _ => yi) x) y).

(** [np.arctan2(y, x)] *)
Definition arctan2 (y x : R) : R :=
  if Rlt_dec 0 x then atan (y / x)
  else if Rlt_dec x 0 then
         (if Rle_dec 0 y then atan (y / x) + PI else atan (y / x) - PI)
  else if Rlt_dec 0 y then PI / 2
  else if Rlt_dec y 0 then - (PI / 2)
  else 0.

(** [np.clip(v, lo, hi)] = [minimum(maximum(v, lo), hi)] *)
Definition clip (v lo hi : R) : R := Rmin (Rmax v lo) hi.

Definition sum (v : ndarray1) : R := fold_right Rplus 0 v.

(** [np.mean(v)] and [np.var(v)] (population variance, [ddof=0]). *)
Definition mean (v : ndarray1) : R := sum v / INR (length v).
Definition var (v : ndarray1) : R :=
  let m := mean v in
  mean (map (fun x => Rabs (x - m) ^ 2) v).

(** [np.dot(u, v)] on two 1-D arrays of one length. *)
Definition dot1 (u v : ndarray1) : R := sum (vmap2 Rmult u v).

(** [np.dot(W, v)] with [W] 2-D of shape [(rows, ncols)] and [v] 1-D:
    [ncols] must be the length of [v], whatever the number of rows. *)
Definition dot (ncols : nat) (W : ndarray2) (v : ndarray1) : result ndarray1 :=
  if Nat.eq_dec ncols (length v)
  then Ok (map (fun row => dot1 row v) W)
  else Raise (ValueError ShapesNotAligned).

(** [np.outer(u, v)] *)
Definition outer (u v : ndarray1) : ndarray2 :=
  map (fun ui => map (fun vj => ui * vj) v) u.

(** Binary elementwise operation on 1-D arrays with numpy's broadcasting:
    equal lengths, or one operand of length 1. *)
Definition broadcast1 (f : R -> R -> R) (u v : ndarray1) : result ndarray1 :=
  if Nat.eq_dec (length u) (length v) then Ok (vmap2 f u v)
  else match u, v with
       | [a], _ => Ok (map (fun b => f a b) v)
       | _, [b] => Ok (map (fun a => f a b) u)
       | _, _ => Raise (ValueError CouldNotBroadcast)
       end.

(** A dimension of size [d] broadcasts to size [t] when [d = t] or [d = 1]. *)
Definition broadcasts_to (d t : nat) : bool := Nat.eqb d t || Nat.eqb d 1.

Definition stretch {A : Type} (dflt : A) (d t : nat) (l : list A) : list A :=
  if Nat.eqb d t then l else repeat (hd dflt l) t.

(** In-place [target += delta] on 1-D arrays: [delta] is broadcast to the
    shape of [target], which never changes. *)
Definition iadd1 (target delta : ndarray1) : result ndarray1 :=
  if broadcasts_to (length delta) (length target)
  then Ok (vmap2 Rplus target (stretch 0 (length delta) (length target) delta))
  else Raise (ValueError CouldNotBroadcast).

(** In-place [target += delta] on 2-D arrays of shapes [tshape] and
    [dshape]. *)
Definition iadd2 (tshape : nat * nat) (target : ndarray2)
           (dshape : nat * nat) (delta : ndarray2) : result ndarray2 :=
  if broadcasts_to (fst dshape) (fst tshape) && broadcasts_to (snd dshape) (snd tshape)
  then Ok (map2 Rplus target
             (stretch [] (fst dshape) (fst tshape)
                (map (stretch 0 (snd dshape) (snd tshape)) delta)))
  else Raise (ValueError CouldNotBroadcast).

(** [l[i] = x] for [i] in range. *)
Fixpoint list_set {A : Type} (i : nat) (x : A) (l : list A) : list A :=
  match l, i with
  | [], _ => []
  | _ :: t, O => x :: t
  | a :: t, S i' => a :: list_set i' x t
  end.

(** [enumerate(l)] *)
Definition enumerate {A : Type} (l : list A) : list (nat * A) :=
  combine (seq 0 (length l)) l.

(** Python's [round(x, ndigits)], ties to even, on the idealised real. *)
Definition round_half_even (x : R) : Z :=
  let f := Int_part x in
  let d := x - IZR f in
  if Rlt_dec d (1 / 2) then f
  else if Rlt_dec (1 / 2) d then (f + 1)%Z
  else if Z.even f then f else (f + 1)%Z.

Definition py_round (x : R) (ndigits : nat) : R :=
  IZR (round_half_even (x * 10 ^ ndigits)) / 10 ^ ndigits.

(** [str(n)] for a non-negative integer. *)
Definition str_of_nat (n : nat) : string := NilEmpty.string_of_uint (Nat.to_uint n).

End Numpy.

(* ================================================================== *)
(** * scipy.interpolate.RegularGridInterpolator, two axes, [method='linear'],
      [bounds_error=False], [fill_value=None] *)
(* ================================================================== *)

Module Scipy.
Import Numpy.

Record RegularGridInterpolator : Type := mkRGI {
  grid0 : ndarray1;
  grid1 : ndarray1;
  values : ndarray3
}.

(** [np.searchsorted(grid, x)] on an ascending grid: the index of the
    first point that is not below [x]. *)
Fixpoint searchsorted (grid : ndarray1) (x : R) : nat :=
  match grid with
  | [] => 0
  | g :: t => if Rlt_dec g x then S (searchsorted t x) else 0
  end.

Definition getitem {A : Type} (l : list A) (i : nat) : result A :=
  match nth_error l i with
  | Some a => Ok a
  | None => Raise IndexError
  end.

(** One axis of [_find_indices]: the lower edge of the cell, clipped to
    [0 .. size-2], and the distance to it in units of the cell width. *)
Definition find_index (grid : ndarray1) (x : R) : result (nat * R) :=
  let i := (Z.of_nat (searchsorted grid x) - 1)%Z in
  let i := if (i <? 0)%Z then 0%Z else i in
  let i := if (i >? Z.of_nat (length grid) - 2)%Z
           then (Z.of_nat (length grid) - 2)%Z else i in
  let i := Z.to_nat i in
  lo <- getitem grid i ;;
  hi <- getitem grid (i + 1) ;;
  let denom := hi - lo in
  let norm_dist := if Req_dec_T denom 0 then 0 else (x - lo) / denom in
  Ok (i, norm_dist).

(** [values[i, j]] *)
Definition getitem2 (v : ndarray3) (i j : nat) : result ndarray1 :=
  row <- getitem v i ;; getitem row j.

(** One vertex of the cell: [value = value + values[edge] * weight], the
    weight being [1 * w0 * w1]. *)
Definition add_term (v : ndarray3) (value : ndarray1)
           (e0 : nat) (w0 : R) (e1 : nat) (w1 : R) : result ndarray1 :=
  corner <- getitem2 v e0 e1 ;;
  let weight := 1 * w0 * w1 in
  broadcast1 Rplus value (map (fun c => c * weight) corner).

(** [_evaluate_linear]: the four vertices in the order of
    [itertools.product], summed from [np.array([0.])]. *)
Definition evaluate_linear (v : ndarray3) (i0 : nat) (y0 : R) (i1 : nat) (y1 : R)
  : result ndarray1 :=
  let value := [0] in
  value <- add_term v value i0 (1 - y0) i1 (1 - y1) ;;
  value <- add_term v value i0 (1 - y0) (i1 + 1) y1 ;;
  value <- add_term v value (i0 + 1) y0 i1 (1 - y1) ;;
  add_term v value (i0 + 1) y0 (i1 + 1) y1.

(** The sum [_evaluate_linear] returns, written out on the four corner
    vectors of the cell. *)
Definition blend (y0 y1 : R) (c00 c01 c10 c11 : ndarray1) : ndarray1 :=
  vmap2 Rplus
    (vmap2 Rplus
       (vmap2 Rplus
          (map (fun b => 0 + b) (map (fun c => c * (1 * (1 - y0) * (1 - y1))) c00))
          (map (fun c => c * (1 * (1 - y0) * y1)) c01))
       (map (fun c => c * (1 * y0 * (1 - y1))) c10))
    (map (fun c => c * (1 * y0 * y1)) c11).

(** [interp((theta, beta))] *)
Definition call (interp : RegularGridInterpolator) (xi : R * R) : result ndarray1 :=
  a0 <- find_index (grid0 interp) (fst xi) ;;
  a1 <- find_index (grid1 interp) (snd xi) ;;
  evaluate_linear (values interp) (fst a0) (snd a0) (fst a1) (snd a1).

End Scipy.

(* ================================================================== *)
(** * simulation_db.py *)
(* ================================================================== *)

Module SimulationDb.
Import Numpy Scipy.

Definition GRID_SIZE : nat := 128.
Definition PARAM_STEPS : list R := [0.0; 0.25; 0.5; 0.75; 1.0].

(** [self.patterns]: a dict keyed by [(theta, beta)]. *)
Definition key : Type := (R * R)%type.

Definition key_eq_dec (a b : key) : {a = b} + {a <> b}.
Proof. decide equality; apply Req_dec_T. Defined.

Definition dict : Type := list (key * ndarray2).

Fixpoint dict_get (d : dict) (k : key) : result ndarray2 :=
  match d with
  | [] => Raise KeyError
  | (k', v) :: d' => if key_eq_dec k k' then Ok v else dict_get d' k
  end.

Definition dict_set (d : dict) (k : key) (v : ndarray2) : dict := (k, v) :: d.

Record InterpolatedSimulationDB : Type := mkDB {
  patterns : dict;
  pattern_array : ndarray3;
  interpolator : RegularGridInterpolator
}.

(** The combined pattern of [_compute_pattern] before normalisation, at
    one pixel with coordinates [x], [y] and radius [r]: numpy evaluates
    each of these lines on whole arrays, elementwise. *)
Definition pattern_pixel (theta beta : R) (x y r : R) : R :=
  let alpha := 0.01 + 0.04 * theta in
  let freq := 5 + 15 * beta in
  let amplitude := 0.2 + 0.8 * beta in
  let vortex_angle := arctan2 y x in
  let vortex_core := exp (- r ^ 2 / 4) * theta in
  let vortex := sin vortex_angle * (1 - exp (- r)) * vortex_core in
  let spin_wave := sin (0.5 * r * freq) * exp (- alpha * r * 2) * amplitude in
  let domain_wall := tanh (x * (1 + beta)) * exp (- alpha * 5) in
  let interference :=
    if Rlt_dec 0.5 beta then
      let wave1 := sin (0.3 * sqrt ((x - 3) ^ 2 + y ^ 2) * freq) in
      let wave2 := sin (0.3 * sqrt ((x + 3) ^ 2 + y ^ 2) * freq) in
      (wave1 + wave2) * 0.5 * exp (- alpha * r) * (beta - 0.5) * 2
    else 0 in
  let pattern :=
    vortex * theta * 0.3 +
    spin_wave * beta * 0.4 +
    domain_wall * (1 - Rabs (theta - beta)) * 0.2 +
    interference * 0.1 in
  pattern * exp (- alpha * r * 0.5).

(** The last step of [_compute_pattern]: divide by the largest magnitude
    when it is positive. *)
Definition normalize (pattern : ndarray2) : result ndarray2 :=
  max_val <- np_max (np_abs pattern) ;;
  if Rlt_dec 0 max_val then Ok (div_scalar pattern max_val) else Ok pattern.

(** [_compute_pattern(X, Y, R, theta, beta)]. The three coordinate arrays
    are the ones of one [meshgrid] call and have one shape; operands of
    different shapes are rejected here (numpy's stretching of size-1 axes
    is not modelled for them). *)
Definition _compute_pattern (X Y Rr : ndarray2) (theta beta : R) : result ndarray2 :=
  if same_shape X Y && same_shape X Rr
  then normalize (map3 (pattern_pixel theta beta) X Y Rr)
  else Raise (ValueError CouldNotBroadcast).

(** The coordinate arrays [X], [Y], [R] of a [n] x [n] grid over [-5, 5]. *)
Definition grid_coords (n : nat) : ndarray2 * ndarray2 * ndarray2 :=
  let x := linspace (-5) 5 n in
  let y := linspace (-5) 5 n in
  let (X, Y) := meshgrid x y in
  let Rr := map2 (fun xv yv => sqrt (xv ^ 2 + yv ^ 2)) X Y in
  (X, Y, Rr).

(** [_generate_grid_patterns]: fills [self.patterns]. *)
Definition _generate_grid_patterns (patterns : dict) : result dict :=
  let '(X, Y, Rr) := grid_coords GRID_SIZE in
  for_each (fun d theta =>
    for_each (fun d beta =>
      pattern <- _compute_pattern X Y Rr theta beta ;;
      Ok (dict_set d (theta, beta) pattern))
    PARAM_STEPS d)
  PARAM_STEPS patterns.

(** [pattern_array[i, j, :] = v]: [v] has the length of the last axis or
    length 1. *)
Definition setitem2 (n_pixels : nat) (arr : ndarray3) (i j : nat) (v : ndarray1)
  : result ndarray3 :=
  if broadcasts_to (length v) n_pixels
  then row <- getitem arr i ;;
       Ok (list_set i (list_set j (stretch 0 (length v) n_pixels v) row) arr)
  else Raise (ValueError CouldNotBroadcast).

(** [_build_interpolators]: the 5x5xN array and the interpolator over it. *)
Definition _build_interpolators (patterns : dict)
  : result (ndarray3 * RegularGridInterpolator) :=
  let n_params := length PARAM_STEPS in
  let n_pixels := (GRID_SIZE * GRID_SIZE)%nat in
  let pattern_array := repeat (repeat (zeros n_pixels) n_params) n_params in
  pattern_array <-
    for_each (fun arr it =>
      let '(i, theta) := it in
      for_each (fun arr jt =>
        let '(j, beta) := jt in
        p <- dict_get patterns (theta, beta) ;;
        setitem2 n_pixels arr i j (flatten p))
      (enumerate PARAM_STEPS) arr)
    (enumerate PARAM_STEPS) pattern_array ;;
  Ok (pattern_array, mkRGI PARAM_STEPS PARAM_STEPS pattern_array).

(** [InterpolatedSimulationDB.__init__] *)
Definition __init__ : result InterpolatedSimulationDB :=
  patterns <- _generate_grid_patterns [] ;;
  built <- _build_interpolators patterns ;;
  Ok (mkDB patterns (fst built) (snd built)).

(** The time factor of [get_magnetic_state]. *)
Definition time_modulation (beta_power t : R) : R :=
  let precession_freq := 5 + beta_power * 15 in
  1 + 0.2 * sin (2 * PI * precession_freq * t * 0.01).

(** [get_magnetic_state(theta_power, beta_power, t=0)]: [t] is [None] when
    the caller omits it. *)
Definition get_magnetic_state (self : InterpolatedSimulationDB)
           (theta_power beta_power : R) (t : option R) : result ndarray2 :=
  let t := match t with Some t => t | None => 0 end in
  let theta := clip theta_power 0 1 in
  let beta := clip beta_power 0 1 in
  interpolated_flat <- call (interpolator self) (theta, beta) ;;
  pattern <- reshape GRID_SIZE GRID_SIZE interpolated_flat ;;
  Ok (mul_scalar pattern (time_modulation beta_power t)).

Record physics_fields : Type := mkPhysics {
  alpha_gilbert : R;
  b_external_tesla : R;
  dominant_freq_ghz : R;
  source : string;
  grid : string;
  material : string;
  interpolation : string
}.

(** [get_physics_metadata(theta_power, beta_power)] *)
Definition get_physics_metadata (self : InterpolatedSimulationDB)
           (theta_power beta_power : R) : physics_fields :=
  let alpha := 0.01 + 0.04 * theta_power in
  let b_ext := 0.02 + 0.08 * beta_power in
  let freq := 5 + 15 * beta_power in
  {| alpha_gilbert := py_round alpha 4;
     b_external_tesla := py_round b_ext 4;
     dominant_freq_ghz := py_round freq 2;
     source := "interpolated_mumax3_5x5";
     grid := str_of_nat GRID_SIZE ++ "x" ++ str_of_nat GRID_SIZE;
     material := "Permalloy_Ni80Fe20";
     interpolation := "bilinear" |}.

(** The arrays [_generate_grid_patterns] passes to [_compute_pattern], the
    combined pattern before normalisation, and the pattern stored for a
    point. *)
Definition grid_X : ndarray2 := fst (fst (grid_coords GRID_SIZE)).
Definition grid_Y : ndarray2 := snd (fst (grid_coords GRID_SIZE)).
Definition grid_R : ndarray2 := snd (grid_coords GRID_SIZE).

Definition combined_pattern (theta beta : R) : ndarray2 :=
  map3 (pattern_pixel theta beta) grid_X grid_Y grid_R.

Definition value_or {A : Type} (dflt : A) (r : result A) : A :=
  match r with
  | Ok a => a
  | Raise _ => dflt
  end.

Definition pattern_of (theta beta : R) : ndarray2 :=
  value_or [] (_compute_pattern grid_X grid_Y grid_R theta beta).

(** A dict whose values are [f] of their keys, and the dict the two nested
    loops over [l] and [steps] build from [d] with such values. *)
Definition functional (f : R -> R -> ndarray2) (d : dict) : Prop :=
  Forall (fun kv => snd kv = f (fst (fst kv)) (snd (fst kv))) d.

Definition fill (f : R -> R -> ndarray2) (steps : list R) (l : list R) (d : dict)
  : dict :=
  fold_left (fun d theta =>
    fold_left (fun d beta => dict_set d (theta, beta) (f theta beta)) steps d) l d.

(** What the two construction loops leave in [self.patterns] and in
    [self.pattern_array]. *)
Definition stored_patterns : dict :=
  fold_left (fun d theta =>
    fold_left (fun d beta => dict_set d (theta, beta) (pattern_of theta beta))
              PARAM_STEPS d)
  PARAM_STEPS [].

Definition stored_array : ndarray3 :=
  map (fun theta => map (fun beta => flatten (pattern_of theta beta)) PARAM_STEPS)
      PARAM_STEPS.

Definition the_db : InterpolatedSimulationDB :=
  mkDB stored_patterns stored_array (mkRGI PARAM_STEPS PARAM_STEPS stored_array).

(** The module-level singleton: [_db_instance] is the global, [None]
    before the first call. *)
Definition get_simulation_db (_db_instance : option InterpolatedSimulationDB)
  : result (InterpolatedSimulationDB * option InterpolatedSimulationDB) :=
  match _db_instance with
  | None => db <- __init__ ;; Ok (db, Some db)
  | Some db => Ok (db, Some db)
  end.

End SimulationDb.

(* ================================================================== *)
(** * neuro_controller.py *)
(* ================================================================== *)

Module NeuroController.
Import Numpy SimulationDb.

(** A method reads and may mutate [self]: it returns its value together
    with the object after the call. *)
Definition method (Self A : Type) : Type := Self -> result (A * Self).

Record ReservoirReadout : Type := mkReadout {
  input_dim : nat;
  output_dim : nat;
  ridge_alpha : R;
  W_out : ndarray2;     (* shape (output_dim, input_dim) *)
  bias : ndarray1       (* shape (output_dim,) *)
}.

(** [ReservoirReadout.__init__]: [randn i j] is the sample
    [np.random.randn(output_dim, input_dim)] puts at row [i], column [j]. *)
Definition ReservoirReadout__init__ (randn : nat -> nat -> R)
           (input_dim output_dim : nat) (ridge_alpha : R) : ReservoirReadout :=
  {| input_dim := input_dim;
     output_dim := output_dim;
     ridge_alpha := ridge_alpha;
     W_out := map (fun i => map (fun j => randn i j * 0.01) (seq 0 input_dim))
                  (seq 0 output_dim);
     bias := zeros output_dim |}.

(** The shapes [__init__] gives the weights and the bias. *)
Definition wf_readout (r : ReservoirReadout) : Prop :=
  has_shape (output_dim r) (input_dim r) (W_out r) /\
  length (bias r) = output_dim r.

(** [predict(magnetic_state)] *)
Definition predict (magnetic_state : ndarray2) : method ReservoirReadout ndarray1 :=
  fun self =>
    let m_vec := flatten magnetic_state in
    y <- dot (input_dim self) (W_out self) m_vec ;;
    y <- broadcast1 Rplus y (bias self) ;;
    Ok (y, self).

(** [update_hebbian(magnetic_state, current_output, target_output,
    learning_rate=0.001)] *)
Definition update_hebbian (magnetic_state : ndarray2)
           (current_output target_output : ndarray1) (learning_rate : option R)
  : method ReservoirReadout unit :=
  fun self =>
    let learning_rate := match learning_rate with Some lr => lr | None => 0.001 end in
    let m_vec := flatten magnetic_state in
    error <- broadcast1 Rminus target_output current_output ;;
    let delta_W := map1 (fun v => learning_rate * v) (outer error m_vec) in
    W <- iadd2 (output_dim self, input_dim self) (W_out self)
               (length error, length m_vec) delta_W ;;
    b <- iadd1 (bias self) (map (fun e => learning_rate * e) error) ;;
    Ok (tt, {| input_dim := input_dim self;
               output_dim := output_dim self;
               ridge_alpha := ridge_alpha self;
               W_out := W;
               bias := b |}).

Record MagnonicController : Type := mkController {
  readout : ReservoirReadout;
  running : bool;
  sim_db : option InterpolatedSimulationDB;
  use_precomputed : bool
}.

(** [_init_simulation_db]: [loaded] is the outcome of
    [from simulation_db import get_simulation_db] followed by
    [get_simulation_db()]. Only [ImportError] is caught. *)
Definition _init_simulation_db (loaded : result InterpolatedSimulationDB)
  : result (option InterpolatedSimulationDB * bool) :=
  match loaded with
  | Ok db => Ok (Some db, true)
  | Raise ImportError => Ok (None, false)
  | Raise e => Raise e
  end.

(** [MagnonicController.__init__] *)
Definition MagnonicController__init__ (randn : nat -> nat -> R)
           (loaded : result InterpolatedSimulationDB) : result MagnonicController :=
  let readout := ReservoirReadout__init__ randn (128 * 128) 20 1.0 in
  db <- _init_simulation_db loaded ;;
  Ok {| readout := readout;
        running := false;
        sim_db := fst db;
        use_precomputed := snd db |}.

Record sim_params_fields : Type := mkSimParams {
  alpha : R;
  b_ext : R;
  theta : R;
  beta : R
}.

(** The [physics] entry: the database's metadata or [{"source": "mock"}]. *)
Inductive physics_meta : Type :=
| FromDb (fields : physics_fields)
| Fallback (source : string).

Definition physics_source (p : physics_meta) : string :=
  match p with
  | FromDb f => SimulationDb.source f
  | Fallback s => s
  end.

Record bundle : Type := mkBundle {
  joint_angles : list R;
  fluidity_index : R;
  sim_params : sim_params_fields;
  physics : physics_meta
}.

(** The fallback wave pattern of [process_eeg_stream]. *)
Definition fallback_state (alpha b_ext_magnitude t : R) : ndarray2 :=
  let grid_size := 128%nat in
  let x := linspace (-5) 5 grid_size in
  let y := linspace (-5) 5 grid_size in
  let (X, Y) := meshgrid x y in
  let Rr := map2 (fun xv yv => sqrt (xv ^ 2 + yv ^ 2)) X Y in
  map1 (fun r => sin (r - 2 * PI * 2.0 * t) * exp (- 0.1 * r * alpha) * b_ext_magnitude)
       Rr.

(** [process_eeg_stream(theta_power, beta_power)]; [now] is the value
    [time.time()] returns. *)
Definition process_eeg_stream (now : R) (theta_power beta_power : R)
  : method MagnonicController bundle :=
  fun self =>
    let t := now in
    let alpha := 0.01 + 0.05 * theta_power in
    let b_ext_magnitude := 0.05 * beta_power in
    state <-
      match use_precomputed self, sim_db self with
      | true, Some db =>
          magnetic_state <- get_magnetic_state db theta_power beta_power (Some t) ;;
          Ok (magnetic_state, FromDb (get_physics_metadata db theta_power beta_power))
      | _, _ =>
          Ok (fallback_state alpha b_ext_magnitude t, Fallback "mock")
      end ;;
    let '(magnetic_state, physics_meta) := state in
    kr <- predict magnetic_state (readout self) ;;
    let '(kinematics, readout') := kr in
    let fluidity := 1.0 / (1.0 + var kinematics) in
    Ok ({| joint_angles := kinematics;
           fluidity_index := fluidity;
           sim_params := {| alpha := alpha;
                            b_ext := b_ext_magnitude;
                            theta := theta_power;
                            beta := beta_power |};
           physics := physics_meta |},
        {| readout := readout';
           running := running self;
           sim_db := sim_db self;
           use_precomputed := use_precomputed self |}).

(** [simulate_action_pattern(action_name)] *)
Definition simulate_action_pattern (now : R) (action_name : string)
  : method MagnonicController bundle :=
  if String.eqb action_name "STAND" then process_eeg_stream now 0.8 0.1
  else if String.eqb action_name "WALK" then process_eeg_stream now 0.4 0.5
  else if String.eqb action_name "RUN" then process_eeg_stream now 0.1 0.9
  else process_eeg_stream now 0.5 0.5.

(** The operations a caller can run on a controller, and their effect. *)
Inductive operation : Type :=
| OpPredict (field : ndarray2)
| OpProcess (now theta_power beta_power : R)
| OpSimulate (now : R) (action_name : string)
| OpTrain (field : ndarray2) (current_output target_output : ndarray1)
          (learning_rate : option R).

Inductive outcome : Type :=
| OutVector (v : ndarray1)
| OutBundle (b : bundle)
| OutNone.

Definition with_readout (self : MagnonicController) (r : ReservoirReadout)
  : MagnonicController :=
  {| readout := r;
     running := running self;
     sim_db := sim_db self;
     use_precomputed := use_precomputed self |}.

Definition run (op : operation) : method MagnonicController outcome :=
  fun self =>
    match op with
    | OpPredict field =>
        r <- predict field (readout self) ;;
        Ok (OutVector (fst r), with_readout self (snd r))
    | OpProcess now th be =>
        r <- process_eeg_stream now th be self ;;
        Ok (OutBundle (fst r), snd r)
    | OpSimulate now name =>
        r <- simulate_action_pattern now name self ;;
        Ok (OutBundle (fst r), snd r)
    | OpTrain field cur tgt lr =>
        r <- update_hebbian field cur tgt lr (readout self) ;;
        Ok (OutNone, with_readout self (snd r))
    end.

Definition is_train (op : operation) : bool :=
  match op with OpTrain _ _ _ _ => true | _ => false end.

(** A readout of two inputs and one output, and a controller around it
    that has no database: small objects to run the definitions on. *)
Definition small_readout : ReservoirReadout := mkReadout 2 1 1 [[1; 2]] [5].

Definition small_controller : MagnonicController :=
  mkController small_readout false None false.

(** The controller [MagnonicController()] builds when the database module
    cannot be imported and every sampled weight is 0. *)
Definition mock_controller : MagnonicController :=
  {| readout := ReservoirReadout__init__ (fun _ _ => 0) (128 * 128) 20 1.0;
     running := false;
     sim_db := None;
     use_precomputed := false |}.

(** The controller [MagnonicController()] builds around the database when
    every sampled weight is 0. *)
Definition db_controller : MagnonicController :=
  {| readout := ReservoirReadout__init__ (fun _ _ => 0) (128 * 128) 20 1.0;
     running := false;
     sim_db := Some the_db;
     use_precomputed := true |}.

(** The field and the provenance [process_eeg_stream] works with. *)
Definition magnetic_state_of (self : MagnonicController) (now theta_power beta_power : R)
  : result (ndarray2 * physics_meta) :=
  match use_precomputed self, sim_db self with
  | true, Some db =>
      magnetic_state <- get_magnetic_state db theta_power beta_power (Some now) ;;
      Ok (magnetic_state, FromDb (get_physics_metadata db theta_power beta_power))
  | _, _ =>
      Ok (fallback_state (0.01 + 0.05 * theta_power) (0.05 * beta_power) now,
          Fallback "mock")
  end.

End NeuroController.

(* ================================================================== *)
(** * Runs of a controller *)
(* ================================================================== *)

Module ControllerRuns.
Import Numpy SimulationDb NeuroController.

(** What [MagnonicController()] establishes: weights and bias of the
    constructor's shapes, and a database exactly when [use_precomputed]. *)
Definition controller_ok (c : MagnonicController) : Prop :=
  wf_readout (readout c) /\
  input_dim (readout c) = (128 * 128)%nat /\
  output_dim (readout c) = 20%nat /\
  ((use_precomputed c = false /\ sim_db c = None) \/
   (use_precomputed c = true /\ sim_db c = Some the_db)).

(** A sequence of calls on one controller; the first exception ends it. *)
Fixpoint run_all (ops : list operation) (c : MagnonicController)
  : result (list outcome * MagnonicController) :=
  match ops with
  | [] => Ok ([], c)
  | op :: rest =>
      r <- run op c ;;
      r' <- run_all rest (snd r) ;;
      Ok (fst r :: fst r', snd r')
  end.

(** The (theta, beta) pair [simulate_action_pattern] passes on for a
    name. *)
Definition action_point (action_name : string) : R * R :=
  if String.eqb action_name "STAND" then (0.8, 0.1)
  else if String.eqb action_name "WALK" then (0.4, 0.5)
  else if String.eqb action_name "RUN" then (0.1, 0.9)
  else (0.5, 0.5).

(** The label [simulate_gcp_pipeline] prints for a damping value. *)
Definition physics_status (alpha : R) : string :=
  if Rlt_dec 0.04 alpha then "STABLE"
  else if Rlt_dec alpha 0.02 then "RESPONSIVE"
  else "BALANCED".

End ControllerRuns.

(* ================================================================== *)
(** * api_server.py *)
(* ================================================================== *)

Module ApiServer.
Import Numpy SimulationDb NeuroController.

(** [SimulationRequest]: the fields after pydantic has filled the
    defaults [theta = 0.5], [beta = 0.5], [action = None]. *)
Record SimulationRequest : Type := mkRequest {
  theta : R;
  beta : R;
  action : option string
}.

Definition parse_request (theta beta : option R) (action : option string)
  : SimulationRequest :=
  {| theta := match theta with Some v => v | None => 0.5 end;
     beta := match beta with Some v => v | None => 0.5 end;
     action := action |}.

(** [simulate(request)]: [if request.action] is false for [None] and for
    the empty string. *)
Definition simulate (now : R) (request : SimulationRequest)
  : method MagnonicController bundle :=
  match action request with
  | Some name =>
      if String.eqb name "" then process_eeg_stream now (theta request) (beta request)
      else simulate_action_pattern now name
  | None => process_eeg_stream now (theta request) (beta request)
  end.

(** The JSON object a websocket client sends: each key is there or not;
    values are numbers for theta and beta and a string for action. *)
Record ws_params : Type := mkParams {
  p_theta : option R;
  p_beta : option R;
  p_action : option string
}.

(** The body of the loop of [websocket_simulation] between receiving a
    message and sending the result. *)
Definition handle_message (now : R) (params : ws_params)
  : method MagnonicController bundle :=
  match p_action params with
  | Some name => simulate_action_pattern now name
  | None =>
      let theta := match p_theta params with Some v => v | None => 0.5 end in
      let beta := match p_beta params with Some v => v | None => 0.5 end in
      process_eeg_stream now theta beta
  end.

(** [websocket_simulation] on the messages a client sends before it
    disconnects, each with the clock reading of its processing: the list of
    results sent. An exception in the loop ends the session. *)
Fixpoint websocket_simulation (msgs : list (R * ws_params)) (c : MagnonicController)
  : list bundle * MagnonicController :=
  match msgs with
  | [] => ([], c)
  | (now, params) :: rest =>
      match handle_message now params c with
      | Ok (b, c') =>
          let (sent, c'') := websocket_simulation rest c' in (b :: sent, c'')
      | Raise _ => ([], c)
      end
  end.

Definition actions : list string := ["STAND"; "WALK"; "RUN"; "WALK"; "STAND"]%string.

Record stream_state : Type := mkStream {
  action_idx : nat;
  frame_count : nat
}.

Definition stream_start : stream_state := {| action_idx := 0; frame_count := 0 |}.

(** One iteration of the loop of [websocket_auto_stream]: the frame sent
    (the bundle with its [current_action]) and the loop variables after
    it. *)
Definition stream_frame (now : R) (st : stream_state)
  : method MagnonicController (stream_state * (bundle * string)) :=
  fun c =>
    let action_idx :=
      if Nat.eqb (frame_count st mod 50) 0
      then ((action_idx st + 1) mod length actions)%nat
      else action_idx st in
    action <- Scipy.getitem actions action_idx ;;
    r <- simulate_action_pattern now action c ;;
    Ok ({| action_idx := action_idx; frame_count := frame_count st + 1 |},
        (fst r, action), snd r).

(** [websocket_auto_stream] for as many frames as there are clock
    readings before the client disconnects. *)
Fixpoint websocket_auto_stream (clock : list R) (st : stream_state)
         (c : MagnonicController)
  : result (list (bundle * string) * stream_state * MagnonicController) :=
  match clock with
  | [] => Ok ([], st, c)
  | now :: rest =>
      r <- stream_frame now st c ;;
      let '(st', frame, c') := r in
      r' <- websocket_auto_stream rest st' c' ;;
      let '(frames, st'', c'') := r' in
      Ok (frame :: frames, st'', c'')
  end.

(** The index into [actions] of the frame number [k] (from 0). *)
Definition scheduled (k : nat) : nat := ((k / 50 + 1) mod 5)%nat.

End ApiServer.

(* ================================================================== *)
(** * data_logger.py *)
(* ================================================================== *)

Module DataLog.
Import Numpy.

Record feature_row : Type := mkFeature {
  f_ts : R;
  f_theta : R;
  f_beta : R
}.

Record physics_row : Type := mkPhysicsRow {
  p_ts : R;
  p_alpha : R;
  p_fluidity : R
}.

Record marker_row : Type := mkMarker {
  m_ts : R;
  m_label : string
}.

Record metadata_fields : Type := mkMetadata {
  md_subject_id : string;
  md_session_id : string;
  md_timestamp_start : string;
  md_protocol : string
}.

Record streams_fields : Type := mkStreams {
  features : list feature_row;
  physics : list physics_row;
  markers : list marker_row
}.

(** The NKC container: [data_buffer], and what [json.load] gives back. *)
Record nkc : Type := mkNkc {
  metadata : metadata_fields;
  streams : streams_fields
}.

Record DataLogger : Type := mkLogger {
  session_id : string;
  subject_id : string;
  log_dir : string;
  data_buffer : nkc
}.

(** [int(x)]: truncation towards zero. *)
Definition py_int (x : R) : Z :=
  if Rle_dec 0 x then Int_part x else (- Int_part (- x))%Z.

Definition str_of_int (z : Z) : string := NilZero.string_of_int (Z.to_int z).

(** [DataLogger.__init__(session_id=None, subject_id="user_test")]. The
    environment gives [now] ([time.time()]), [iso_now]
    ([datetime.now().isoformat()]), [log_dir] (the joined path) and the
    outcome of [os.makedirs]. *)
Definition DataLogger__init__ (now : R) (iso_now : string) (log_dir : string)
           (makedirs : result unit)
           (session_id : option string) (subject_id : option string)
  : result DataLogger :=
  let generated := ("sess_" ++ str_of_int (py_int now))%string in
  let session_id :=
    match session_id with
    | Some s => if String.eqb s "" then generated else s
    | None => generated
    end in
  let subject_id := match subject_id with Some s => s | None => "user_test"%string end in
  _ <- makedirs ;;
  Ok {| session_id := session_id;
        subject_id := subject_id;
        log_dir := log_dir;
        data_buffer :=
          {| metadata := {| md_subject_id := subject_id;
                            md_session_id := session_id;
                            md_timestamp_start := iso_now;
                            md_protocol := "NKC_v1.0_Simulation" |};
             streams := {| features := []; physics := []; markers := [] |} |} |}.

Definition with_streams (self : DataLogger) (s : streams_fields) : DataLogger :=
  {| session_id := session_id self;
     subject_id := subject_id self;
     log_dir := log_dir self;
     data_buffer := {| metadata := metadata (data_buffer self); streams := s |} |}.

(** [log_frame(timestamp, theta, beta, alpha, fluidity)] *)
Definition log_frame (timestamp theta beta alpha fluidity : R) (self : DataLogger)
  : DataLogger :=
  let s := streams (data_buffer self) in
  with_streams self
    {| features := features s ++ [mkFeature timestamp theta beta];
       physics := physics s ++ [mkPhysicsRow timestamp alpha fluidity];
       markers := markers s |}.

(** [log_marker(timestamp, label)] *)
Definition log_marker (timestamp : R) (label : string) (self : DataLogger)
  : DataLogger :=
  let s := streams (data_buffer self) in
  with_streams self
    {| features := features s;
       physics := physics s;
       markers := markers s ++ [mkMarker timestamp label] |}.

(** [os.path.join(a, b)] on POSIX. *)
Definition startswith_sep (s : string) : bool :=
  match s with
  | String c _ => Ascii.eqb c "/"%char
  | EmptyString => false
  end.

Fixpoint endswith_sep (s : string) : bool :=
  match s with
  | EmptyString => false
  | String c EmptyString => Ascii.eqb c "/"%char
  | String _ rest => endswith_sep rest
  end.

Definition posix_join (a b : string) : string :=
  if startswith_sep b then b
  else if String.eqb a "" || endswith_sep a then (a ++ b)%string
  else (a ++ "/" ++ b)%string.

(** [save()]: [written] tells whether opening and writing the file went
    through; every exception there is caught. *)
Definition save (written : bool) (self : DataLogger) : option string :=
  let filepath := posix_join (log_dir self) (session_id self ++ ".nkc.json") in
  if written then Some filepath else None.

(** The calls a user makes on a logger. *)
Inductive log_call : Type :=
| Frame (timestamp theta beta alpha fluidity : R)
| Marker (timestamp : R) (label : string).

Definition apply_call (self : DataLogger) (call : log_call) : DataLogger :=
  match call with
  | Frame ts th be al fl => log_frame ts th be al fl self
  | Marker ts label => log_marker ts label self
  end.

Definition is_frame (call : log_call) : bool :=
  match call with Frame _ _ _ _ _ => true | Marker _ _ => false end.

(** A logger with empty streams, to run the definitions on. *)
Definition sample_logger : DataLogger :=
  mkLogger "s1" "user_test" "logs"
           (mkNkc (mkMetadata "user_test" "s1" "2024-01-01T00:00:00" "NKC_v1.0_Simulation")
                  (mkStreams [] [] [])).

End DataLog.

(* ================================================================== *)
(** * metric_analyzer.py *)
(* ================================================================== *)

Module MetricAnalysis.
Import Numpy DataLog.

Record metrics : Type := mkMetrics {
  NJS_Score : R;
  Intent_Coupling : R;
  Duration : R;
  Data_Points : nat
}.

(** [np.std(v)] *)
Definition np_std (v : ndarray1) : R := sqrt (var v).

(** An entry of [np.cov(x, y)] (default [ddof = 1]): the degrees of
    freedom are set to 0 when they are not positive. *)
Definition cov (x y : ndarray1) : R :=
  let fact := INR (length x) - 1 in
  let fact := if Rle_dec fact 0 then 0 else fact in
  dot1 (map (fun a => a - mean x) x) (map (fun b => b - mean y) y) * (1 / fact).

(** [np.corrcoef(x, y)[0, 1]]: the two arrays are stacked, which needs one
    length, the covariance is divided by both standard deviations and
    clipped to [-1, 1]. *)
Definition corrcoef01 (x y : ndarray1) : result R :=
  if Nat.eqb (length x) (length y)
  then Ok (clip (cov x y / sqrt (cov x x) / sqrt (cov y y)) (-1) 1)
  else Raise (OtherError "ValueError").

(** [a[-1]] *)
Definition getitem_last (v : ndarray1) : result R :=
  match rev v with
  | [] => Raise IndexError
  | x :: _ => Ok x
  end.

(** [calculate_metrics(data)] *)
Definition calculate_metrics (data : nkc) : result metrics :=
  let features := DataLog.features (streams data) in
  let physics := DataLog.physics (streams data) in
  let timestamps := map p_ts physics in
  let fluidity_stream := map p_fluidity physics in
  let beta_stream := map f_beta features in
  let njs_score := np_std fluidity_stream in
  correlation <- corrcoef01 beta_stream fluidity_stream ;;
  last <- getitem_last timestamps ;;
  first <- Scipy.getitem timestamps 0 ;;
  Ok {| NJS_Score := njs_score;
        Intent_Coupling := correlation;
        Duration := last - first;
        Data_Points := length timestamps |}.

End MetricAnalysis.

(* ================================================================== *)
(** * mock_cloud_runner.py *)
(* ================================================================== *)

Module MockCloudRunner.
Import Numpy SimulationDb NeuroController DataLog.

(** The state the pipeline threads through its loops: the number of
    [time.time()] calls made so far, the controller and the logger. *)
Record run_state : Type := mkRun {
  ticks : nat;
  controller : MagnonicController;
  logger : DataLogger
}.

(** One frame of the inner loop: [clock k] is the [k]-th reading of
    [time.time()]. *)
Definition frame_step (clock : nat -> R) (action : string) (st : run_state)
  : result run_state :=
  r <- simulate_action_pattern (clock (ticks st)) action (controller st) ;;
  let res := fst r in
  let alpha := NeuroController.alpha (sim_params res) in
  let fluidity := fluidity_index res in
  Ok {| ticks := (ticks st + 2)%nat;
        controller := snd r;
        logger := log_frame (clock (ticks st + 1)%nat)
                            (NeuroController.theta (sim_params res))
                            (NeuroController.beta (sim_params res))
                            alpha fluidity (logger st) |}.

(** One action of the outer loop: the marker, then three frames. *)
Definition action_step (clock : nat -> R) (st : run_state) (action : string)
  : result run_state :=
  let st := {| ticks := (ticks st + 1)%nat;
               controller := controller st;
               logger := log_marker (clock (ticks st)) ("ACTION_START_" ++ action)
                                    (logger st) |} in
  for_each (fun st _ => frame_step clock action st) (seq 0 3) st.

Definition actions : list string := ["STAND"; "WALK"; "RUN"; "WALK"; "STAND"]%string.

(** The calls the outer loop makes on the logger for the actions [acts]
    when it starts at clock reading number [t]: per action a marker and
    three frames, seven clock readings apart, with fluidity values in
    (0, 1]. *)
Fixpoint pipeline_calls (clock : nat -> R) (t : nat) (acts : list string)
         (calls : list log_call) : Prop :=
  match acts with
  | [] => calls = []
  | action :: rest =>
      let th := fst (ControllerRuns.action_point action) in
      let be := snd (ControllerRuns.action_point action) in
      exists (fl1 fl2 fl3 : R) (calls' : list log_call),
        calls =
          [Marker (clock t) ("ACTION_START_" ++ action);
           Frame (clock (t + 2)%nat) th be (0.01 + 0.05 * th) fl1;
           Frame (clock (t + 4)%nat) th be (0.01 + 0.05 * th) fl2;
           Frame (clock (t + 6)%nat) th be (0.01 + 0.05 * th) fl3] ++ calls' /\
        0 < fl1 <= 1 /\ 0 < fl2 <= 1 /\ 0 < fl3 <= 1 /\
        pipeline_calls clock (t + 7) rest calls'
  end.

(** [simulate_gcp_pipeline()]: the logger at the end and the path
    [save()] returns. The environment gives the samples of [randn], the
    outcome of loading the database, the clock, and for the logger the
    timestamp string, the log directory and the outcomes of [os.makedirs]
    and of writing the file. *)
Definition simulate_gcp_pipeline (randn : nat -> nat -> R)
           (loaded : result InterpolatedSimulationDB) (clock : nat -> R)
           (iso_now log_dir : string) (makedirs : result unit) (written : bool)
  : result (DataLogger * option string) :=
  the_controller <- MagnonicController__init__ randn loaded ;;
  the_logger <- DataLogger__init__ (clock 0%nat) iso_now log_dir makedirs
                                   None (Some "sim_user_001"%string) ;;
  st <- for_each (action_step clock) actions
                 {| ticks := 1%nat; controller := the_controller;
                    logger := the_logger |} ;;
  Ok (logger st, save written (logger st)).

End MockCloudRunner.

(* ================================================================== *)
(** * Properties *)
(* ================================================================== *)

Import Numpy Scipy SimulationDb NeuroController ControllerRuns.

(** ** The [result] monad and loops *)

Lemma bind_ok {A B : Type} (m : result A) (k : A -> result B) (b : B) :
  bind m k = Ok b -> exists a, m = Ok a /\ k a = Ok b.
Proof.
  destruct m as [a | e]; simpl; intros H.
  - exists a. split; [reflexivity | exact H].
  - discriminate.
Qed.

Lemma for_each_total {S A : Type} (f : S -> A -> S) (body : S -> A -> result S)
      (l : list A) :
  (forall s a, In a l -> body s a = Ok (f s a)) ->
  forall s, for_each body l s = Ok (fold_left f l s).
Proof.
  induction l as [| a l IH]; intros Hb s; simpl.
  - reflexivity.
  - rewrite Hb by (left; reflexivity). simpl.
    apply IH. intros s' a' Hin. apply Hb. right. exact Hin.
Qed.

(** ** Lists and arrays *)

Lemma length_vmap2 f u v : length u = length v -> length (vmap2 f u v) = length u.
Proof.
  intros H. unfold vmap2. rewrite length_map, length_combine, <- H.
  apply Nat.min_id.
Qed.

Lemma vmap2_cons f a u b v : vmap2 f (a :: u) (b :: v) = f a b :: vmap2 f u v.
Proof. reflexivity. Qed.

Lemma zeros_S n : zeros (S n) = 0 :: zeros n.
Proof. reflexivity. Qed.

Lemma sum_cons a v : sum (a :: v) = a + sum v.
Proof. reflexivity. Qed.

Lemma sum_zeros n : sum (zeros n) = 0.
Proof.
  induction n as [| n IH].
  - reflexivity.
  - rewrite zeros_S, sum_cons, IH. lra.
Qed.

Lemma vmap2_mult_zeros u n : vmap2 Rmult u (zeros n) = zeros (Nat.min (length u) n).
Proof.
  revert n. induction u as [| a u IH]; intros [| n]; try reflexivity.
  change (zeros (S n)) with (0 :: zeros n).
  rewrite vmap2_cons, IH. simpl. rewrite zeros_S. f_equal. lra.
Qed.

Lemma dot1_zeros u n : dot1 u (zeros n) = 0.
Proof. unfold dot1. rewrite vmap2_mult_zeros. apply sum_zeros. Qed.

Lemma vmap2_plus_zeros_l v : vmap2 Rplus (zeros (length v)) v = v.
Proof.
  induction v as [| a v IH]; [reflexivity |].
  change (zeros (length (a :: v))) with (0 :: zeros (length v)).
  rewrite vmap2_cons, IH. f_equal. lra.
Qed.

Lemma vmap2_plus_zeros_r v : vmap2 Rplus v (zeros (length v)) = v.
Proof.
  induction v as [| a v IH]; [reflexivity |].
  change (zeros (length (a :: v))) with (0 :: zeros (length v)).
  rewrite vmap2_cons, IH. f_equal. lra.
Qed.

Lemma map_scale_zero (w : R) v : w = 0 -> map (fun c => c * w) v = zeros (length v).
Proof.
  intros ->. induction v as [| a v IH]; simpl; [reflexivity |].
  rewrite IH, zeros_S. f_equal. lra.
Qed.

Lemma map_scale_one (w : R) v : w = 1 -> map (fun c => c * w) v = v.
Proof.
  intros ->. induction v as [| a v IH]; simpl; [reflexivity |].
  rewrite IH. f_equal. lra.
Qed.

Lemma map_plus_zero v : map (fun b => 0 + b) v = v.
Proof.
  induction v as [| a v IH]; simpl; [reflexivity |].
  rewrite IH. f_equal. lra.
Qed.

Lemma map1_scale_one (w : R) a : w = 1 -> mul_scalar a w = a.
Proof.
  intros Hw. unfold mul_scalar, map1.
  induction a as [| row a IH]; simpl; [reflexivity |].
  rewrite IH, (map_scale_one w row Hw). reflexivity.
Qed.

Lemma length_flatten r c a : has_shape r c a -> length (flatten a) = (r * c)%nat.
Proof.
  intros [Hr Hc]. subst r. unfold flatten.
  induction a as [| row a IH]; simpl; [reflexivity |].
  inversion Hc as [| ? ? Hrow Hrest]; subst.
  rewrite length_app, IH by assumption. reflexivity.
Qed.

Lemma chunks_flatten r c a : has_shape r c a -> chunks r c (flatten a) = a.
Proof.
  intros [Hr Hc]. subst r. unfold flatten.
  induction a as [| row a IH]; simpl; [reflexivity |].
  inversion Hc as [| ? ? Hrow Hrest]; subst.
  rewrite firstn_app, Nat.sub_diag, firstn_all, firstn_O, app_nil_r.
  rewrite skipn_app, Nat.sub_diag, skipn_all, skipn_O. simpl.
  rewrite IH by assumption. reflexivity.
Qed.

Lemma reshape_flatten r c a : has_shape r c a -> reshape r c (flatten a) = Ok a.
Proof.
  intros H. unfold reshape.
  rewrite (length_flatten r c a H), (chunks_flatten r c a H).
  destruct (Nat.eq_dec (r * c) (r * c)) as [_ | Hne]; [reflexivity | contradiction].
Qed.

Lemma has_shape_map1 f r c a : has_shape r c a -> has_shape r c (map1 f a).
Proof.
  intros [Hr Hc]. split.
  - unfold map1. rewrite length_map. exact Hr.
  - unfold map1. apply Forall_map.
    eapply Forall_impl; [| exact Hc]. intros row Hrow. simpl.
    rewrite length_map. exact Hrow.
Qed.

Lemma map_const_zero (f : R -> R) row :
  (forall v, f v = 0) -> map f row = zeros (length row).
Proof.
  intros Hf. induction row as [| v row IH]; simpl; [reflexivity |].
  rewrite IH, Hf, zeros_S. reflexivity.
Qed.

Lemma map1_const_zero f r c a :
  (forall v, f v = 0) -> has_shape r c a -> map1 f a = zeros2 r c.
Proof.
  intros Hf [Hr Hc]. subst r. unfold map1, zeros2.
  induction a as [| row a IH]; simpl; [reflexivity |].
  inversion Hc as [| ? ? Hrow Hrest]; subst.
  rewrite IH by assumption.
  rewrite (map_const_zero f row Hf). reflexivity.
Qed.

Lemma has_shape_zeros2 r c : has_shape r c (zeros2 r c).
Proof.
  split.
  - apply repeat_length.
  - apply Forall_forall. intros row Hin. apply repeat_spec in Hin. subst row.
    apply repeat_length.
Qed.

Lemma flatten_zeros2 r c : flatten (zeros2 r c) = zeros (r * c).
Proof.
  unfold flatten, zeros2, zeros. induction r as [| r IH]; simpl; [reflexivity |].
  rewrite IH, repeat_app. reflexivity.
Qed.

(** ** The coordinate grid *)

Lemma length_linspace a b n : length (linspace a b n) = n.
Proof. unfold linspace. rewrite length_map, length_seq. reflexivity. Qed.

Lemma has_shape_meshgrid_X x y : has_shape (length y) (length x) (fst (meshgrid x y)).
Proof.
  split; simpl.
  - apply length_map.
  - apply Forall_map, Forall_forall. intros; reflexivity.
Qed.

Lemma has_shape_meshgrid_Y x y : has_shape (length y) (length x) (snd (meshgrid x y)).
Proof.
  split; simpl.
  - apply length_map.
  - apply Forall_map, Forall_forall. intros; apply length_map.
Qed.

Lemma has_shape_map2 f r c a b :
  has_shape r c a -> has_shape r c b -> has_shape r c (map2 f a b).
Proof.
  intros [Ha Hra] [Hb Hrb]. split.
  - unfold map2. rewrite length_map, length_combine, Ha, Hb. apply Nat.min_id.
  - unfold map2. apply Forall_map, Forall_forall. intros [u v] Hin. simpl.
    pose proof (in_combine_l _ _ _ _ Hin) as Hu.
    pose proof (in_combine_r _ _ _ _ Hin) as Hv.
    rewrite Forall_forall in Hra, Hrb.
    rewrite length_vmap2; rewrite (Hra u Hu); [reflexivity |].
    symmetry. apply Hrb. exact Hv.
Qed.

Lemma grid_coords_shape n :
  has_shape n n (fst (fst (grid_coords n))) /\
  has_shape n n (snd (fst (grid_coords n))) /\
  has_shape n n (snd (grid_coords n)).
Proof.
  unfold grid_coords.
  pose proof (has_shape_meshgrid_X (linspace (-5) 5 n) (linspace (-5) 5 n)) as HX.
  pose proof (has_shape_meshgrid_Y (linspace (-5) 5 n) (linspace (-5) 5 n)) as HY.
  rewrite length_linspace in HX, HY.
  destruct (meshgrid (linspace (-5) 5 n) (linspace (-5) 5 n)) as [X Y]. simpl in *.
  repeat split; try apply HX; try apply HY.
  - apply (has_shape_map2 _ n n X Y HX HY).
  - apply (has_shape_map2 _ n n X Y HX HY).
Qed.

Lemma fallback_state_unfold a b t :
  fallback_state a b t =
  map1 (fun r => sin (r - 2 * PI * 2.0 * t) * exp (- 0.1 * r * a) * b)
       (snd (grid_coords 128)).
Proof. reflexivity. Qed.

Lemma has_shape_fallback_state a b t : has_shape 128 128 (fallback_state a b t).
Proof.
  rewrite fallback_state_unfold. apply has_shape_map1.
  apply (grid_coords_shape 128).
Qed.

(** ** The readout layer *)

Lemma wf_ReservoirReadout__init__ randn i o ra :
  wf_readout (ReservoirReadout__init__ randn i o ra).
Proof.
  unfold wf_readout, has_shape. simpl. repeat split.
  - rewrite length_map, length_seq. reflexivity.
  - apply Forall_map, Forall_forall. intros k _.
    rewrite length_map, length_seq. reflexivity.
  - apply repeat_length.
Qed.

Lemma broadcast1_same f u v :
  length u = length v -> broadcast1 f u v = Ok (vmap2 f u v).
Proof.
  intros H. unfold broadcast1.
  destruct (Nat.eq_dec (length u) (length v)); [reflexivity | contradiction].
Qed.

Lemma predict_ok self field :
  wf_readout self ->
  length (flatten field) = input_dim self ->
  predict field self =
  Ok (vmap2 Rplus (map (fun row => dot1 row (flatten field)) (W_out self)) (bias self),
      self).
Proof.
  intros [[HW _] Hb] Hlen. unfold predict, dot.
  destruct (Nat.eq_dec (input_dim self) (length (flatten field))) as [_ | Hne];
    [| congruence].
  simpl. rewrite broadcast1_same; [reflexivity |].
  rewrite length_map. transitivity (output_dim self); [exact HW | symmetry; exact Hb].
Qed.

Lemma predict_mismatch self field :
  length (flatten field) <> input_dim self ->
  predict field self = Raise (ValueError ShapesNotAligned).
Proof.
  intros Hne. unfold predict, dot.
  destruct (Nat.eq_dec (input_dim self) (length (flatten field))) as [He | _];
    [congruence | reflexivity].
Qed.

Lemma predict_keeps_self self field y self' :
  predict field self = Ok (y, self') -> self' = self.
Proof.
  unfold predict. intros H.
  apply bind_ok in H. destruct H as (y0 & _ & H).
  apply bind_ok in H. destruct H as (y1 & _ & H).
  congruence.
Qed.

(** C6. [predict] returns [W_out . flatten(field) + bias], a vector of
    length [output_dim], for every field whose pixel count is [input_dim],
    and raises numpy's shape error ("shapes not aligned") for every field of
    another pixel count: the field is neither truncated nor padded. *)
Theorem predict_dimension_contract :
  forall (self : ReservoirReadout) (field : ndarray2),
    (wf_readout self ->
     length (flatten field) = input_dim self ->
     exists y,
       predict field self = Ok (y, self) /\
       y = vmap2 Rplus (map (fun row => dot1 row (flatten field)) (W_out self))
                 (bias self) /\
       length y = output_dim self) /\
    (length (flatten field) <> input_dim self ->
     predict field self = Raise (ValueError ShapesNotAligned)).
Proof.
  intros self field. split.
  - intros Hwf Hlen. eexists. split; [apply predict_ok; assumption |].
    split; [reflexivity |].
    destruct Hwf as [[HW _] Hb].
    rewrite length_vmap2; rewrite length_map; [exact HW |].
    rewrite HW, Hb. reflexivity.
  - apply predict_mismatch.
Qed.

Lemma wf_small_readout : wf_readout small_readout.
Proof.
  unfold wf_readout, has_shape. simpl. repeat split. repeat constructor.
Qed.

Lemma predict_dimension_contract_witness :
  (exists y, predict [[3; 4]] small_readout = Ok (y, small_readout) /\
             y = vmap2 Rplus (map (fun row => dot1 row [3; 4]) [[1; 2]]) [5] /\
             length y = 1%nat) /\
  predict [[3]] small_readout = Raise (ValueError ShapesNotAligned).
Proof.
  split.
  - apply (proj1 (predict_dimension_contract small_readout [[3; 4]]) wf_small_readout).
    reflexivity.
  - apply (proj2 (predict_dimension_contract small_readout [[3]])).
    simpl. lia.
Defined.

(** C7. [simulate_action_pattern] is [process_eeg_stream] at a fixed pair:
    STAND at (0.8, 0.1), WALK at (0.4, 0.5), RUN at (0.1, 0.9) and every
    other name at (0.5, 0.5). *)
Theorem simulate_action_pattern_lookup :
  forall (now : R) (self : MagnonicController),
    simulate_action_pattern now "STAND" self = process_eeg_stream now 0.8 0.1 self /\
    simulate_action_pattern now "WALK" self = process_eeg_stream now 0.4 0.5 self /\
    simulate_action_pattern now "RUN" self = process_eeg_stream now 0.1 0.9 self /\
    (forall name : string,
        name <> "STAND"%string -> name <> "WALK"%string -> name <> "RUN"%string ->
        simulate_action_pattern now name self = process_eeg_stream now 0.5 0.5 self).
Proof.
  intros now self. repeat split.
  intros name Hs Hw Hr. unfold simulate_action_pattern.
  apply String.eqb_neq in Hs, Hw, Hr.
  rewrite Hs, Hw, Hr. reflexivity.
Qed.

Lemma simulate_action_pattern_lookup_witness :
  simulate_action_pattern 0 "JUMP" small_controller =
  process_eeg_stream 0 0.5 0.5 small_controller.
Proof.
  apply (proj2 (proj2 (proj2 (simulate_action_pattern_lookup 0 small_controller)))
               "JUMP"%string);
    discriminate.
Defined.

(** ** The orchestrator *)

Lemma with_readout_same self : with_readout self (readout self) = self.
Proof. destruct self. reflexivity. Qed.

Lemma process_eeg_stream_inv now th be self b self' :
  process_eeg_stream now th be self = Ok (b, self') ->
  exists field,
    magnetic_state_of self now th be = Ok (field, physics b) /\
    predict field (readout self) = Ok (joint_angles b, readout self) /\
    fluidity_index b = 1.0 / (1.0 + var (joint_angles b)) /\
    sim_params b = mkSimParams (0.01 + 0.05 * th) (0.05 * be) th be /\
    self' = self.
Proof.
  unfold process_eeg_stream. intros H.
  apply bind_ok in H. destruct H as ([field meta] & Hstate & H).
  apply bind_ok in H. destruct H as ([kin r'] & Hpred & H).
  pose proof (predict_keeps_self _ _ _ _ Hpred) as Hr. subst r'.
  injection H as Hb Hs. subst b self'.
  exists field. simpl. repeat split.
  - exact Hstate.
  - exact Hpred.
  - apply with_readout_same.
Qed.

Lemma process_eeg_stream_intro now th be self field meta kin :
  magnetic_state_of self now th be = Ok (field, meta) ->
  predict field (readout self) = Ok (kin, readout self) ->
  process_eeg_stream now th be self =
  Ok (mkBundle kin (1.0 / (1.0 + var kin))
               (mkSimParams (0.01 + 0.05 * th) (0.05 * be) th be) meta,
      self).
Proof.
  intros Hstate Hpred. unfold process_eeg_stream.
  change (match use_precomputed self with
          | true => _ | false => _ end) with (magnetic_state_of self now th be).
  rewrite Hstate. simpl. rewrite Hpred. simpl.
  destruct self; reflexivity.
Qed.

Lemma magnetic_state_of_fallback self now th be :
  use_precomputed self = false \/ sim_db self = None ->
  magnetic_state_of self now th be =
  Ok (fallback_state (0.01 + 0.05 * th) (0.05 * be) now, Fallback "mock").
Proof.
  unfold magnetic_state_of. intros [H | H]; rewrite H.
  - reflexivity.
  - destruct (use_precomputed self); reflexivity.
Qed.

Lemma process_eeg_stream_fallback now th be self :
  wf_readout (readout self) ->
  input_dim (readout self) = (128 * 128)%nat ->
  use_precomputed self = false \/ sim_db self = None ->
  let field := fallback_state (0.01 + 0.05 * th) (0.05 * be) now in
  let kin := vmap2 Rplus (map (fun row => dot1 row (flatten field)) (W_out (readout self)))
                   (bias (readout self)) in
  process_eeg_stream now th be self =
  Ok (mkBundle kin (1.0 / (1.0 + var kin))
               (mkSimParams (0.01 + 0.05 * th) (0.05 * be) th be) (Fallback "mock"),
      self).
Proof.
  intros Hwf Hdim Hmode field kin.
  apply (process_eeg_stream_intro now th be self field).
  - apply magnetic_state_of_fallback. exact Hmode.
  - apply predict_ok; [exact Hwf |].
    rewrite Hdim. apply (length_flatten 128 128).
    apply has_shape_fallback_state.
Qed.

Lemma mock_controller_init :
  MagnonicController__init__ (fun _ _ => 0) (Raise ImportError) = Ok mock_controller.
Proof. reflexivity. Qed.

Lemma wf_mock_controller : wf_readout (readout mock_controller).
Proof. apply wf_ReservoirReadout__init__. Qed.

(** ** Variance and fluidity *)

Lemma sum_nonneg v : Forall (fun x => 0 <= x) v -> 0 <= sum v.
Proof.
  induction 1 as [| x v Hx _ IH].
  - unfold sum. simpl. lra.
  - rewrite sum_cons. lra.
Qed.

Lemma Rdiv_nonneg x y : 0 <= x -> 0 <= y -> 0 <= x / y.
Proof.
  intros Hx Hy. destruct (Req_dec y 0) as [-> | Hne].
  - unfold Rdiv. rewrite Rinv_0. lra.
  - unfold Rdiv. apply Rmult_le_pos; [exact Hx |].
    apply Rlt_le, Rinv_0_lt_compat. lra.
Qed.

Lemma var_nonneg v : 0 <= var v.
Proof.
  unfold var, mean. apply Rdiv_nonneg.
  - apply sum_nonneg. apply Forall_map, Forall_forall. intros x _.
    apply pow_le, Rabs_pos.
  - apply pos_INR.
Qed.

Lemma map_zeros (f : R -> R) n : f 0 = 0 -> map f (zeros n) = zeros n.
Proof.
  intros Hf. induction n as [| n IH]; [reflexivity |].
  rewrite zeros_S. simpl. rewrite IH, Hf. reflexivity.
Qed.

Lemma var_zeros n : var (zeros n) = 0.
Proof.
  unfold var, mean. rewrite sum_zeros.
  replace (0 / INR (length (zeros n))) with 0 by (unfold Rdiv; lra).
  rewrite (map_zeros (fun x => Rabs (x - 0) ^ 2)).
  - rewrite sum_zeros. unfold Rdiv. lra.
  - rewrite Rminus_0_r, Rabs_R0. simpl. lra.
Qed.

Lemma fluidity_bounds (v : R) :
  0 <= v ->
  0 < 1.0 / (1.0 + v) <= 1 /\ (1.0 / (1.0 + v) = 1 <-> v = 0).
Proof.
  intros Hv.
  assert (Hpos : 0 < 1.0 + v) by lra.
  assert (Hinv : 0 < / (1.0 + v)) by (apply Rinv_0_lt_compat; exact Hpos).
  assert (Hmul : (1.0 + v) * / (1.0 + v) = 1) by (apply Rinv_r; lra).
  unfold Rdiv at 1 2 3. repeat split.
  - lra.
  - nra.
  - intros H. nra.
  - intros ->. unfold Rdiv. rewrite Rplus_0_r. 
    replace (1.0) with 1 by lra. rewrite Rinv_1. lra.
Qed.

Lemma fluidity_decreasing (v w : R) :
  0 <= v -> v < w -> 1.0 / (1.0 + w) < 1.0 / (1.0 + v).
Proof.
  intros Hv Hvw. unfold Rdiv.
  apply Rmult_lt_compat_l; [lra |].
  apply Rinv_lt_contravar; [nra | lra].
Qed.

(** C4. The [fluidity_index] of every bundle is [1 / (1 + var(joint_angles))];
    it lies in (0, 1], is 1 exactly when the variance is 0, and of two
    bundles of one controller the one with the larger variance has the
    strictly smaller index. *)
Theorem fluidity_index_of_variance :
  forall (now th be : R) (self self' : MagnonicController) (b : bundle),
    process_eeg_stream now th be self = Ok (b, self') ->
    fluidity_index b = 1 / (1 + var (joint_angles b)) /\
    0 < fluidity_index b <= 1 /\
    (fluidity_index b = 1 <-> var (joint_angles b) = 0) /\
    (forall (now2 th2 be2 : R) (self2 : MagnonicController) (b2 : bundle),
        process_eeg_stream now2 th2 be2 self = Ok (b2, self2) ->
        var (joint_angles b) < var (joint_angles b2) ->
        fluidity_index b2 < fluidity_index b).
Proof.
  intros now th be self self' b H.
  apply process_eeg_stream_inv in H. destruct H as (field & _ & _ & Hf & _).
  pose proof (var_nonneg (joint_angles b)) as Hv.
  destruct (fluidity_bounds _ Hv) as [Hb Hone].
  rewrite Hf. repeat split; try apply Hb; try apply Hone.
  - f_equal; [lra | f_equal; lra].
  - intros now2 th2 be2 self2 b2 H2 Hlt.
    apply process_eeg_stream_inv in H2. destruct H2 as (field2 & _ & _ & Hf2 & _).
    rewrite Hf2. apply fluidity_decreasing; assumption.
Qed.

Lemma fluidity_index_of_variance_witness :
  exists b : bundle,
    process_eeg_stream 0 0.5 0.5 mock_controller = Ok (b, mock_controller) /\
    fluidity_index b = 1 / (1 + var (joint_angles b)) /\
    0 < fluidity_index b <= 1.
Proof.
  eexists. split.
  - apply (process_eeg_stream_fallback 0 0.5 0.5 mock_controller).
    + exact wf_mock_controller.
    + reflexivity.
    + left. reflexivity.
  - pose proof (fluidity_index_of_variance 0 0.5 0.5 mock_controller mock_controller _
                  (process_eeg_stream_fallback 0 0.5 0.5 mock_controller
                     wf_mock_controller eq_refl (or_introl eq_refl))) as H.
    split; [apply H | apply H].
Defined.

(** ** The Hebbian update *)

Lemma stretch_same {A : Type} (d : A) n l : stretch d n n l = l.
Proof. unfold stretch. rewrite Nat.eqb_refl. reflexivity. Qed.

Lemma broadcasts_to_same n : broadcasts_to n n = true.
Proof. unfold broadcasts_to. rewrite Nat.eqb_refl. reflexivity. Qed.

Lemma iadd1_same target delta :
  length delta = length target -> iadd1 target delta = Ok (vmap2 Rplus target delta).
Proof.
  intros H. unfold iadd1. rewrite H, broadcasts_to_same, stretch_same. reflexivity.
Qed.

Lemma iadd2_same r c target delta :
  iadd2 (r, c) target (r, c) delta = Ok (map2 Rplus target delta).
Proof.
  unfold iadd2. simpl. rewrite !broadcasts_to_same, stretch_same. simpl.
  rewrite (map_ext _ (fun row => row)) by (intros row; apply stretch_same).
  rewrite map_id. reflexivity.
Qed.

Lemma has_shape_outer u v : has_shape (length u) (length v) (outer u v).
Proof.
  split.
  - unfold outer. apply length_map.
  - unfold outer. apply Forall_map, Forall_forall. intros ui _. apply length_map.
Qed.

Lemma update_hebbian_ok self field cur tgt lr :
  wf_readout self ->
  length (flatten field) = input_dim self ->
  length cur = output_dim self ->
  length tgt = output_dim self ->
  update_hebbian field cur tgt (Some lr) self =
  Ok (tt,
      {| input_dim := input_dim self;
         output_dim := output_dim self;
         ridge_alpha := ridge_alpha self;
         W_out := map2 Rplus (W_out self)
                    (map1 (fun v => lr * v) (outer (vmap2 Rminus tgt cur) (flatten field)));
         bias := vmap2 Rplus (bias self)
                   (map (fun e => lr * e) (vmap2 Rminus tgt cur)) |}).
Proof.
  intros [_ Hb] Hf Hc Ht. unfold update_hebbian.
  rewrite broadcast1_same by (rewrite Hc, Ht; reflexivity). simpl.
  rewrite length_vmap2 by (rewrite Hc, Ht; reflexivity).
  rewrite Ht, Hf, iadd2_same. simpl.
  rewrite iadd1_same; [reflexivity |].
  rewrite length_map, length_vmap2 by (rewrite Hc, Ht; reflexivity).
  rewrite Ht, Hb. reflexivity.
Qed.

Lemma process_eeg_stream_keeps_self now th be self b self' :
  process_eeg_stream now th be self = Ok (b, self') -> self' = self.
Proof.
  intros H. apply process_eeg_stream_inv in H.
  destruct H as (field & _ & _ & _ & _ & H). exact H.
Qed.

Lemma run_keeps_self op self out self' :
  is_train op = false -> run op self = Ok (out, self') -> self' = self.
Proof.
  intros Hop H. destruct op as [field | now th be | now name | ? ? ? ?];
    try discriminate; unfold run in H;
    apply bind_ok in H; destruct H as ([v s] & Hm & H); simpl in H;
    injection H as _ Hs; subst self'.
  - apply predict_keeps_self in Hm. subst s. apply with_readout_same.
  - apply process_eeg_stream_keeps_self in Hm. exact Hm.
  - unfold simulate_action_pattern in Hm.
    repeat match type of Hm with
           | (if ?c then _ else _) _ = _ => destruct c
           end;
      apply process_eeg_stream_keeps_self in Hm; exact Hm.
Qed.

(** C5. With a field of [input_dim] pixels and outputs of length
    [output_dim], [update_hebbian] takes [error = target - current]
    elementwise, adds [learning_rate * outer(error, flatten(field))] to
    [W_out] and [learning_rate * error] to [bias] of the same object (the
    learning rate is 0.001 when omitted); every other operation returns
    the controller, weights and bias included, as it received it. *)
Theorem update_hebbian_rule :
  (forall (self : ReservoirReadout) (field : ndarray2)
          (cur tgt : ndarray1) (lr : R),
      wf_readout self ->
      length (flatten field) = input_dim self ->
      length cur = output_dim self ->
      length tgt = output_dim self ->
      exists self',
        update_hebbian field cur tgt (Some lr) self = Ok (tt, self') /\
        W_out self' =
          map2 Rplus (W_out self)
               (map1 (fun v => lr * v) (outer (vmap2 Rminus tgt cur) (flatten field))) /\
        bias self' =
          vmap2 Rplus (bias self) (map (fun e => lr * e) (vmap2 Rminus tgt cur)) /\
        input_dim self' = input_dim self /\
        output_dim self' = output_dim self /\
        ridge_alpha self' = ridge_alpha self) /\
  (forall (self : ReservoirReadout) (field : ndarray2) (cur tgt : ndarray1),
      update_hebbian field cur tgt None self =
      update_hebbian field cur tgt (Some 0.001) self) /\
  (forall (self : ReservoirReadout) (field : ndarray2) (y : ndarray1)
          (self' : ReservoirReadout),
      predict field self = Ok (y, self') -> self' = self) /\
  (forall (op : operation) (c c' : MagnonicController) (out : outcome),
      is_train op = false -> run op c = Ok (out, c') -> c' = c).
Proof.
  split; [| split; [| split]].
  - intros self field cur tgt lr Hwf Hf Hc Ht.
    eexists. split; [apply update_hebbian_ok; assumption |].
    simpl. repeat split.
  - reflexivity.
  - intros self field y self'. apply predict_keeps_self.
  - intros op c c' out. apply run_keeps_self.
Qed.

Lemma update_hebbian_rule_witness :
  (exists self',
      update_hebbian [[3; 4]] [1] [2] (Some 0.5) small_readout = Ok (tt, self') /\
      W_out self' =
        map2 Rplus [[1; 2]]
             (map1 (fun v => 0.5 * v) (outer (vmap2 Rminus [2] [1]) [3; 4])) /\
      bias self' = vmap2 Rplus [5] (map (fun e => 0.5 * e) (vmap2 Rminus [2] [1]))) /\
  (forall out c',
      run (OpProcess 0 0.5 0.5) mock_controller = Ok (out, c') -> c' = mock_controller).
Proof.
  split.
  - destruct (proj1 update_hebbian_rule small_readout [[3; 4]] [1] [2] 0.5
                wf_small_readout eq_refl eq_refl eq_refl)
      as (self' & Hrun & HW & Hb & _).
    exists self'. split; [exact Hrun |]. split; [exact HW | exact Hb].
  - intros out c'.
    apply (proj2 (proj2 (proj2 update_hebbian_rule))
                 (OpProcess 0 0.5 0.5) mock_controller c' out).
    reflexivity.
Defined.

(** ** The fallback path *)

Lemma init_without_db randn :
  MagnonicController__init__ randn (Raise ImportError) =
  Ok {| readout := ReservoirReadout__init__ randn (128 * 128) 20 1.0;
        running := false;
        sim_db := None;
        use_precomputed := false |}.
Proof. reflexivity. Qed.

Lemma fallback_state_zero a t : fallback_state a (0.05 * 0) t = zeros2 128 128.
Proof.
  rewrite fallback_state_unfold.
  apply map1_const_zero; [| apply (grid_coords_shape 128)].
  intros r. rewrite Rmult_0_r. apply Rmult_0_r.
Qed.

Lemma dot_rows_zeros (W : ndarray2) n :
  map (fun row => dot1 row (zeros n)) W = zeros (length W).
Proof.
  induction W as [| row W IH]; simpl; [reflexivity |].
  rewrite IH, dot1_zeros, zeros_S. reflexivity.
Qed.

(** C3. When importing the database module raises [ImportError], the
    controller is built without a database, and [process_eeg_stream] then
    returns, for every theta, beta and time, a bundle tagged
    [{"source": "mock"}] whose 20 joint angles are the readout of the wave
    [sin(R - 2*pi*2*t) * exp(-0.1*R*alpha) * b_ext] with
    [alpha = 0.01 + 0.05*theta] and [b_ext = 0.05*beta]; it never raises. *)
Theorem fallback_when_db_unavailable :
  forall (randn : nat -> nat -> R) (now th be : R),
  exists (c : MagnonicController) (b : bundle),
    MagnonicController__init__ randn (Raise ImportError) = Ok c /\
    sim_db c = None /\ use_precomputed c = false /\
    process_eeg_stream now th be c = Ok (b, c) /\
    physics b = Fallback "mock" /\
    physics_source (physics b) = "mock"%string /\
    sim_params b = mkSimParams (0.01 + 0.05 * th) (0.05 * be) th be /\
    fluidity_index b = 1.0 / (1.0 + var (joint_angles b)) /\
    length (joint_angles b) = 20%nat /\
    predict (map1 (fun r => sin (r - 2 * PI * 2.0 * now)
                            * exp (- 0.1 * r * (0.01 + 0.05 * th)) * (0.05 * be))
                  (snd (grid_coords 128)))
            (readout c) = Ok (joint_angles b, readout c).
Proof.
  intros randn now th be.
  eexists. eexists. split; [apply init_without_db |].
  split; [reflexivity |]. split; [reflexivity |].
  set (c := {| readout := ReservoirReadout__init__ randn (128 * 128) 20 1.0;
               running := false; sim_db := None; use_precomputed := false |}).
  assert (Hwf : wf_readout (readout c)) by apply wf_ReservoirReadout__init__.
  split.
  - apply (process_eeg_stream_fallback now th be c Hwf eq_refl (or_introl eq_refl)).
  - cbn [physics sim_params fluidity_index joint_angles physics_source].
    do 4 (split; [reflexivity |]). split.
    + rewrite length_vmap2; rewrite length_map; cbn [readout c W_out bias
        ReservoirReadout__init__]; rewrite length_map, length_seq;
        [reflexivity |].
      unfold zeros. rewrite repeat_length. reflexivity.
    + rewrite <- fallback_state_unfold.
      apply predict_ok; [exact Hwf |].
      apply (length_flatten 128 128), has_shape_fallback_state.
Qed.

(** C10. On the fallback path with beta = 0 the external-field magnitude
    [0.05 * beta] is 0 and the field is zero at every pixel, for every
    theta and time; the joint angles are then the bias vector, and with a
    freshly built readout they are all 0 and the fluidity index is 1. *)
Theorem fallback_zero_beta :
  (forall th t : R, fallback_state (0.01 + 0.05 * th) (0.05 * 0) t = zeros2 128 128) /\
  (forall (now th : R) (c : MagnonicController),
      wf_readout (readout c) ->
      input_dim (readout c) = (128 * 128)%nat ->
      use_precomputed c = false \/ sim_db c = None ->
      exists b,
        process_eeg_stream now th 0 c = Ok (b, c) /\
        joint_angles b = bias (readout c)) /\
  (forall (randn : nat -> nat -> R) (now th : R),
      exists c b,
        MagnonicController__init__ randn (Raise ImportError) = Ok c /\
        process_eeg_stream now th 0 c = Ok (b, c) /\
        joint_angles b = zeros 20 /\
        fluidity_index b = 1).
Proof.
  assert (Hbias : forall now th c,
             wf_readout (readout c) ->
             input_dim (readout c) = (128 * 128)%nat ->
             use_precomputed c = false \/ sim_db c = None ->
             exists b,
               process_eeg_stream now th 0 c = Ok (b, c) /\
               joint_angles b = bias (readout c) /\
               fluidity_index b = 1.0 / (1.0 + var (bias (readout c)))).
  { intros now th c Hwf Hdim Hmode.
    pose proof (process_eeg_stream_fallback now th 0 c Hwf Hdim Hmode) as H.
    cbv zeta in H. rewrite fallback_state_zero, flatten_zeros2, dot_rows_zeros in H.
    destruct Hwf as [[HW _] Hb].
    rewrite HW, <- Hb, vmap2_plus_zeros_l in H.
    eexists. split; [exact H |]. split; reflexivity. }
  split; [| split].
  - intros th t. apply fallback_state_zero.
  - intros now th c Hwf Hdim Hmode.
    destruct (Hbias now th c Hwf Hdim Hmode) as (b & Hrun & Hk & _).
    exists b. split; assumption.
  - intros randn now th.
    eexists. 
    destruct (Hbias now th
                {| readout := ReservoirReadout__init__ randn (128 * 128) 20 1.0;
                   running := false; sim_db := None; use_precomputed := false |}
                (wf_ReservoirReadout__init__ _ _ _ _) eq_refl (or_introl eq_refl))
      as (b & Hrun & Hk & Hf).
    exists b. split; [apply init_without_db |]. split; [exact Hrun |].
    split; [exact Hk |].
    rewrite Hf. cbn [readout bias ReservoirReadout__init__].
    rewrite var_zeros. unfold Rdiv. rewrite Rplus_0_r.
    replace 1.0 with 1 by lra. rewrite Rinv_1. lra.
Qed.

Lemma fallback_zero_beta_witness :
  exists b,
    process_eeg_stream 0 0.5 0 mock_controller = Ok (b, mock_controller) /\
    joint_angles b = bias (readout mock_controller).
Proof.
  apply (proj1 (proj2 fallback_zero_beta) 0 0.5 mock_controller).
  - exact wf_mock_controller.
  - reflexivity.
  - left. reflexivity.
Defined.

(** ** Time modulation *)

Lemma time_modulation_zero be : time_modulation be 0 = 1.
Proof.
  unfold time_modulation.
  replace (2 * PI * (5 + be * 15) * 0 * 0.01) with 0 by ring.
  rewrite sin_0. ring.
Qed.

Lemma get_magnetic_state_unmodulated db th be :
  get_magnetic_state db th be None =
  (interpolated_flat <- call (interpolator db) (clip th 0 1, clip be 0 1) ;;
   reshape GRID_SIZE GRID_SIZE interpolated_flat).
Proof.
  unfold get_magnetic_state.
  destruct (call (interpolator db) (clip th 0 1, clip be 0 1)) as [flat | e];
    [| reflexivity].
  cbn [bind].
  destruct (reshape GRID_SIZE GRID_SIZE flat) as [pattern | e]; [| reflexivity].
  cbn [bind]. rewrite map1_scale_one by apply time_modulation_zero.
  reflexivity.
Qed.

(** C8. [get_magnetic_state(theta, beta, 0)] is
    [get_magnetic_state(theta, beta)], and both are the interpolation at
    the clamped point, reshaped, with no modulation (the factor is 1). *)
Theorem get_magnetic_state_default_time :
  forall (db : InterpolatedSimulationDB) (th be : R),
    get_magnetic_state db th be (Some 0) = get_magnetic_state db th be None /\
    get_magnetic_state db th be None =
      (interpolated_flat <- call (interpolator db) (clip th 0 1, clip be 0 1) ;;
       reshape GRID_SIZE GRID_SIZE interpolated_flat) /\
    time_modulation be 0 = 1.
Proof.
  intros db th be. split; [reflexivity |].
  split; [apply get_magnetic_state_unmodulated | apply time_modulation_zero].
Qed.

(** ** Normalisation *)

Lemma fold_left_Rmax_ge_init l x : x <= fold_left Rmax l x.
Proof.
  revert x. induction l as [| a l IH]; intros x; simpl; [lra |].
  eapply Rle_trans; [apply (Rmax_l x a) | apply IH].
Qed.

Lemma fold_left_Rmax_ge l x y : In y (x :: l) -> y <= fold_left Rmax l x.
Proof.
  revert x. induction l as [| a l IH]; intros x Hin.
  - destruct Hin as [-> | []]. simpl. lra.
  - simpl. destruct Hin as [-> | [-> | Hin]].
    + eapply Rle_trans; [apply (Rmax_l y a) | apply fold_left_Rmax_ge_init].
    + eapply Rle_trans; [apply (Rmax_r x y) | apply fold_left_Rmax_ge_init].
    + apply IH. right. exact Hin.
Qed.

Lemma fold_left_Rmax_zeros l y :
  y = 0 -> Forall (fun v => v = 0) l -> fold_left Rmax l y = 0.
Proof.
  revert y. induction l as [| a l IH]; intros y Hy Hl; simpl; [exact Hy |].
  inversion Hl as [| ? ? Ha Hl']; subst. apply IH; [| exact Hl'].
  unfold Rmax. destruct (Rle_dec 0 0); reflexivity.
Qed.


Lemma Ok_inj {A : Type} (a b : A) : Ok a = Ok b -> a = b.
Proof. intros H. injection H as H. exact H. Qed.

Lemma np_max_ge a m :
  np_max a = Ok m -> Forall (Forall (fun v => v <= m)) a.
Proof.
  unfold np_max. intros H.
  destruct (flatten a) as [| x t] eqn:Hflat; [discriminate |].
  injection H as <-.
  apply Forall_forall. intros row Hrow. apply Forall_forall. intros v Hv.
  apply fold_left_Rmax_ge. rewrite <- Hflat. unfold flatten.
  apply in_concat. exists row. split; assumption.
Qed.

Lemma np_max_total a : flatten a <> [] -> exists m, np_max a = Ok m.
Proof.
  unfold np_max. destruct (flatten a) as [| x t]; [congruence |].
  intros _. eexists. reflexivity.
Qed.

Lemma flatten_map1_nonempty f a : flatten a <> [] -> flatten (map1 f a) <> [].
Proof.
  unfold flatten, map1. rewrite <- concat_map.
  intros H Hnil. apply H. apply map_eq_nil in Hnil. exact Hnil.
Qed.

Lemma Forall2d_np_abs (P : R -> Prop) a :
  Forall (Forall (fun v => P (Rabs v))) a <-> Forall (Forall P) (np_abs a).
Proof.
  unfold np_abs, map1. rewrite Forall_map. split; intros H;
    (eapply Forall_impl; [| exact H]); intros row Hrow.
  - rewrite Forall_map. exact Hrow.
  - rewrite Forall_map in Hrow. exact Hrow.
Qed.

Lemma normalize_spec a :
  flatten a <> [] ->
  exists m p,
    np_max (np_abs a) = Ok m /\
    normalize a = Ok p /\
    (0 < m -> p = div_scalar a m) /\
    (~ 0 < m -> p = a /\ Forall (Forall (fun v => v = 0)) a) /\
    (Forall (Forall (fun v => v = 0)) a -> ~ 0 < m) /\
    Forall (Forall (fun v => Rabs v <= 1)) p.
Proof.
  intros Hne.
  assert (Hz : forall m, np_max (np_abs a) = Ok m ->
                         Forall (Forall (fun v => v = 0)) a -> ~ 0 < m).
  { intros m Hm Hzero Hpos. unfold np_max in Hm.
    destruct (flatten (np_abs a)) as [| x t] eqn:Hflat; [discriminate |].
    injection Hm as Hm.
    assert (Hall : Forall (fun v => v = 0) (x :: t)).
    { rewrite <- Hflat. unfold flatten, np_abs, map1.
      rewrite <- concat_map, Forall_map.
      apply Forall_concat. eapply Forall_impl; [| exact Hzero].
      intros row Hrow. eapply Forall_impl; [| exact Hrow].
      intros v ->. apply Rabs_R0. }
    inversion Hall as [| ? ? Hx Ht]; subst.
    rewrite (fold_left_Rmax_zeros t 0 eq_refl Ht) in Hpos. lra. }
  destruct (np_max_total (np_abs a) (flatten_map1_nonempty Rabs a Hne)) as [m Hm].
  pose proof (np_max_ge _ _ Hm) as Hge. apply Forall2d_np_abs in Hge.
  unfold normalize. rewrite Hm. cbn [bind].
  destruct (Rlt_dec 0 m) as [Hpos | Hnpos].
  - exists m, (div_scalar a m). repeat split; try tauto; [apply Hz; exact Hm |].
    unfold div_scalar, map1. rewrite Forall_map.
    eapply Forall_impl; [| exact Hge]. intros row Hrow.
    rewrite Forall_map. eapply Forall_impl; [| exact Hrow].
    intros v Hv. cbv beta in *. unfold Rdiv.
    rewrite Rabs_mult, (Rabs_right (/ m)).
    + apply (Rmult_le_reg_r m); [exact Hpos |].
      rewrite Rmult_assoc, Rinv_l by lra. lra.
    + apply Rle_ge, Rlt_le, Rinv_0_lt_compat. exact Hpos.
  - assert (Hzero : Forall (Forall (fun v => v = 0)) a).
    { eapply Forall_impl; [| exact Hge]. intros row Hrow.
      eapply Forall_impl; [| exact Hrow]. intros v Hv. cbv beta in *.
      pose proof (Rabs_pos v) as Hp.
      destruct (Req_dec v 0) as [Hv0 | Hnz]; [exact Hv0 |].
      apply Rabs_pos_lt in Hnz. lra. }
    exists m, a. repeat split; try tauto.
    eapply Forall_impl; [| exact Hzero]. intros row Hrow.
    eapply Forall_impl; [| exact Hrow]. intros v ->. rewrite Rabs_R0. lra.
Qed.

(** ** Pattern synthesis on the grid *)

Lemma lengths_of_shape r c (a : ndarray2) :
  has_shape r c a -> map (@length R) a = repeat c r.
Proof.
  intros [Hr Hc]. subst r. induction a as [| row a IH]; simpl; [reflexivity |].
  inversion Hc as [| ? ? Hrow Hrest]; subst. rewrite IH by assumption. reflexivity.
Qed.

Lemma same_shape_true r c a b : has_shape r c a -> has_shape r c b -> same_shape a b = true.
Proof.
  intros Ha Hb. unfold same_shape, lengths_eqb.
  rewrite (lengths_of_shape r c a Ha), (lengths_of_shape r c b Hb).
  destruct (list_eq_dec Nat.eq_dec (repeat c r) (repeat c r)); [reflexivity | contradiction].
Qed.

Lemma length_vmap3 f u v w :
  length u = length v -> length u = length w -> length (vmap3 f u v w) = length u.
Proof.
  intros Hv Hw. unfold vmap3. rewrite length_map, !length_combine, <- Hv, <- Hw.
  rewrite !Nat.min_id. reflexivity.
Qed.

Lemma has_shape_map3 f r c a b d :
  has_shape r c a -> has_shape r c b -> has_shape r c d -> has_shape r c (map3 f a b d).
Proof.
  intros [Ha Hra] [Hb Hrb] [Hd Hrd]. split.
  - unfold map3. rewrite length_map, !length_combine, Ha, Hb, Hd.
    rewrite !Nat.min_id. reflexivity.
  - unfold map3. apply Forall_map, Forall_forall. intros [[u v] w] Hin. simpl.
    pose proof (in_combine_l _ _ _ _ Hin) as Huv.
    pose proof (in_combine_r _ _ _ _ Hin) as Hw.
    pose proof (in_combine_l _ _ _ _ Huv) as Hu.
    pose proof (in_combine_r _ _ _ _ Huv) as Hv.
    rewrite Forall_forall in Hra, Hrb, Hrd.
    rewrite length_vmap3; rewrite (Hra u Hu); try reflexivity; symmetry.
    + apply Hrb. exact Hv.
    + apply Hrd. exact Hw.
Qed.

Lemma flatten_nonempty r c a :
  has_shape r c a -> r <> 0%nat -> c <> 0%nat -> flatten a <> [].
Proof.
  intros Hs Hr Hc Hnil. apply (f_equal (@length R)) in Hnil.
  rewrite (length_flatten r c a Hs) in Hnil. simpl in Hnil.
  destruct r, c; simpl in Hnil; congruence.
Qed.

Lemma GRID_SIZE_pos : GRID_SIZE <> 0%nat.
Proof. unfold GRID_SIZE. discriminate. Qed.

Lemma has_shape_grid :
  has_shape GRID_SIZE GRID_SIZE grid_X /\
  has_shape GRID_SIZE GRID_SIZE grid_Y /\
  has_shape GRID_SIZE GRID_SIZE grid_R.
Proof. apply grid_coords_shape. Qed.

Lemma has_shape_combined th be :
  has_shape GRID_SIZE GRID_SIZE (combined_pattern th be).
Proof.
  destruct has_shape_grid as (HX & HY & HR).
  apply has_shape_map3; assumption.
Qed.

Lemma compute_pattern_unfold th be :
  _compute_pattern grid_X grid_Y grid_R th be = normalize (combined_pattern th be).
Proof.
  destruct has_shape_grid as (HX & HY & HR).
  unfold _compute_pattern.
  rewrite (same_shape_true _ _ _ _ HX HY), (same_shape_true _ _ _ _ HX HR).
  reflexivity.
Qed.

Lemma compute_pattern_grid th be :
  _compute_pattern grid_X grid_Y grid_R th be = Ok (pattern_of th be) /\
  has_shape GRID_SIZE GRID_SIZE (pattern_of th be) /\
  Forall (Forall (fun v => Rabs v <= 1)) (pattern_of th be).
Proof.
  pose proof (has_shape_combined th be) as Hs.
  destruct (normalize_spec (combined_pattern th be)
              (flatten_nonempty _ _ _ Hs GRID_SIZE_pos GRID_SIZE_pos))
    as (m & p & Hm & Hn & Hdiv & Hkeep & _ & Hb).
  unfold pattern_of. rewrite compute_pattern_unfold, Hn. cbn [value_or].
  split; [reflexivity |]. split; [| exact Hb].
  destruct (Rlt_dec 0 m) as [Hpos | Hnpos].
  - rewrite (Hdiv Hpos). apply has_shape_map1. exact Hs.
  - rewrite (proj1 (Hkeep Hnpos)). exact Hs.
Qed.



(** ** Construction of the database *)

Lemma grid_coords_eta : grid_coords GRID_SIZE = (grid_X, grid_Y, grid_R).
Proof.
  unfold grid_X, grid_Y, grid_R.
  destruct (grid_coords GRID_SIZE) as [[X Y] Rr]. reflexivity.
Qed.

Lemma generate_grid_patterns_ok : _generate_grid_patterns [] = Ok stored_patterns.
Proof.
  unfold _generate_grid_patterns. rewrite grid_coords_eta.
  unfold stored_patterns.
  apply (for_each_total
           (fun d theta =>
              fold_left (fun d beta => dict_set d (theta, beta) (pattern_of theta beta))
                        PARAM_STEPS d)).
  intros d theta _.
  apply (for_each_total
           (fun d beta => dict_set d (theta, beta) (pattern_of theta beta))).
  intros d' beta _.
  rewrite (proj1 (compute_pattern_grid theta beta)). reflexivity.
Qed.

Section GridDict.
Variable f : R -> R -> ndarray2.

Lemma dict_get_functional d k :
  functional f d -> In k (map fst d) -> dict_get d k = Ok (f (fst k) (snd k)).
Proof.
  induction d as [| [k' v] d IH]; intros Hf Hin; [destruct Hin |].
  inversion Hf as [| ? ? Hkv Hrest]; subst. simpl in Hkv. simpl.
  destruct (key_eq_dec k k') as [-> | Hne].
  - rewrite Hkv. reflexivity.
  - apply IH; [exact Hrest |]. destruct Hin as [Heq | Hin]; [| exact Hin].
    simpl in Heq. congruence.
Qed.

Lemma inner_fill_functional theta l d :
  functional f d ->
  functional f (fold_left (fun d beta => dict_set d (theta, beta) (f theta beta)) l d).
Proof.
  revert d. induction l as [| b l IH]; intros d Hd; simpl; [exact Hd |].
  apply IH. constructor; [reflexivity | exact Hd].
Qed.

Lemma inner_fill_keys theta l d k :
  In k (map fst d) \/ (fst k = theta /\ In (snd k) l) ->
  In k (map fst (fold_left (fun d beta => dict_set d (theta, beta) (f theta beta)) l d)).
Proof.
  revert d. induction l as [| b l IH]; intros d H; simpl.
  - destruct H as [H | [_ []]]. exact H.
  - apply IH. destruct H as [H | [Ht [Hb | Hl]]].
    + left. right. exact H.
    + left. left. destruct k as [k1 k2]. simpl in *. congruence.
    + right. split; assumption.
Qed.

Lemma fill_functional steps l d : functional f d -> functional f (fill f steps l d).
Proof.
  revert d. induction l as [| t l IH]; intros d Hd; simpl; [exact Hd |].
  apply IH. apply inner_fill_functional. exact Hd.
Qed.

Lemma fill_keys steps l d k :
  In k (map fst d) \/ (In (fst k) l /\ In (snd k) steps) ->
  In k (map fst (fill f steps l d)).
Proof.
  revert d. induction l as [| t l IH]; intros d H; simpl.
  - destruct H as [H | [[] _]]. exact H.
  - apply IH. destruct H as [H | [[Ht | Hl] Hs]].
    + left. apply inner_fill_keys. left. exact H.
    + left. apply inner_fill_keys. right. split; [symmetry; exact Ht | exact Hs].
    + right. split; assumption.
Qed.
End GridDict.

Lemma stored_patterns_get theta beta :
  In theta PARAM_STEPS -> In beta PARAM_STEPS ->
  dict_get stored_patterns (theta, beta) = Ok (pattern_of theta beta).
Proof.
  intros Ht Hb.
  change stored_patterns with (fill pattern_of PARAM_STEPS PARAM_STEPS []).
  apply (dict_get_functional pattern_of _ (theta, beta)).
  - apply fill_functional. constructor.
  - apply fill_keys. right. split; assumption.
Qed.

Lemma setitem2_len n arr i j v :
  length v = n ->
  setitem2 n arr i j v = (row <- getitem arr i ;; Ok (list_set i (list_set j v row) arr)).
Proof.
  intros H. unfold setitem2. rewrite H, broadcasts_to_same, stretch_same. reflexivity.
Qed.

Ltac in_steps :=
  cbn [In PARAM_STEPS];
  repeat match goal with
         | |- ?x = ?x \/ _ => left; reflexivity
         | |- ?x = ?x => reflexivity
         | |- _ \/ _ => right
         end.

Section BuildLoop.
Variable n : nat.
Variable patterns : dict.
Variable p : R -> R -> ndarray2.
Hypothesis Hget : forall th be, In th PARAM_STEPS -> In be PARAM_STEPS ->
  dict_get patterns (th, be) = Ok (p th be).
Hypothesis Hlen : forall th be, length (flatten (p th be)) = n.

Lemma build_loop :
  for_each (fun arr it =>
      let '(i, theta) := it in
      for_each (fun arr jt =>
        let '(j, beta) := jt in
        q <- dict_get patterns (theta, beta) ;;
        setitem2 n arr i j (flatten q))
      (enumerate PARAM_STEPS) arr)
    (enumerate PARAM_STEPS)
    (repeat (repeat (zeros n) (length PARAM_STEPS)) (length PARAM_STEPS)) =
  Ok (map (fun theta => map (fun beta => flatten (p theta beta)) PARAM_STEPS) PARAM_STEPS).
Proof.
  cbn [enumerate PARAM_STEPS length seq combine repeat map for_each].
  repeat (rewrite Hget by in_steps; cbn [bind];
          rewrite setitem2_len by apply Hlen;
          cbn [getitem nth_error bind list_set]).
  reflexivity.
Qed.
End BuildLoop.

(** ** Interpolation *)

Ltac case_rlt :=
  match goal with
  | |- context [Rlt_dec ?a ?b] => destruct (Rlt_dec a b); try lra
  end.

Ltac norm_index :=
  cbn [length PARAM_STEPS];
  match goal with
  | |- context [Z.to_nat ?z] =>
      let v := eval vm_compute in (Z.to_nat z) in
      change (Z.to_nat z) with v
  end;
  cbn [getitem nth_error bind Nat.add PARAM_STEPS].

Lemma find_index_total x :
  exists i y, find_index PARAM_STEPS x = Ok (i, y) /\ (i <= 3)%nat.
Proof.
  unfold find_index. cbn [searchsorted PARAM_STEPS].
  repeat case_rlt; norm_index; eexists; eexists; (split; [reflexivity | lia]).
Qed.

Lemma find_index_on_grid x :
  In x PARAM_STEPS ->
  exists i y,
    find_index PARAM_STEPS x = Ok (i, y) /\ (i <= 3)%nat /\
    ((y = 0 /\ nth_error PARAM_STEPS i = Some x) \/
     (y = 1 /\ nth_error PARAM_STEPS (i + 1) = Some x)).
Proof.
  intros Hin. cbn [In PARAM_STEPS] in Hin.
  unfold find_index.
  destruct Hin as [<- | [<- | [<- | [<- | [<- | []]]]]];
    cbn [searchsorted PARAM_STEPS]; repeat case_rlt; norm_index;
    match goal with
    | |- context [Req_dec_T ?a ?b] => destruct (Req_dec_T a b); try lra
    end;
    eexists; eexists; (split; [reflexivity |]); (split; [lia |]);
    first [ left; split; [lra | reflexivity] | right; split; [lra | reflexivity] ].
Qed.

Lemma nth_error_in_range {A : Type} (l : list A) i :
  (i < length l)%nat -> exists x, nth_error l i = Some x.
Proof.
  intros H. destruct (nth_error l i) as [x |] eqn:E; [exists x; reflexivity |].
  apply nth_error_None in E. lia.
Qed.

Lemma getitem2_stored i j th be :
  nth_error PARAM_STEPS i = Some th ->
  nth_error PARAM_STEPS j = Some be ->
  getitem2 stored_array i j = Ok (flatten (pattern_of th be)).
Proof.
  intros Hi Hj. unfold getitem2, getitem, stored_array.
  rewrite (map_nth_error _ _ _ Hi). cbn [bind].
  rewrite (map_nth_error _ _ _ Hj). reflexivity.
Qed.

Lemma length_stored_pattern th be :
  length (flatten (pattern_of th be)) = (GRID_SIZE * GRID_SIZE)%nat.
Proof.
  apply length_flatten. apply compute_pattern_grid.
Qed.

Lemma broadcast1_single_l f a v : broadcast1 f [a] v = Ok (map (fun b => f a b) v).
Proof.
  unfold broadcast1. destruct (Nat.eq_dec (length [a]) (length v)) as [He | Hne].
  - destruct v as [| b [| c v]]; try discriminate. reflexivity.
  - reflexivity.
Qed.

Lemma evaluate_linear_ok v i0 y0 i1 y1 n c00 c01 c10 c11 :
  getitem2 v i0 i1 = Ok c00 ->
  getitem2 v i0 (i1 + 1) = Ok c01 ->
  getitem2 v (i0 + 1) i1 = Ok c10 ->
  getitem2 v (i0 + 1) (i1 + 1) = Ok c11 ->
  length c00 = n -> length c01 = n -> length c10 = n -> length c11 = n ->
  evaluate_linear v i0 y0 i1 y1 = Ok (blend y0 y1 c00 c01 c10 c11) /\
  length (blend y0 y1 c00 c01 c10 c11) = n.
Proof.
  intros H00 H01 H10 H11 L00 L01 L10 L11.
  assert (L1 : length (map (fun b => 0 + b)
                 (map (fun c => c * (1 * (1 - y0) * (1 - y1))) c00)) = n)
    by (rewrite !length_map; exact L00).
  assert (L2 : length (vmap2 Rplus
                 (map (fun b => 0 + b) (map (fun c => c * (1 * (1 - y0) * (1 - y1))) c00))
                 (map (fun c => c * (1 * (1 - y0) * y1)) c01)) = n)
    by (rewrite length_vmap2; [exact L1 | rewrite L1, length_map; symmetry; exact L01]).
  assert (L3 : length (vmap2 Rplus (vmap2 Rplus
                 (map (fun b => 0 + b) (map (fun c => c * (1 * (1 - y0) * (1 - y1))) c00))
                 (map (fun c => c * (1 * (1 - y0) * y1)) c01))
                 (map (fun c => c * (1 * y0 * (1 - y1))) c10)) = n)
    by (rewrite length_vmap2; [exact L2 | rewrite L2, length_map; symmetry; exact L10]).
  split.
  - unfold evaluate_linear, add_term.
    rewrite H00. cbn [bind]. rewrite broadcast1_single_l. cbn [bind].
    rewrite H01. cbn [bind].
    rewrite broadcast1_same by (rewrite L1, length_map; symmetry; exact L01).
    cbn [bind]. rewrite H10. cbn [bind].
    rewrite broadcast1_same by (rewrite L2, length_map; symmetry; exact L10).
    cbn [bind]. rewrite H11. cbn [bind].
    rewrite broadcast1_same by (rewrite L3, length_map; symmetry; exact L11).
    reflexivity.
  - unfold blend. rewrite length_vmap2; [exact L3 |].
    rewrite L3, length_map. symmetry. exact L11.
Qed.

Lemma length_zeros n : length (zeros n) = n.
Proof. apply repeat_length. Qed.

Lemma vmap2_zeros_l n v : length v = n -> vmap2 Rplus (zeros n) v = v.
Proof. intros <-. apply vmap2_plus_zeros_l. Qed.

Lemma vmap2_zeros_r n v : length v = n -> vmap2 Rplus v (zeros n) = v.
Proof. intros <-. apply vmap2_plus_zeros_r. Qed.

Lemma blend_corner y0 y1 c00 c01 c10 c11 n :
  length c00 = n -> length c01 = n -> length c10 = n -> length c11 = n ->
  (y0 = 0 -> y1 = 0 -> blend y0 y1 c00 c01 c10 c11 = c00) /\
  (y0 = 0 -> y1 = 1 -> blend y0 y1 c00 c01 c10 c11 = c01) /\
  (y0 = 1 -> y1 = 0 -> blend y0 y1 c00 c01 c10 c11 = c10) /\
  (y0 = 1 -> y1 = 1 -> blend y0 y1 c00 c01 c10 c11 = c11).
Proof.
  intros L00 L01 L10 L11. unfold blend. rewrite map_plus_zero.
  pose proof (length_zeros n) as Lz.
  repeat split; intros -> ->.
  - rewrite (map_scale_one _ c00) by lra.
    rewrite (map_scale_zero _ c01), (map_scale_zero _ c10), (map_scale_zero _ c11) by lra.
    rewrite L01, L10, L11. rewrite !(vmap2_zeros_r n c00) by assumption. reflexivity.
  - rewrite (map_scale_one _ c01) by lra.
    rewrite (map_scale_zero _ c00), (map_scale_zero _ c10), (map_scale_zero _ c11) by lra.
    rewrite L00, L10, L11. rewrite (vmap2_zeros_l n c01) by assumption.
    rewrite !(vmap2_zeros_r n c01) by assumption. reflexivity.
  - rewrite (map_scale_one _ c10) by lra.
    rewrite (map_scale_zero _ c00), (map_scale_zero _ c01), (map_scale_zero _ c11) by lra.
    rewrite L00, L01, L11. rewrite (vmap2_zeros_l n (zeros n)) by assumption.
    rewrite (vmap2_zeros_l n c10) by assumption.
    rewrite (vmap2_zeros_r n c10) by assumption. reflexivity.
  - rewrite (map_scale_one _ c11) by lra.
    rewrite (map_scale_zero _ c00), (map_scale_zero _ c01), (map_scale_zero _ c10) by lra.
    rewrite L00, L01, L10. rewrite !(vmap2_zeros_l n (zeros n)) by assumption.
    rewrite (vmap2_zeros_l n c11) by assumption. reflexivity.
Qed.

(** ** The database object *)

Lemma build_interpolators_ok :
  _build_interpolators stored_patterns =
  Ok (stored_array, mkRGI PARAM_STEPS PARAM_STEPS stored_array).
Proof.
  unfold _build_interpolators.
  rewrite (build_loop (GRID_SIZE * GRID_SIZE) stored_patterns pattern_of
             stored_patterns_get length_stored_pattern).
  reflexivity.
Qed.

Lemma init_ok : __init__ = Ok the_db.
Proof.
  unfold __init__. rewrite generate_grid_patterns_ok. cbn [bind].
  rewrite build_interpolators_ok. reflexivity.
Qed.

Lemma steps_in_range i : (i <= 3)%nat ->
  exists a b, nth_error PARAM_STEPS i = Some a /\ nth_error PARAM_STEPS (i + 1) = Some b.
Proof.
  intros Hi.
  destruct (nth_error_in_range PARAM_STEPS i) as [a Ha]; [simpl; lia |].
  destruct (nth_error_in_range PARAM_STEPS (i + 1)) as [b Hb]; [simpl; lia |].
  exists a, b. split; assumption.
Qed.

Lemma call_total x0 x1 :
  exists flat,
    call (interpolator the_db) (x0, x1) = Ok flat /\
    length flat = (GRID_SIZE * GRID_SIZE)%nat.
Proof.
  destruct (find_index_total x0) as (i0 & y0 & H0 & Hi0).
  destruct (find_index_total x1) as (i1 & y1 & H1 & Hi1).
  destruct (steps_in_range i0 Hi0) as (a0 & b0 & Ha0 & Hb0).
  destruct (steps_in_range i1 Hi1) as (a1 & b1 & Ha1 & Hb1).
  destruct (evaluate_linear_ok stored_array i0 y0 i1 y1 (GRID_SIZE * GRID_SIZE)
              _ _ _ _
              (getitem2_stored _ _ _ _ Ha0 Ha1) (getitem2_stored _ _ _ _ Ha0 Hb1)
              (getitem2_stored _ _ _ _ Hb0 Ha1) (getitem2_stored _ _ _ _ Hb0 Hb1)
              (length_stored_pattern _ _) (length_stored_pattern _ _)
              (length_stored_pattern _ _) (length_stored_pattern _ _))
    as [Hev Hlen].
  eexists. split; [| exact Hlen].
  unfold call. cbn [interpolator the_db grid0 grid1 values fst snd].
  rewrite H0. cbn [bind]. rewrite H1. cbn [bind fst snd]. exact Hev.
Qed.

Lemma call_on_grid th be :
  In th PARAM_STEPS -> In be PARAM_STEPS ->
  call (interpolator the_db) (th, be) = Ok (flatten (pattern_of th be)).
Proof.
  intros Hth Hbe.
  destruct (find_index_on_grid th Hth) as (i0 & y0 & H0 & Hi0 & Hy0).
  destruct (find_index_on_grid be Hbe) as (i1 & y1 & H1 & Hi1 & Hy1).
  destruct (steps_in_range i0 Hi0) as (a0 & b0 & Ha0 & Hb0).
  destruct (steps_in_range i1 Hi1) as (a1 & b1 & Ha1 & Hb1).
  destruct (evaluate_linear_ok stored_array i0 y0 i1 y1 (GRID_SIZE * GRID_SIZE)
              _ _ _ _
              (getitem2_stored _ _ _ _ Ha0 Ha1) (getitem2_stored _ _ _ _ Ha0 Hb1)
              (getitem2_stored _ _ _ _ Hb0 Ha1) (getitem2_stored _ _ _ _ Hb0 Hb1)
              (length_stored_pattern _ _) (length_stored_pattern _ _)
              (length_stored_pattern _ _) (length_stored_pattern _ _))
    as [Hev _].
  destruct (blend_corner y0 y1 _ _ _ _ (GRID_SIZE * GRID_SIZE)
              (length_stored_pattern a0 a1) (length_stored_pattern a0 b1)
              (length_stored_pattern b0 a1) (length_stored_pattern b0 b1))
    as (B00 & B01 & B10 & B11).
  unfold call. cbn [interpolator the_db grid0 grid1 values fst snd].
  rewrite H0. cbn [bind]. rewrite H1. cbn [bind fst snd]. rewrite Hev.
  destruct Hy0 as [[Hy0 Hn0] | [Hy0 Hn0]]; destruct Hy1 as [[Hy1 Hn1] | [Hy1 Hn1]].
  - rewrite (B00 Hy0 Hy1). congruence.
  - rewrite (B01 Hy0 Hy1). congruence.
  - rewrite (B10 Hy0 Hy1). congruence.
  - rewrite (B11 Hy0 Hy1). congruence.
Qed.

Lemma clip_unit v : 0 <= v <= 1 -> clip v 0 1 = v.
Proof.
  intros [H0 H1]. unfold clip.
  rewrite Rmax_left by exact H0. apply Rmin_left. exact H1.
Qed.

Lemma steps_in_unit v : In v PARAM_STEPS -> 0 <= v <= 1.
Proof.
  cbn [In PARAM_STEPS]. intros [<- | [<- | [<- | [<- | [<- | []]]]]]; lra.
Qed.

Lemma has_shape_chunks r c v : length v = (r * c)%nat -> has_shape r c (chunks r c v).
Proof.
  revert v. induction r as [| r IH]; intros v Hlen.
  - split; [reflexivity | constructor].
  - simpl in Hlen. destruct (IH (skipn c v)) as [Hr Hc].
    { rewrite length_skipn. lia. }
    split; simpl; [rewrite Hr; reflexivity |].
    constructor; [| exact Hc]. rewrite length_firstn. lia.
Qed.

Lemma get_magnetic_state_total th be t :
  exists p, get_magnetic_state the_db th be t = Ok p /\
            has_shape GRID_SIZE GRID_SIZE p.
Proof.
  destruct (call_total (clip th 0 1) (clip be 0 1)) as (flat & Hcall & Hlen).
  unfold get_magnetic_state. rewrite Hcall. cbn [bind].
  unfold reshape. destruct (Nat.eq_dec (length flat) (GRID_SIZE * GRID_SIZE));
    [| contradiction].
  cbn [bind]. eexists. split; [reflexivity |].
  apply has_shape_map1, has_shape_chunks. exact Hlen.
Qed.

Lemma get_magnetic_state_on_grid th be :
  In th PARAM_STEPS -> In be PARAM_STEPS ->
  get_magnetic_state the_db th be None = Ok (pattern_of th be).
Proof.
  intros Hth Hbe.
  rewrite get_magnetic_state_unmodulated.
  rewrite (clip_unit th (steps_in_unit th Hth)), (clip_unit be (steps_in_unit be Hbe)).
  rewrite (call_on_grid th be Hth Hbe). cbn [bind].
  apply reshape_flatten. apply compute_pattern_grid.
Qed.

(** C1. At each of the 25 grid points, with the time omitted or 0,
    [get_magnetic_state] of the constructed database returns exactly the
    field stored in [self.patterns] for that point. *)
Theorem get_magnetic_state_at_grid_points :
  forall th be : R,
    In th PARAM_STEPS -> In be PARAM_STEPS ->
    exists (db : InterpolatedSimulationDB) (p : ndarray2),
      __init__ = Ok db /\
      dict_get (patterns db) (th, be) = Ok p /\
      get_magnetic_state db th be None = Ok p /\
      get_magnetic_state db th be (Some 0) = Ok p.
Proof.
  intros th be Hth Hbe.
  exists the_db, (pattern_of th be).
  split; [apply init_ok |].
  split; [apply stored_patterns_get; assumption |].
  split; apply get_magnetic_state_on_grid; assumption.
Qed.

Lemma get_magnetic_state_at_grid_points_witness :
  exists (db : InterpolatedSimulationDB) (p : ndarray2),
    __init__ = Ok db /\
    dict_get (patterns db) (0.25, 1.0) = Ok p /\
    get_magnetic_state db 0.25 1.0 None = Ok p /\
    get_magnetic_state db 0.25 1.0 (Some 0) = Ok p.
Proof.
  apply (get_magnetic_state_at_grid_points 0.25 1.0); in_steps.
Defined.

(** ** The orchestrator on the database *)

Lemma init_with_db randn :
  MagnonicController__init__ randn __init__ =
  Ok {| readout := ReservoirReadout__init__ randn (128 * 128) 20 1.0;
        running := false;
        sim_db := Some the_db;
        use_precomputed := true |}.
Proof. unfold MagnonicController__init__. rewrite init_ok. reflexivity. Qed.

Lemma process_eeg_stream_db now th be c :
  wf_readout (readout c) ->
  input_dim (readout c) = (128 * 128)%nat ->
  use_precomputed c = true ->
  sim_db c = Some the_db ->
  exists field,
    get_magnetic_state the_db th be (Some now) = Ok field /\
    process_eeg_stream now th be c =
    Ok (mkBundle
          (vmap2 Rplus (map (fun row => dot1 row (flatten field)) (W_out (readout c)))
                 (bias (readout c)))
          (1.0 / (1.0 + var (vmap2 Rplus
                               (map (fun row => dot1 row (flatten field))
                                    (W_out (readout c)))
                               (bias (readout c)))))
          (mkSimParams (0.01 + 0.05 * th) (0.05 * be) th be)
          (FromDb (get_physics_metadata the_db th be)),
        c).
Proof.
  intros Hwf Hdim Hpre Hdb.
  destruct (get_magnetic_state_total th be (Some now)) as (field & Hfield & Hshape).
  exists field. split; [exact Hfield |].
  apply (process_eeg_stream_intro now th be c field).
  - unfold magnetic_state_of. rewrite Hpre, Hdb, Hfield. reflexivity.
  - apply predict_ok; [exact Hwf |].
    rewrite Hdim. apply (length_flatten GRID_SIZE GRID_SIZE). exact Hshape.
Qed.

Lemma clip_in_unit v : 0 <= clip v 0 1 <= 1.
Proof.
  unfold clip. split.
  - apply Rmin_glb; [apply Rmax_r | lra].
  - apply Rmin_r.
Qed.

Lemma clip_idempotent v : clip (clip v 0 1) 0 1 = clip v 0 1.
Proof. apply clip_unit, clip_in_unit. Qed.





(** ** Bounds on the interpolated field *)

Lemma unit_fraction lo hi x : lo < hi -> lo <= x <= hi -> 0 <= (x - lo) / (hi - lo) <= 1.
Proof.
  intros Hlt [Hl Hh].
  assert (Hpos : 0 < / (hi - lo)) by (apply Rinv_0_lt_compat; lra).
  unfold Rdiv. split.
  - apply Rmult_le_pos; lra.
  - apply (Rmult_le_reg_r (hi - lo)); [lra |].
    rewrite Rmult_assoc, Rinv_l by lra. lra.
Qed.

Lemma find_index_unit x :
  0 <= x <= 1 ->
  exists i y, find_index PARAM_STEPS x = Ok (i, y) /\ (i <= 3)%nat /\ 0 <= y <= 1.
Proof.
  intros Hx. unfold find_index. cbn [searchsorted PARAM_STEPS].
  repeat case_rlt; norm_index;
    match goal with
    | |- context [Req_dec_T ?a ?b] => destruct (Req_dec_T a b); try lra
    end;
    eexists; eexists; (split; [reflexivity |]); (split; [lia |]);
    apply unit_fraction; lra.
Qed.

Lemma blend_cons y0 y1 a A b B c C d D :
  blend y0 y1 (a :: A) (b :: B) (c :: C) (d :: D) =
  (0 + a * (1 * (1 - y0) * (1 - y1)) + b * (1 * (1 - y0) * y1)
   + c * (1 * y0 * (1 - y1)) + d * (1 * y0 * y1))
  :: blend y0 y1 A B C D.
Proof. reflexivity. Qed.

Lemma Rabs_bounds a b : Rabs a <= b -> - b <= a <= b.
Proof. unfold Rabs. destruct (Rcase_abs a); lra. Qed.

Lemma convex4_bound (M y0 y1 a b c d : R) :
  0 <= y0 <= 1 -> 0 <= y1 <= 1 ->
  Rabs a <= M -> Rabs b <= M -> Rabs c <= M -> Rabs d <= M ->
  Rabs (0 + a * (1 * (1 - y0) * (1 - y1)) + b * (1 * (1 - y0) * y1)
        + c * (1 * y0 * (1 - y1)) + d * (1 * y0 * y1)) <= M.
Proof.
  intros H0 H1 Ha Hb Hc Hd.
  apply Rabs_bounds in Ha, Hb, Hc, Hd. apply Rabs_le.
  assert (W00 : 0 <= (1 - y0) * (1 - y1)) by (apply Rmult_le_pos; lra).
  assert (W01 : 0 <= (1 - y0) * y1) by (apply Rmult_le_pos; lra).
  assert (W10 : 0 <= y0 * (1 - y1)) by (apply Rmult_le_pos; lra).
  assert (W11 : 0 <= y0 * y1) by (apply Rmult_le_pos; lra).
  split; nra.
Qed.

Lemma blend_bound (M y0 y1 : R) n :
  0 <= y0 <= 1 -> 0 <= y1 <= 1 ->
  forall c00 c01 c10 c11 : ndarray1,
    length c00 = n -> length c01 = n -> length c10 = n -> length c11 = n ->
    Forall (fun v => Rabs v <= M) c00 -> Forall (fun v => Rabs v <= M) c01 ->
    Forall (fun v => Rabs v <= M) c10 -> Forall (fun v => Rabs v <= M) c11 ->
    Forall (fun v => Rabs v <= M) (blend y0 y1 c00 c01 c10 c11).
Proof.
  intros H0 H1. induction n as [| n IH]; intros c00 c01 c10 c11 L00 L01 L10 L11 F00 F01 F10 F11.
  - destruct c00; [| discriminate]. constructor.
  - destruct c00 as [| a A], c01 as [| b B], c10 as [| c C], c11 as [| d D];
      try discriminate.
    inversion F00; inversion F01; inversion F10; inversion F11; subst.
    rewrite blend_cons. constructor.
    + apply convex4_bound; assumption.
    + apply IH; try assumption; simpl in *; lia.
Qed.

Lemma Forall_flatten (P : R -> Prop) (a : ndarray2) :
  Forall (Forall P) a -> Forall P (flatten a).
Proof. intros H. unfold flatten. apply Forall_concat. exact H. Qed.

Lemma Forall_firstn_R (P : R -> Prop) n v : Forall P v -> Forall P (firstn n v).
Proof.
  revert v. induction n as [| n IH]; intros v Hv; [constructor |].
  destruct Hv as [| x v Hx Hv]; simpl; constructor; [exact Hx | apply IH; exact Hv].
Qed.

Lemma Forall_skipn_R (P : R -> Prop) n v : Forall P v -> Forall P (skipn n v).
Proof.
  revert v. induction n as [| n IH]; intros v Hv; [exact Hv |].
  destruct Hv as [| x v Hx Hv]; simpl; [constructor | apply IH; exact Hv].
Qed.

Lemma Forall_chunks (P : R -> Prop) r c v :
  Forall P v -> Forall (Forall P) (chunks r c v).
Proof.
  revert v. induction r as [| r IH]; intros v Hv; simpl; constructor.
  - apply Forall_firstn_R. exact Hv.
  - apply IH. apply Forall_skipn_R. exact Hv.
Qed.

Lemma time_modulation_range be t : 0.8 <= time_modulation be t <= 1.2.
Proof.
  unfold time_modulation.
  pose proof (SIN_bound (2 * PI * (5 + be * 15) * t * 0.01)) as [Hl Hu].
  lra.
Qed.

Lemma call_bounded x0 x1 :
  0 <= x0 <= 1 -> 0 <= x1 <= 1 ->
  exists flat,
    call (interpolator the_db) (x0, x1) = Ok flat /\
    length flat = (GRID_SIZE * GRID_SIZE)%nat /\
    Forall (fun v => Rabs v <= 1) flat.
Proof.
  intros Hx0 Hx1.
  destruct (find_index_unit x0 Hx0) as (i0 & y0 & H0 & Hi0 & Hy0).
  destruct (find_index_unit x1 Hx1) as (i1 & y1 & H1 & Hi1 & Hy1).
  destruct (steps_in_range i0 Hi0) as (a0 & b0 & Ha0 & Hb0).
  destruct (steps_in_range i1 Hi1) as (a1 & b1 & Ha1 & Hb1).
  destruct (evaluate_linear_ok stored_array i0 y0 i1 y1 (GRID_SIZE * GRID_SIZE)
              _ _ _ _
              (getitem2_stored _ _ _ _ Ha0 Ha1) (getitem2_stored _ _ _ _ Ha0 Hb1)
              (getitem2_stored _ _ _ _ Hb0 Ha1) (getitem2_stored _ _ _ _ Hb0 Hb1)
              (length_stored_pattern _ _) (length_stored_pattern _ _)
              (length_stored_pattern _ _) (length_stored_pattern _ _))
    as [Hev Hlen].
  eexists. split; [| split; [exact Hlen |]].
  - unfold call. cbn [interpolator the_db grid0 grid1 values fst snd].
    rewrite H0. cbn [bind]. rewrite H1. cbn [bind fst snd]. exact Hev.
  - apply (blend_bound 1 y0 y1 (GRID_SIZE * GRID_SIZE) Hy0 Hy1);
      try apply length_stored_pattern;
      apply Forall_flatten, compute_pattern_grid.
Qed.

(** X2. On the constructed database [get_magnetic_state] returns, for
    every theta, beta and time, a 128 x 128 field whose values have
    magnitude at most 1.2, and at most 1 when the time is 0 or omitted. *)
Theorem get_magnetic_state_bounded :
  forall (th be : R) (t : option R),
  exists p : ndarray2,
    get_magnetic_state the_db th be t = Ok p /\
    has_shape GRID_SIZE GRID_SIZE p /\
    Forall (Forall (fun v => Rabs v <= 1.2)) p /\
    (t = None \/ t = Some 0 -> Forall (Forall (fun v => Rabs v <= 1)) p).
Proof.
  intros th be t.
  destruct (call_bounded (clip th 0 1) (clip be 0 1) (clip_in_unit th) (clip_in_unit be))
    as (flat & Hcall & Hlen & Hb).
  unfold get_magnetic_state. rewrite Hcall. cbn [bind].
  unfold reshape. destruct (Nat.eq_dec (length flat) (GRID_SIZE * GRID_SIZE));
    [| contradiction].
  cbn [bind]. eexists. split; [reflexivity |].
  split; [apply has_shape_map1, has_shape_chunks; exact Hlen |].
  pose proof (Forall_chunks _ GRID_SIZE GRID_SIZE flat Hb) as Hc.
  split.
  - unfold mul_scalar, map1. rewrite Forall_map.
    eapply Forall_impl; [| exact Hc]. intros row Hrow. rewrite Forall_map.
    eapply Forall_impl; [| exact Hrow]. intros v Hv. cbv beta in *.
    rewrite Rabs_mult.
    pose proof (time_modulation_range be match t with Some t0 => t0 | None => 0 end)
      as [Hl Hu].
    rewrite (Rabs_right (time_modulation _ _)) by lra.
    pose proof (Rabs_pos v). nra.
  - intros Ht.
    assert (Hm : time_modulation be match t with Some t0 => t0 | None => 0 end = 1)
      by (destruct Ht as [-> | ->]; apply time_modulation_zero).
    rewrite map1_scale_one by exact Hm. exact Hc.
Qed.

Lemma get_magnetic_state_bounded_witness :
  exists p : ndarray2,
    get_magnetic_state the_db 0.3 7 None = Ok p /\
    Forall (Forall (fun v => Rabs v <= 1)) p.
Proof.
  destruct (get_magnetic_state_bounded 0.3 7 None) as (p & Hp & _ & _ & Hb).
  exists p. split; [exact Hp | apply Hb; left; reflexivity].
Defined.

(** ** Contents of the database *)

Lemma dict_get_missing (d : dict) k :
  ~ In k (map fst d) -> dict_get d k = Raise KeyError.
Proof.
  induction d as [| [k' v] d IH]; intros Hk; simpl; [reflexivity |].
  destruct (key_eq_dec k k') as [-> | Hne].
  - exfalso. apply Hk. left. reflexivity.
  - apply IH. intros Hin. apply Hk. right. exact Hin.
Qed.

Lemma stored_keys :
  map fst stored_patterns =
  rev (flat_map (fun th => map (fun be => (th, be)) PARAM_STEPS) PARAM_STEPS).
Proof. reflexivity. Qed.

Lemma stored_keys_prod : map fst stored_patterns = rev (list_prod PARAM_STEPS PARAM_STEPS).
Proof. reflexivity. Qed.

Lemma NoDup_list_prod {A B : Type} (l : list A) (l' : list B) :
  NoDup l -> NoDup l' -> NoDup (list_prod l l').
Proof.
  intros Hl Hl'. induction Hl as [| a l Ha Hl IH]; simpl; [constructor |].
  apply NoDup_app.
  - apply Injective_map_NoDup; [| exact Hl'].
    intros x y H. injection H as H. exact H.
  - exact IH.
  - intros [x y] Hin Hin'. apply in_map_iff in Hin. destruct Hin as (b & Hb & _).
    injection Hb as <- <-. apply in_prod_iff in Hin'. destruct Hin' as [Hin' _].
    contradiction.
Qed.

Lemma NoDup_PARAM_STEPS : NoDup PARAM_STEPS.
Proof.
  unfold PARAM_STEPS.
  repeat (constructor; [cbn [In]; intros H;
                        repeat (destruct H as [H | H]; [lra |]); exact H |]).
  constructor.
Qed.

Lemma stored_key_iff k :
  In k (map fst stored_patterns) <-> In (fst k) PARAM_STEPS /\ In (snd k) PARAM_STEPS.
Proof.
  rewrite stored_keys_prod, <- in_rev. destruct k as [th be]. apply in_prod_iff.
Qed.

(** X1. The constructed database holds exactly the 25 grid points, each
    once; every stored field is what [_compute_pattern] returns for its
    point, is 128 x 128 with magnitudes at most 1, and sits flattened at
    the point's indices in [pattern_array]; a key off the grid raises
    [KeyError]. *)
Theorem database_contents :
  __init__ = Ok the_db /\
  length (patterns the_db) = 25%nat /\
  NoDup (map fst (patterns the_db)) /\
  (forall th be : R,
      In th PARAM_STEPS -> In be PARAM_STEPS ->
      exists (p : ndarray2) (i j : nat),
        dict_get (patterns the_db) (th, be) = Ok p /\
        _compute_pattern grid_X grid_Y grid_R th be = Ok p /\
        has_shape GRID_SIZE GRID_SIZE p /\
        Forall (Forall (fun v => Rabs v <= 1)) p /\
        nth_error PARAM_STEPS i = Some th /\
        nth_error PARAM_STEPS j = Some be /\
        getitem2 (pattern_array the_db) i j = Ok (flatten p)) /\
  (forall th be : R,
      ~ (In th PARAM_STEPS /\ In be PARAM_STEPS) ->
      dict_get (patterns the_db) (th, be) = Raise KeyError).
Proof.
  split; [apply init_ok |]. split; [reflexivity |].
  split; [| split].
  - cbn [patterns the_db]. rewrite stored_keys_prod. apply NoDup_rev.
    apply NoDup_list_prod; apply NoDup_PARAM_STEPS.
  - intros th be Hth Hbe.
    destruct (compute_pattern_grid th be) as (Hp & Hs & Hb).
    destruct (In_nth_error _ _ Hth) as [i Hi].
    destruct (In_nth_error _ _ Hbe) as [j Hj].
    exists (pattern_of th be), i, j.
    split; [apply stored_patterns_get; assumption |].
    split; [exact Hp |]. split; [exact Hs |]. split; [exact Hb |].
    split; [exact Hi |]. split; [exact Hj |].
    apply getitem2_stored; assumption.
  - intros th be Hout. apply dict_get_missing.
    intros Hin. apply stored_key_iff in Hin. exact (Hout Hin).
Qed.

Lemma database_contents_witness :
  (exists (p : ndarray2) (i j : nat),
      dict_get (patterns the_db) (0.5, 0.75) = Ok p /\
      _compute_pattern grid_X grid_Y grid_R 0.5 0.75 = Ok p /\
      has_shape GRID_SIZE GRID_SIZE p /\
      Forall (Forall (fun v => Rabs v <= 1)) p /\
      nth_error PARAM_STEPS i = Some 0.5 /\
      nth_error PARAM_STEPS j = Some 0.75 /\
      getitem2 (pattern_array the_db) i j = Ok (flatten p)) /\
  dict_get (patterns the_db) (0.3, 0.5) = Raise KeyError.
Proof.
  split.
  - apply (proj1 (proj2 (proj2 (proj2 database_contents))) 0.5 0.75); in_steps.
  - apply (proj2 (proj2 (proj2 (proj2 database_contents))) 0.3 0.5).
    cbn [In PARAM_STEPS]. intros [H _].
    repeat (destruct H as [H | H]; [lra |]). exact H.
Defined.

(** ** The singleton *)

(** X3. [get_simulation_db] builds the database on the first call and
    from then on returns that same object without building again. *)
Theorem get_simulation_db_singleton :
  get_simulation_db None = Ok (the_db, Some the_db) /\
  (forall (g g' : option InterpolatedSimulationDB) (db : InterpolatedSimulationDB),
      get_simulation_db g = Ok (db, g') ->
      g' = Some db /\
      get_simulation_db g' = Ok (db, g') /\
      (forall db0, g = Some db0 -> db = db0)).
Proof.
  split.
  - unfold get_simulation_db. rewrite init_ok. reflexivity.
  - intros g g' db H. destruct g as [db0 |]; simpl in H.
    + injection H as <- <-. repeat split. intros db1 H1. congruence.
    + rewrite init_ok in H. simpl in H. injection H as <- <-.
      repeat split. intros db0 H0. discriminate.
Qed.

Lemma get_simulation_db_singleton_witness :
  Some the_db = Some the_db /\
  get_simulation_db (Some the_db) = Ok (the_db, Some the_db) /\
  (forall db0, None = Some db0 -> the_db = db0).
Proof.
  apply (proj2 get_simulation_db_singleton None (Some the_db) the_db).
  apply (proj1 get_simulation_db_singleton).
Defined.

(** ** More on the Hebbian update *)

Lemma vmap2_minus_self v : vmap2 Rminus v v = zeros (length v).
Proof.
  induction v as [| a v IH]; [reflexivity |].
  rewrite vmap2_cons, IH. simpl. rewrite zeros_S. f_equal. lra.
Qed.

Lemma outer_zeros n m : outer (zeros n) m = zeros2 n (length m).
Proof.
  unfold outer, zeros2. induction n as [| n IH]; [reflexivity |].
  rewrite zeros_S. simpl. rewrite IH. f_equal.
  apply map_const_zero. intros v. lra.
Qed.

Lemma map1_zeros2 f r c : f 0 = 0 -> map1 f (zeros2 r c) = zeros2 r c.
Proof.
  intros Hf. unfold map1, zeros2. induction r as [| r IH]; [reflexivity |].
  simpl. rewrite IH, (map_zeros f c Hf). reflexivity.
Qed.

Lemma map2_plus_zeros2 r c (W : ndarray2) :
  has_shape r c W -> map2 Rplus W (zeros2 r c) = W.
Proof.
  intros [Hr Hc]. subst r. unfold map2, zeros2.
  induction W as [| row W IH]; [reflexivity |].
  inversion Hc as [| ? ? Hrow Hrest]; subst. simpl.
  rewrite IH by assumption. rewrite vmap2_plus_zeros_r. reflexivity.
Qed.

Lemma update_hebbian_zero_error self field cur lr :
  wf_readout self ->
  length (flatten field) = input_dim self ->
  length cur = output_dim self ->
  update_hebbian field cur cur (Some lr) self = Ok (tt, self).
Proof.
  intros Hwf Hf Hc.
  rewrite (update_hebbian_ok self field cur cur lr Hwf Hf Hc Hc).
  rewrite vmap2_minus_self, outer_zeros, Hc, Hf.
  rewrite map1_zeros2 by lra. rewrite (map_zeros (fun e => lr * e)) by lra.
  destruct Hwf as [HW Hb]. destruct self as [i o ra W b]. cbn [input_dim output_dim W_out bias ridge_alpha] in *.
  rewrite (map2_plus_zeros2 _ _ _ HW). subst o. rewrite vmap2_plus_zeros_r.
  reflexivity.
Qed.

Lemma dot1_cons a u b v : dot1 (a :: u) (b :: v) = a * b + dot1 u v.
Proof. reflexivity. Qed.

Lemma dot1_hebbian_row lr e (row m : ndarray1) :
  length row = length m ->
  dot1 (vmap2 Rplus row (map (fun v => lr * v) (map (fun mj => e * mj) m))) m =
  dot1 row m + lr * e * dot1 m m.
Proof.
  revert m. induction row as [| a row IH]; intros [| b m] Hlen; try discriminate.
  - unfold dot1, sum. simpl. lra.
  - simpl map. rewrite vmap2_cons, !dot1_cons. rewrite IH by (simpl in Hlen; lia).
    lra.
Qed.

Lemma hebbian_rows lr (m : ndarray1) :
  forall (W : ndarray2) (e b : ndarray1),
    length W = length e -> length b = length e ->
    Forall (fun row => length row = length m) W ->
    vmap2 Rplus
      (map (fun row => dot1 row m)
           (map2 Rplus W (map1 (fun v => lr * v) (outer e m))))
      (vmap2 Rplus b (map (fun x => lr * x) e)) =
    vmap2 Rplus (vmap2 Rplus (map (fun row => dot1 row m) W) b)
          (map (fun x => lr * (1 + dot1 m m) * x) e).
Proof.
  induction W as [| row W IH]; intros [| x e] [| y b] HW Hb Hrows; try discriminate.
  - reflexivity.
  - inversion Hrows as [| ? ? Hrow Hrest]; subst.
    unfold map2, map1, outer in *. simpl.
    rewrite !vmap2_cons. f_equal.
    + rewrite (dot1_hebbian_row lr x row m Hrow). lra.
    + apply IH; simpl in *; try lia. exact Hrest.
Qed.

(** X5. After one Hebbian step on a field, the prediction for that field
    has moved by [lr * (1 + |m|^2) * (target - current)], where [m] is the
    flattened field. *)
Theorem hebbian_step_moves_prediction :
  forall (self : ReservoirReadout) (field : ndarray2) (cur tgt : ndarray1) (lr : R),
    wf_readout self ->
    length (flatten field) = input_dim self ->
    length cur = output_dim self ->
    length tgt = output_dim self ->
    exists (y y' : ndarray1) (self' : ReservoirReadout),
      predict field self = Ok (y, self) /\
      update_hebbian field cur tgt (Some lr) self = Ok (tt, self') /\
      predict field self' = Ok (y', self') /\
      y' = vmap2 Rplus y
             (map (fun e => lr * (1 + dot1 (flatten field) (flatten field)) * e)
                  (vmap2 Rminus tgt cur)).
Proof.
  intros self field cur tgt lr Hwf Hf Hc Ht.
  pose proof Hwf as [[HW Hrows] Hb].
  assert (He : length (vmap2 Rminus tgt cur) = output_dim self).
  { rewrite length_vmap2; [exact Ht | rewrite Hc, Ht; reflexivity]. }
  eexists. eexists. eexists.
  split; [apply predict_ok; assumption |].
  split; [apply update_hebbian_ok; assumption |].
  match goal with
  | |- predict field ?s = _ /\ _ => set (self' := s)
  end.
  assert (Hwf' : wf_readout self').
  { split; [split |]; cbn [self' W_out bias input_dim output_dim].
    - unfold map2. rewrite length_map, length_combine. unfold map1, outer.
      rewrite !length_map, HW, He. apply Nat.min_id.
    - apply (has_shape_map2 Rplus (output_dim self) (input_dim self)).
      + split; assumption.
      + apply has_shape_map1. rewrite <- He, <- Hf. apply has_shape_outer.
    - rewrite length_vmap2; [exact Hb |]. rewrite length_map, He, Hb. reflexivity. }
  split; [apply predict_ok; [exact Hwf' | exact Hf] |].
  cbn [self' W_out bias].
  apply hebbian_rows.
  - rewrite HW, He. reflexivity.
  - rewrite Hb, He. reflexivity.
  - rewrite Hf. exact Hrows.
Qed.

Lemma hebbian_step_moves_prediction_witness :
  exists (y y' : ndarray1) (self' : ReservoirReadout),
    predict [[3; 4]] small_readout = Ok (y, small_readout) /\
    update_hebbian [[3; 4]] [1] [2] (Some 0.5) small_readout = Ok (tt, self') /\
    predict [[3; 4]] self' = Ok (y', self') /\
    y' = vmap2 Rplus y
           (map (fun e => 0.5 * (1 + dot1 [3; 4] [3; 4]) * e) (vmap2 Rminus [2] [1])).
Proof.
  apply (hebbian_step_moves_prediction small_readout [[3; 4]] [1] [2] 0.5
           wf_small_readout eq_refl eq_refl eq_refl).
Defined.

Lemma has_shape_stretch_cols dm i de (delta : ndarray2) :
  has_shape de dm delta -> has_shape de i (map (stretch 0 dm i) delta).
Proof.
  intros [Hr Hc]. split; [rewrite length_map; exact Hr |].
  apply Forall_map. eapply Forall_impl; [| exact Hc]. intros row Hrow.
  cbv beta in *. unfold stretch. destruct (Nat.eqb dm i) eqn:E.
  - apply Nat.eqb_eq in E. lia.
  - apply repeat_length.
Qed.

Lemma has_shape_stretch_rows de o i (rows : ndarray2) :
  broadcasts_to de o = true ->
  has_shape de i rows -> has_shape o i (stretch [] de o rows).
Proof.
  intros Hb [Hr Hc]. unfold stretch. destruct (Nat.eqb de o) eqn:E.
  - apply Nat.eqb_eq in E. subst o. split; assumption.
  - unfold broadcasts_to in Hb. rewrite E in Hb. simpl in Hb.
    apply Nat.eqb_eq in Hb. subst de.
    destruct rows as [| r [| r' rows]]; try discriminate.
    inversion Hc; subst. simpl. split; [apply repeat_length |].
    apply Forall_forall. intros x Hx. apply repeat_spec in Hx. subst x. reflexivity.
Qed.

Lemma length_stretch1 de o (v : ndarray1) :
  broadcasts_to de o = true -> length v = de -> length (stretch 0 de o v) = o.
Proof.
  intros Hb Hv. unfold stretch. destruct (Nat.eqb de o) eqn:E.
  - apply Nat.eqb_eq in E. lia.
  - apply repeat_length.
Qed.

Lemma update_hebbian_keeps_shape self field cur tgt lr self' :
  wf_readout self ->
  update_hebbian field cur tgt lr self = Ok (tt, self') ->
  wf_readout self' /\
  input_dim self' = input_dim self /\
  output_dim self' = output_dim self /\
  ridge_alpha self' = ridge_alpha self.
Proof.
  intros [HW Hb] H. unfold update_hebbian in H.
  apply bind_ok in H. destruct H as (e & _ & H).
  apply bind_ok in H. destruct H as (W & HWadd & H).
  apply bind_ok in H. destruct H as (b & Hbadd & H).
  injection H as <-. cbn [input_dim output_dim ridge_alpha W_out bias wf_readout].
  unfold wf_readout. cbn [input_dim output_dim ridge_alpha W_out bias].
  repeat split; try reflexivity.
  - unfold iadd2 in HWadd. cbn [fst snd] in HWadd.
    destruct (broadcasts_to (length e) (output_dim self)) eqn:B1; [| discriminate].
    destruct (broadcasts_to (length (flatten field)) (input_dim self)) eqn:B2;
      [| discriminate].
    simpl in HWadd. injection HWadd as <-.
    apply (has_shape_map2 Rplus _ _ _ _ HW).
    apply has_shape_stretch_rows; [exact B1 |].
    apply has_shape_stretch_cols, has_shape_map1, has_shape_outer.
  - unfold iadd2 in HWadd. cbn [fst snd] in HWadd.
    destruct (broadcasts_to (length e) (output_dim self)) eqn:B1; [| discriminate].
    destruct (broadcasts_to (length (flatten field)) (input_dim self)) eqn:B2;
      [| discriminate].
    simpl in HWadd. injection HWadd as <-.
    apply (has_shape_map2 Rplus _ _ _ _ HW).
    apply has_shape_stretch_rows; [exact B1 |].
    apply has_shape_stretch_cols, has_shape_map1, has_shape_outer.
  - unfold iadd1 in Hbadd.
    destruct (broadcasts_to _ _) eqn:B; [| discriminate].
    injection Hbadd as <-.
    rewrite length_vmap2; [exact Hb |].
    rewrite length_stretch1; [reflexivity | exact B | reflexivity].
Qed.

(** ** Runs of a controller *)

Lemma controller_ok_init randn loaded c :
  (loaded = __init__ \/ loaded = Raise ImportError) ->
  MagnonicController__init__ randn loaded = Ok c -> controller_ok c.
Proof.
  intros [-> | ->] H.
  - rewrite init_with_db in H. injection H as <-.
    split; [apply wf_ReservoirReadout__init__ |].
    split; [reflexivity |]. split; [reflexivity |]. right. split; reflexivity.
  - rewrite init_without_db in H. injection H as <-.
    split; [apply wf_ReservoirReadout__init__ |].
    split; [reflexivity |]. split; [reflexivity |]. left. split; reflexivity.
Qed.

Lemma controller_ok_process now th be c :
  controller_ok c ->
  exists b,
    process_eeg_stream now th be c = Ok (b, c) /\
    length (joint_angles b) = 20%nat.
Proof.
  intros (Hwf & Hin & Hout & Hmode).
  assert (Hlen : forall field : ndarray2,
             length (vmap2 Rplus (map (fun row => dot1 row (flatten field))
                                      (W_out (readout c)))
                           (bias (readout c))) = 20%nat).
  { intros field. destruct Hwf as [[HW _] Hb].
    rewrite length_vmap2; rewrite length_map, HW; [exact Hout |].
    rewrite Hb. reflexivity. }
  destruct Hmode as [[Hpre Hdb] | [Hpre Hdb]].
  - eexists. split.
    + apply (process_eeg_stream_fallback now th be c Hwf Hin). left. exact Hpre.
    + apply Hlen.
  - destruct (process_eeg_stream_db now th be c Hwf Hin Hpre Hdb) as (field & _ & Hrun).
    eexists. split; [exact Hrun | apply Hlen].
Qed.

Lemma controller_ok_run op c out c' :
  controller_ok c -> run op c = Ok (out, c') -> controller_ok c'.
Proof.
  intros Hok H. destruct (is_train op) eqn:Hop.
  - destruct op as [| | | field cur tgt lr]; try discriminate.
    unfold run in H. apply bind_ok in H. destruct H as ([[] r'] & Hup & H).
    injection H as _ <-.
    destruct Hok as (Hwf & Hin & Hout & Hmode).
    destruct (update_hebbian_keeps_shape _ _ _ _ _ _ Hwf Hup) as (Hwf' & Hi & Ho & _).
    unfold controller_ok, with_readout.
    cbn [readout sim_db use_precomputed].
    split; [exact Hwf' |]. split; [congruence |]. split; [congruence | exact Hmode].
  - apply run_keeps_self in H; [| exact Hop]. subst c'. exact Hok.
Qed.

(** X7. Whatever sequence of predictions, simulations and training steps
    has run without an exception on a controller built by
    [MagnonicController()], the controller keeps its database mode and
    [process_eeg_stream] still returns 20 joint angles and a fluidity
    index in (0, 1] for every theta, beta and time. *)
Theorem inference_survives_training :
  forall (randn : nat -> nat -> R) (loaded : result InterpolatedSimulationDB)
         (c : MagnonicController),
    loaded = __init__ \/ loaded = Raise ImportError ->
    MagnonicController__init__ randn loaded = Ok c ->
    forall (ops : list operation) (outs : list outcome) (c' : MagnonicController),
      run_all ops c = Ok (outs, c') ->
      controller_ok c' /\
      sim_db c' = sim_db c /\ use_precomputed c' = use_precomputed c /\
      forall now th be : R,
      exists b,
        process_eeg_stream now th be c' = Ok (b, c') /\
        length (joint_angles b) = 20%nat /\
        0 < fluidity_index b <= 1.
Proof.
  intros randn loaded c Hl Hinit ops.
  pose proof (controller_ok_init randn loaded c Hl Hinit) as Hok.
  clear Hinit Hl. revert c Hok.
  induction ops as [| op ops IH]; intros c Hok outs c' H.
  - simpl in H. injection H as _ <-.
    split; [exact Hok |]. split; [reflexivity |]. split; [reflexivity |].
    intros now th be.
    destruct (controller_ok_process now th be c Hok) as (b & Hrun & Hlen).
    exists b. split; [exact Hrun |]. split; [exact Hlen |].
    apply process_eeg_stream_inv in Hrun. destruct Hrun as (f & _ & _ & Hf & _).
    rewrite Hf. apply fluidity_bounds, var_nonneg.
  - simpl in H. apply bind_ok in H. destruct H as ([o1 c1] & H1 & H).
    apply bind_ok in H. destruct H as ([os c2] & H2 & H). cbn [fst snd] in *.
    injection H as _ <-.
    pose proof (controller_ok_run op c o1 c1 Hok H1) as Hok1.
    destruct (IH c1 Hok1 os c2 H2) as (Hok2 & Hdb & Hpre & Hproc).
    split; [exact Hok2 |].
    assert (Hsame : sim_db c1 = sim_db c /\ use_precomputed c1 = use_precomputed c).
    { destruct (is_train op) eqn:Hop.
      - destruct op as [| | | field cur tgt lr]; try discriminate.
        unfold run in H1. apply bind_ok in H1. destruct H1 as (r & _ & H1).
        injection H1 as _ <-. split; reflexivity.
      - apply run_keeps_self in H1; [| exact Hop]. subst c1. split; reflexivity. }
    destruct Hsame as [Hs1 Hs2].
    split; [congruence |]. split; [congruence | exact Hproc].
Qed.

(** ** Broadcasting in the Hebbian update *)

(** X6. A field of a single pixel is rejected by [predict] but accepted
    by [update_hebbian], which stretches it over the whole row: every
    weight of row [i] gets [lr * error_i * m0]. *)
Theorem update_hebbian_single_pixel :
  forall (self : ReservoirReadout) (m0 : R) (cur tgt : ndarray1) (lr : R),
    wf_readout self ->
    input_dim self <> 1%nat ->
    length cur = output_dim self ->
    length tgt = output_dim self ->
    predict [[m0]] self = Raise (ValueError ShapesNotAligned) /\
    exists self',
      update_hebbian [[m0]] cur tgt (Some lr) self = Ok (tt, self') /\
      W_out self' =
        map2 Rplus (W_out self)
             (map (fun e => repeat (lr * (e * m0)) (input_dim self))
                  (vmap2 Rminus tgt cur)) /\
      bias self' =
        vmap2 Rplus (bias self) (map (fun e => lr * e) (vmap2 Rminus tgt cur)).
Proof.
  intros self m0 cur tgt lr [HW Hb] Hdim Hc Ht. split.
  - apply predict_mismatch. simpl. congruence.
  - assert (He : length (vmap2 Rminus tgt cur) = output_dim self).
    { rewrite length_vmap2; [exact Ht | rewrite Hc, Ht; reflexivity]. }
    unfold update_hebbian.
    rewrite broadcast1_same by (rewrite Hc, Ht; reflexivity). cbn [bind].
    rewrite He. unfold iadd2. cbn [fst snd flatten concat app length].
    rewrite broadcasts_to_same.
    assert (B : broadcasts_to 1 (input_dim self) = true).
    { unfold broadcasts_to. rewrite Nat.eqb_refl. apply orb_true_r. }
    rewrite B. cbn [andb bind]. rewrite stretch_same.
    rewrite iadd1_same by (rewrite length_map, He, Hb; reflexivity).
    cbn [bind]. eexists. split; [reflexivity |].
    cbn [W_out bias]. split; [| reflexivity].
    f_equal. unfold map1, outer. rewrite !map_map.
    apply map_ext. intros e. cbn [map]. unfold stretch.
    destruct (Nat.eqb 1 (input_dim self)) eqn:E.
    + apply Nat.eqb_eq in E. congruence.
    + reflexivity.
Qed.

Lemma small_readout3_wf : wf_readout (mkReadout 3 1 1 [[1; 2; 3]] [5]).
Proof.
  unfold wf_readout, has_shape. simpl. repeat split. repeat constructor.
Qed.

Lemma update_hebbian_single_pixel_witness :
  predict [[2]] (mkReadout 3 1 1 [[1; 2; 3]] [5]) = Raise (ValueError ShapesNotAligned) /\
  exists self',
    update_hebbian [[2]] [1] [4] (Some 0.5) (mkReadout 3 1 1 [[1; 2; 3]] [5])
      = Ok (tt, self') /\
    W_out self' =
      map2 Rplus [[1; 2; 3]]
           (map (fun e => repeat (0.5 * (e * 2)) 3) (vmap2 Rminus [4] [1])) /\
    bias self' = vmap2 Rplus [5] (map (fun e => 0.5 * e) (vmap2 Rminus [4] [1])).
Proof.
  apply (update_hebbian_single_pixel (mkReadout 3 1 1 [[1; 2; 3]] [5]) 2 [1] [4] 0.5
           small_readout3_wf).
  - simpl. lia.
  - reflexivity.
  - reflexivity.
Defined.

(** ** Bound on the fallback wave *)

Lemma Forall2d_map2 (P : R -> Prop) f (a b : ndarray2) :
  (forall x y, P (f x y)) -> Forall (Forall P) (map2 f a b).
Proof.
  intros Hf. unfold map2. apply Forall_map, Forall_forall. intros [u v] _.
  unfold vmap2. apply Forall_map, Forall_forall. intros [x y] _. apply Hf.
Qed.

Lemma grid_radius_nonneg n : Forall (Forall (fun r => 0 <= r)) (snd (grid_coords n)).
Proof.
  unfold grid_coords.
  destruct (meshgrid (linspace (-5) 5 n) (linspace (-5) 5 n)) as [X Y]. cbn [snd].
  apply Forall2d_map2. intros x y. apply sqrt_pos.
Qed.

Lemma exp_nonpos_le_1 x : x <= 0 -> exp x <= 1.
Proof.
  intros H. rewrite <- exp_0. destruct H as [H | ->]; [| lra].
  apply Rlt_le, exp_increasing. exact H.
Qed.

Theorem fallback_state_bounded :
  forall a b t : R,
    0 <= a ->
    has_shape 128 128 (fallback_state a b t) /\
    Forall (Forall (fun v => Rabs v <= Rabs b)) (fallback_state a b t).
Proof.
  intros a b t Ha. split; [apply has_shape_fallback_state |].
  rewrite fallback_state_unfold. unfold map1. rewrite Forall_map.
  eapply Forall_impl; [| apply (grid_radius_nonneg 128)].
  intros row Hrow. rewrite Forall_map.
  eapply Forall_impl; [| exact Hrow]. intros r Hr. cbv beta in *.
  rewrite !Rabs_mult.
  pose proof (SIN_bound (r - 2 * PI * 2.0 * t)) as [Hs1 Hs2].
  assert (Hsin : Rabs (sin (r - 2 * PI * 2.0 * t)) <= 1) by (apply Rabs_le; lra).
  assert (Hexp : Rabs (exp (- 0.1 * r * a)) <= 1).
  { rewrite Rabs_right by (apply Rle_ge, Rlt_le, exp_pos).
    apply exp_nonpos_le_1. nra. }
  pose proof (Rabs_pos (sin (r - 2 * PI * 2.0 * t))) as Hs0.
  pose proof (Rabs_pos (exp (- 0.1 * r * a))) as He0.
  assert (Hse : Rabs (sin (r - 2 * PI * 2.0 * t)) * Rabs (exp (- 0.1 * r * a)) <= 1)
    by nra.
  rewrite <- (Rmult_1_l (Rabs b)) at 2.
  apply Rmult_le_compat_r; [apply Rabs_pos | exact Hse].
Qed.

Lemma fallback_state_bounded_witness :
  Forall (Forall (fun v => Rabs v <= Rabs 0.05)) (fallback_state 0.06 0.05 3).
Proof.
  apply (fallback_state_bounded 0.06 0.05 3). lra.
Defined.

(** ** Further properties of the readout and the orchestrator *)

(** X4. A Hebbian step whose target equals the current output changes
    neither the weights nor the bias, whatever the learning rate. *)
Theorem update_hebbian_fixed_point :
  forall (self : ReservoirReadout) (field : ndarray2) (cur : ndarray1)
         (lr : option R),
    wf_readout self ->
    length (flatten field) = input_dim self ->
    length cur = output_dim self ->
    update_hebbian field cur cur lr self = Ok (tt, self).
Proof.
  intros self field cur [lr |] Hwf Hf Hc.
  - apply update_hebbian_zero_error; assumption.
  - change (update_hebbian field cur cur None self)
      with (update_hebbian field cur cur (Some 0.001) self).
    apply update_hebbian_zero_error; assumption.
Qed.

Lemma update_hebbian_fixed_point_witness :
  update_hebbian [[3; 4]] [7] [7] None small_readout = Ok (tt, small_readout).
Proof.
  apply (update_hebbian_fixed_point small_readout [[3; 4]] [7] None wf_small_readout);
    reflexivity.
Defined.

(** X8. The fallback wave of [process_eeg_stream] is a 128 x 128 field
    and, when the damping [0.01 + 0.05 * theta] is not negative, each of its
    values has magnitude at most [0.05 * |beta|]. *)
Theorem fallback_wave_amplitude :
  forall th be t : R,
    -0.2 <= th ->
    has_shape 128 128 (fallback_state (0.01 + 0.05 * th) (0.05 * be) t) /\
    Forall (Forall (fun v => Rabs v <= 0.05 * Rabs be))
           (fallback_state (0.01 + 0.05 * th) (0.05 * be) t).
Proof.
  intros th be t Hth.
  destruct (fallback_state_bounded (0.01 + 0.05 * th) (0.05 * be) t) as [Hs Hb];
    [lra |].
  split; [exact Hs |].
  rewrite Rabs_mult, (Rabs_right 0.05) in Hb by lra. exact Hb.
Qed.

Lemma fallback_wave_amplitude_witness :
  Forall (Forall (fun v => Rabs v <= 0.05 * Rabs 1))
         (fallback_state (0.01 + 0.05 * 1) (0.05 * 1) 3).
Proof.
  apply (fallback_wave_amplitude 1 1 3). lra.
Defined.



Lemma train_mock_controller :
  run_all [OpTrain (zeros2 128 128) (zeros 20) (zeros 20) (Some 0.5);
           OpProcess 0 0.5 0.5] mock_controller
  = Ok ([OutNone;
         OutBundle
           (mkBundle
              (vmap2 Rplus
                 (map (fun row => dot1 row (flatten (fallback_state (0.01 + 0.05 * 0.5)
                                                      (0.05 * 0.5) 0)))
                      (W_out (readout mock_controller)))
                 (bias (readout mock_controller)))
              (1.0 / (1.0 + var (vmap2 Rplus
                 (map (fun row => dot1 row (flatten (fallback_state (0.01 + 0.05 * 0.5)
                                                      (0.05 * 0.5) 0)))
                      (W_out (readout mock_controller)))
                 (bias (readout mock_controller)))))
              (mkSimParams (0.01 + 0.05 * 0.5) (0.05 * 0.5) 0.5 0.5)
              (Fallback "mock"))],
        mock_controller).
Proof.
  cbn [run_all run].
  rewrite (update_hebbian_zero_error (readout mock_controller) (zeros2 128 128)
             (zeros 20) 0.5 wf_mock_controller).
  - cbn [bind fst snd]. rewrite with_readout_same.
    rewrite (process_eeg_stream_fallback 0 0.5 0.5 mock_controller
               wf_mock_controller eq_refl (or_introl eq_refl)).
    reflexivity.
  - rewrite flatten_zeros2. apply length_zeros.
  - apply length_zeros.
Qed.

Lemma inference_survives_training_witness :
  exists b,
    process_eeg_stream 1 0.2 0.9 mock_controller = Ok (b, mock_controller) /\
    length (joint_angles b) = 20%nat /\
    0 < fluidity_index b <= 1.
Proof.
  apply (inference_survives_training (fun _ _ => 0) (Raise ImportError) mock_controller
           (or_intror eq_refl) mock_controller_init _ _ _ train_mock_controller).
Defined.

(** X18. The status the pipeline prints depends on theta alone: for the
    bundle of [process_eeg_stream] it is STABLE exactly when theta > 0.6,
    RESPONSIVE exactly when theta < 0.2 and BALANCED in between; so STAND
    is STABLE, WALK and an unknown action are BALANCED, RUN is
    RESPONSIVE. *)
Theorem physics_status_of_theta :
  forall (now th be : R) (c c' : MagnonicController) (b : bundle),
    process_eeg_stream now th be c = Ok (b, c') ->
    (0.6 < th -> physics_status (alpha (sim_params b)) = "STABLE"%string) /\
    (th < 0.2 -> physics_status (alpha (sim_params b)) = "RESPONSIVE"%string) /\
    (0.2 <= th <= 0.6 -> physics_status (alpha (sim_params b)) = "BALANCED"%string).
Proof.
  intros now th be c c' b H.
  apply process_eeg_stream_inv in H. destruct H as (f & _ & _ & _ & Hs & _).
  rewrite Hs. cbn [alpha]. unfold physics_status.
  repeat split; intros Hth;
    destruct (Rlt_dec 0.04 (0.01 + 0.05 * th));
    destruct (Rlt_dec (0.01 + 0.05 * th) 0.02); try reflexivity; lra.
Qed.

Lemma physics_status_of_theta_witness :
  exists b,
    simulate_action_pattern 0 "STAND" mock_controller = Ok (b, mock_controller) /\
    physics_status (alpha (sim_params b)) = "STABLE"%string.
Proof.
  eexists. split.
  - apply (process_eeg_stream_fallback 0 0.8 0.1 mock_controller
             wf_mock_controller eq_refl (or_introl eq_refl)).
  - apply (proj1 (physics_status_of_theta 0 0.8 0.1 mock_controller mock_controller _
                    (process_eeg_stream_fallback 0 0.8 0.1 mock_controller
                       wf_mock_controller eq_refl (or_introl eq_refl)))).
    lra.
Defined.

(** ** The API handlers *)

Lemma simulate_action_pattern_ok now name c :
  controller_ok c ->
  exists b, simulate_action_pattern now name c = Ok (b, c) /\
            length (joint_angles b) = 20%nat.
Proof.
  intros Hok. unfold simulate_action_pattern.
  repeat match goal with
         | |- context [if ?x then _ else _] => destruct x
         end; apply controller_ok_process; exact Hok.
Qed.

Lemma handle_message_ok now params c :
  controller_ok c ->
  exists b, ApiServer.handle_message now params c = Ok (b, c) /\
            length (joint_angles b) = 20%nat.
Proof.
  intros Hok. unfold ApiServer.handle_message.
  destruct (ApiServer.p_action params) as [name |].
  - apply simulate_action_pattern_ok. exact Hok.
  - apply controller_ok_process. exact Hok.
Qed.

(** X11. On a controller built by [MagnonicController()] a websocket
    session answers every message, in order, and leaves the controller as
    it was: no message makes the loop stop on an exception. *)
Theorem websocket_simulation_answers_all :
  forall (msgs : list (R * ApiServer.ws_params)) (c : MagnonicController),
    controller_ok c ->
    exists sent : list bundle,
      ApiServer.websocket_simulation msgs c = (sent, c) /\
      length sent = length msgs /\
      forall (k : nat) (now : R) (params : ApiServer.ws_params),
        nth_error msgs k = Some (now, params) ->
        exists b, nth_error sent k = Some b /\
                  ApiServer.handle_message now params c = Ok (b, c).
Proof.
  intros msgs c Hok. induction msgs as [| [now params] msgs IH].
  - exists []. split; [reflexivity |]. split; [reflexivity |].
    intros [| k] ? ? H; discriminate.
  - destruct IH as (sent & Hrun & Hlen & Hnth).
    destruct (handle_message_ok now params c Hok) as (b & Hb & _).
    exists (b :: sent). cbn [ApiServer.websocket_simulation]. rewrite Hb, Hrun.
    split; [reflexivity |]. split; [simpl; rewrite Hlen; reflexivity |].
    intros [| k] now' params' H.
    + injection H as <- <-. exists b. split; [reflexivity | exact Hb].
    + apply (Hnth k now' params' H).
Qed.

Lemma controller_ok_mock : controller_ok mock_controller.
Proof.
  apply (controller_ok_init (fun _ _ => 0) (Raise ImportError)).
  - right. reflexivity.
  - apply mock_controller_init.
Qed.

Lemma websocket_simulation_answers_all_witness :
  exists sent : list bundle,
    ApiServer.websocket_simulation
      [(0, ApiServer.mkParams (Some 0.2) None None);
       (1, ApiServer.mkParams None None (Some "RUN"%string))] mock_controller
    = (sent, mock_controller) /\
    length sent = 2%nat.
Proof.
  destruct (websocket_simulation_answers_all
              [(0, ApiServer.mkParams (Some 0.2) None None);
               (1, ApiServer.mkParams None None (Some "RUN"%string))]
              mock_controller controller_ok_mock) as (sent & Hrun & Hlen & _).
  exists sent. split; [exact Hrun | exact Hlen].
Defined.

(** X10. The two endpoints agree on every request that names an action,
    and differ on the empty action name: [simulate] then uses the
    request's theta and beta, the websocket handler uses (0.5, 0.5), so the
    two bundles differ whenever (theta, beta) is not (0.5, 0.5). *)
Theorem endpoints_on_empty_action :
  forall (now th be : R) (c : MagnonicController),
    (forall name : string,
        name <> ""%string ->
        ApiServer.simulate now (ApiServer.mkRequest th be (Some name)) c =
        ApiServer.handle_message now
          (ApiServer.mkParams (Some th) (Some be) (Some name)) c) /\
    ApiServer.simulate now (ApiServer.mkRequest th be (Some ""%string)) c =
      process_eeg_stream now th be c /\
    ApiServer.handle_message now
      (ApiServer.mkParams (Some th) (Some be) (Some ""%string)) c =
      process_eeg_stream now 0.5 0.5 c /\
    (controller_ok c -> th <> 0.5 \/ be <> 0.5 ->
     ApiServer.simulate now (ApiServer.mkRequest th be (Some ""%string)) c <>
     ApiServer.handle_message now
       (ApiServer.mkParams (Some th) (Some be) (Some ""%string)) c).
Proof.
  intros now th be c. split; [| split; [reflexivity | split; [reflexivity |]]].
  - intros name Hname. unfold ApiServer.simulate, ApiServer.handle_message.
    cbn [ApiServer.action ApiServer.p_action].
    apply String.eqb_neq in Hname. rewrite Hname. reflexivity.
  - intros Hok Hne.
    change (process_eeg_stream now th be c <> process_eeg_stream now 0.5 0.5 c).
    destruct (controller_ok_process now th be c Hok) as (b1 & H1 & _).
    destruct (controller_ok_process now 0.5 0.5 c Hok) as (b2 & H2 & _).
    rewrite H1, H2. intros Heq. apply Ok_inj in Heq.
    apply (f_equal fst) in Heq. cbn [fst] in Heq. subst b2.
    apply process_eeg_stream_inv in H1, H2.
    destruct H1 as (f1 & _ & _ & _ & Hs1 & _).
    destruct H2 as (f2 & _ & _ & _ & Hs2 & _).
    rewrite Hs1 in Hs2. injection Hs2 as _ _ Hth Hbe.
    destruct Hne as [Hne | Hne]; [apply Hne; exact Hth | apply Hne; exact Hbe].
Qed.

Lemma endpoints_on_empty_action_witness :
  ApiServer.simulate 0 (ApiServer.mkRequest 0.9 0.5 (Some ""%string)) mock_controller <>
  ApiServer.handle_message 0
    (ApiServer.mkParams (Some 0.9) (Some 0.5) (Some ""%string)) mock_controller.
Proof.
  apply (proj2 (proj2 (proj2 (endpoints_on_empty_action 0 0.9 0.5 mock_controller)))
               controller_ok_mock).
  left. lra.
Defined.

(** ** The automatic stream *)

Lemma scheduled_lt k : (ApiServer.scheduled k < 5)%nat.
Proof. unfold ApiServer.scheduled. apply Nat.mod_upper_bound. discriminate. Qed.

Lemma scheduled_step k a :
  (k = 0 /\ a = 0)%nat \/ (0 < k /\ a = ApiServer.scheduled (k - 1))%nat ->
  (if Nat.eqb (k mod 50) 0 then ((a + 1) mod 5)%nat else a) = ApiServer.scheduled k.
Proof.
  intros H. unfold ApiServer.scheduled in *.
  destruct (Nat.eqb (k mod 50) 0) eqn:E.
  - apply Nat.eqb_eq in E. destruct H as [[-> ->] | [Hk ->]]; [reflexivity |].
    rewrite Nat.Div0.add_mod_idemp_l.
    assert (Hq : (k / 50 = (k - 1) / 50 + 1)%nat).
    { pose proof (Nat.div_mod_eq k 50). pose proof (Nat.div_mod_eq (k - 1) 50).
      pose proof (Nat.mod_upper_bound (k - 1) 50). nia. }
    rewrite Hq. reflexivity.
  - apply Nat.eqb_neq in E.
    destruct H as [[-> _] | [Hk ->]]; [simpl in E; congruence |].
    assert (Hq : (k / 50 = (k - 1) / 50)%nat).
    { pose proof (Nat.div_mod_eq k 50). pose proof (Nat.div_mod_eq (k - 1) 50).
      pose proof (Nat.mod_upper_bound (k - 1) 50).
      pose proof (Nat.mod_upper_bound k 50). nia. }
    rewrite Hq. reflexivity.
Qed.

Lemma auto_stream_from (clock : list R) :
  forall (st : ApiServer.stream_state) (c : MagnonicController),
    controller_ok c ->
    (ApiServer.frame_count st = 0 /\ ApiServer.action_idx st = 0)%nat \/
    (0 < ApiServer.frame_count st /\
     ApiServer.action_idx st = ApiServer.scheduled (ApiServer.frame_count st - 1))%nat ->
    exists frames st',
      ApiServer.websocket_auto_stream clock st c = Ok (frames, st', c) /\
      length frames = length clock /\
      ApiServer.frame_count st' = (ApiServer.frame_count st + length clock)%nat /\
      forall (k : nat) (now : R),
        nth_error clock k = Some now ->
        exists b name,
          nth_error frames k = Some (b, name) /\
          nth_error ApiServer.actions
                    (ApiServer.scheduled (ApiServer.frame_count st + k)) = Some name /\
          simulate_action_pattern now name c = Ok (b, c).
Proof.
  induction clock as [| now clock IH]; intros st c Hok Hst.
  - exists [], st. split; [reflexivity |]. split; [reflexivity |].
    split; [simpl; lia |]. intros [| k] ? H; discriminate.
  - pose proof (scheduled_step _ _ Hst) as Hidx.
    destruct (nth_error_in_range ApiServer.actions
                (ApiServer.scheduled (ApiServer.frame_count st))) as [name Hname];
      [apply scheduled_lt |].
    destruct (simulate_action_pattern_ok now name c Hok) as (b & Hb & _).
    set (st1 := {| ApiServer.action_idx := ApiServer.scheduled (ApiServer.frame_count st);
                   ApiServer.frame_count := ApiServer.frame_count st + 1 |}).
    assert (Hframe : ApiServer.stream_frame now st c = Ok (st1, (b, name), c)).
    { unfold ApiServer.stream_frame.
      change (length ApiServer.actions) with 5%nat. rewrite Hidx.
      unfold getitem. rewrite Hname. cbn [bind]. rewrite Hb. reflexivity. }
    destruct (IH st1 c Hok) as (frames & st' & Hrun & Hlen & Hcount & Hnth).
    { right. cbn [st1 ApiServer.frame_count ApiServer.action_idx].
      split; [lia |]. f_equal. lia. }
    exists ((b, name) :: frames), st'.
    cbn [ApiServer.websocket_auto_stream]. rewrite Hframe. cbn [bind].
    rewrite Hrun. cbn [bind].
    split; [reflexivity |]. split; [simpl; rewrite Hlen; reflexivity |].
    split; [rewrite Hcount; cbn [st1 ApiServer.frame_count]; simpl; lia |].
    intros [| k] now' H.
    + injection H as <-. exists b, name. rewrite Nat.add_0_r.
      split; [reflexivity |]. split; [exact Hname | exact Hb].
    + destruct (Hnth k now' H) as (b' & name' & H1 & H2 & H3).
      exists b', name'. split; [exact H1 |]. split; [| exact H3].
      cbn [st1 ApiServer.frame_count] in H2.
      replace (ApiServer.frame_count st + S k)%nat
        with (ApiServer.frame_count st + 1 + k)%nat by lia.
      exact H2.
Qed.

(** X9. On a controller built by [MagnonicController()] the automatic
    stream sends one frame per tick and never raises; frame number [k]
    (from 0) carries the action [actions[(k div 50 + 1) mod 5]]. The stream
    therefore opens with 50 frames of WALK, not STAND, and repeats with
    period 250. *)
Theorem auto_stream_schedule :
  forall (clock : list R) (c : MagnonicController),
    controller_ok c ->
    exists frames st',
      ApiServer.websocket_auto_stream clock ApiServer.stream_start c
        = Ok (frames, st', c) /\
      length frames = length clock /\
      ApiServer.frame_count st' = length clock /\
      (forall (k : nat) (now : R),
          nth_error clock k = Some now ->
          exists b name,
            nth_error frames k = Some (b, name) /\
            nth_error ApiServer.actions (ApiServer.scheduled k) = Some name /\
            simulate_action_pattern now name c = Ok (b, c)) /\
      (forall k : nat,
          (k < 50)%nat ->
          nth_error ApiServer.actions (ApiServer.scheduled k) = Some "WALK"%string) /\
      (forall k : nat, ApiServer.scheduled (k + 250) = ApiServer.scheduled k).
Proof.
  intros clock c Hok.
  destruct (auto_stream_from clock ApiServer.stream_start c Hok)
    as (frames & st' & Hrun & Hlen & Hcount & Hnth).
  { left. split; reflexivity. }
  exists frames, st'. split; [exact Hrun |]. split; [exact Hlen |].
  split; [exact Hcount |]. split; [exact Hnth |]. split.
  - intros k Hk. unfold ApiServer.scheduled.
    rewrite (Nat.div_small k 50 Hk). reflexivity.
  - intros k. unfold ApiServer.scheduled.
    replace (k + 250)%nat with (k + 5 * 50)%nat by lia.
    rewrite Nat.div_add by discriminate.
    replace (k / 50 + 5 + 1)%nat with (k / 50 + 1 + 1 * 5)%nat by lia.
    apply Nat.Div0.mod_add.
Qed.

Lemma auto_stream_schedule_witness :
  exists frames st',
    ApiServer.websocket_auto_stream [0; 1; 2] ApiServer.stream_start mock_controller
      = Ok (frames, st', mock_controller) /\
    length frames = 3%nat.
Proof.
  destruct (auto_stream_schedule [0; 1; 2] mock_controller controller_ok_mock)
    as (frames & st' & Hrun & Hlen & _).
  exists frames, st'. split; [exact Hrun | exact Hlen].
Defined.

(** ** The data logger *)

Import DataLog.

Lemma apply_calls_streams (calls : list log_call) :
  forall self : DataLogger,
    let self' := fold_left apply_call calls self in
    session_id self' = session_id self /\
    subject_id self' = subject_id self /\
    log_dir self' = log_dir self /\
    metadata (data_buffer self') = metadata (data_buffer self) /\
    features (streams (data_buffer self')) =
      features (streams (data_buffer self)) ++
      flat_map (fun call => match call with
                            | Frame ts th be _ _ => [mkFeature ts th be]
                            | Marker _ _ => []
                            end) calls /\
    physics (streams (data_buffer self')) =
      physics (streams (data_buffer self)) ++
      flat_map (fun call => match call with
                            | Frame ts _ _ al fl => [mkPhysicsRow ts al fl]
                            | Marker _ _ => []
                            end) calls /\
    markers (streams (data_buffer self')) =
      markers (streams (data_buffer self)) ++
      flat_map (fun call => match call with
                            | Frame _ _ _ _ _ => []
                            | Marker ts label => [mkMarker ts label]
                            end) calls.
Proof.
  induction calls as [| call calls IH]; intros self; cbn zeta.
  - simpl. rewrite !app_nil_r. repeat split.
  - cbn [fold_left flat_map].
    destruct (IH (apply_call self call)) as (H1 & H2 & H3 & H4 & H5 & H6 & H7).
    rewrite H1, H2, H3, H4, H5, H6, H7.
    destruct call as [ts th be al fl | ts label];
      cbn [apply_call log_frame log_marker with_streams session_id subject_id log_dir
           data_buffer metadata streams features physics markers];
      rewrite <- ?app_assoc; cbn [app]; repeat split.
Qed.

(** X12. Whatever calls are made on a logger, in whatever order: the
    feature and physics streams grow by one row per [log_frame], in call
    order and with the same timestamps, so they stay aligned when they
    started aligned; [log_marker] touches only the marker stream; the
    session, the subject and the metadata never change. *)
Theorem logger_streams_stay_aligned :
  forall (calls : list log_call) (self : DataLogger),
    map f_ts (features (streams (data_buffer self))) =
    map p_ts (physics (streams (data_buffer self))) ->
    let self' := fold_left apply_call calls self in
    map f_ts (features (streams (data_buffer self'))) =
      map p_ts (physics (streams (data_buffer self'))) /\
    length (features (streams (data_buffer self'))) =
      (length (features (streams (data_buffer self)))
       + length (filter is_frame calls))%nat /\
    length (markers (streams (data_buffer self'))) =
      (length (markers (streams (data_buffer self)))
       + length (filter (fun call => negb (is_frame call)) calls))%nat /\
    session_id self' = session_id self /\
    metadata (data_buffer self') = metadata (data_buffer self).
Proof.
  intros calls self Hal. cbn zeta.
  destruct (apply_calls_streams calls self) as (H1 & _ & _ & H4 & H5 & H6 & H7).
  cbn zeta in *. rewrite H5, H6, H7.
  split; [| split; [| split; [| split; [exact H1 | exact H4]]]].
  - rewrite !map_app, Hal. f_equal.
    clear. induction calls as [| [ts th be al fl | ts label] calls IH]; simpl;
      [reflexivity | rewrite IH; reflexivity | exact IH].
  - rewrite length_app. f_equal.
    clear. induction calls as [| [ts th be al fl | ts label] calls IH]; simpl;
      [reflexivity | rewrite IH; reflexivity | exact IH].
  - rewrite length_app. f_equal.
    clear. induction calls as [| [ts th be al fl | ts label] calls IH]; simpl;
      [reflexivity | exact IH | rewrite IH; reflexivity].
Qed.

Lemma logger_streams_stay_aligned_witness :
  let self' := fold_left apply_call
                 [Marker 1 "go"; Frame 2 0.8 0.1 0.05 0.9; Frame 3 0.4 0.5 0.03 0.8]
                 sample_logger in
  map f_ts (features (streams (data_buffer self'))) =
    map p_ts (physics (streams (data_buffer self'))) /\
  length (features (streams (data_buffer self'))) = 2%nat.
Proof.
  destruct (logger_streams_stay_aligned
              [Marker 1 "go"; Frame 2 0.8 0.1 0.05 0.9; Frame 3 0.4 0.5 0.03 0.8]
              sample_logger eq_refl) as (H1 & H2 & _).
  split; [exact H1 | exact H2].
Defined.

(** X13. [DataLogger(session_id="")] is [DataLogger()]: an empty session
    id is replaced by the generated ["sess_<int(time.time())>"], a
    non-empty one is kept and copied into the metadata; the streams start
    empty, and a failure of [os.makedirs] leaves the constructor by its
    exception. *)
Theorem logger_session_id_default :
  forall (now : R) (iso_now log_dir : string) (subject : option string),
    DataLogger__init__ now iso_now log_dir (Ok tt) (Some ""%string) subject =
    DataLogger__init__ now iso_now log_dir (Ok tt) None subject /\
    (exists lg,
        DataLogger__init__ now iso_now log_dir (Ok tt) None subject = Ok lg /\
        session_id lg = ("sess_" ++ str_of_int (py_int now))%string /\
        md_session_id (metadata (data_buffer lg)) = session_id lg /\
        streams (data_buffer lg) = mkStreams [] [] []) /\
    (forall s : string,
        s <> ""%string ->
        exists lg,
          DataLogger__init__ now iso_now log_dir (Ok tt) (Some s) subject = Ok lg /\
          session_id lg = s /\
          md_session_id (metadata (data_buffer lg)) = s /\
          streams (data_buffer lg) = mkStreams [] [] []) /\
    (forall (e : exception) (sid : option string),
        DataLogger__init__ now iso_now log_dir (Raise e) sid subject = Raise e).
Proof.
  intros now iso_now dir subject.
  split; [reflexivity |]. split; [| split].
  - eexists. split; [reflexivity |]. repeat split.
  - intros s Hs. apply String.eqb_neq in Hs.
    unfold DataLogger__init__. rewrite Hs. eexists. split; [reflexivity |].
    repeat split.
  - intros e sid. reflexivity.
Qed.

Lemma logger_session_id_default_witness :
  exists lg,
    DataLogger__init__ 12.5 "t0" "logs" (Ok tt) (Some "abc"%string) None = Ok lg /\
    session_id lg = "abc"%string.
Proof.
  destruct (proj1 (proj2 (proj2 (logger_session_id_default 12.5 "t0" "logs" None)))
              "abc"%string) as (lg & H1 & H2 & _).
  - discriminate.
  - exists lg. split; [exact H1 | exact H2].
Defined.

(** ** Saving and analysing a session *)

Lemma string_append_assoc (a b c : string) :
  ((a ++ b) ++ c = a ++ (b ++ c))%string.
Proof.
  induction a as [| ch a IH]; [reflexivity |].
  simpl. rewrite IH. reflexivity.
Qed.

(** X14. [save] returns [None] when the file cannot be written and
    otherwise a path that ends in ["<session_id>.nkc.json"]; a session id
    that starts with "/" makes [os.path.join] drop the log directory, so
    the file is written at ["<session_id>.nkc.json"] itself. *)
Theorem save_path :
  forall self : DataLogger,
    save false self = None /\
    (exists prefix : string,
        save true self = Some (prefix ++ session_id self ++ ".nkc.json")%string) /\
    (startswith_sep (session_id self) = true ->
     save true self = Some (session_id self ++ ".nkc.json")%string) /\
    (startswith_sep (session_id self) = false ->
     log_dir self <> ""%string -> endswith_sep (log_dir self) = false ->
     save true self = Some (log_dir self ++ "/" ++ session_id self ++ ".nkc.json")%string).
Proof.
  intros self. split; [reflexivity |].
  assert (Hstart : startswith_sep (session_id self ++ ".nkc.json")
                   = startswith_sep (session_id self)).
  { destruct (session_id self); reflexivity. }
  unfold save, posix_join. rewrite Hstart.
  split; [| split].
  - destruct (startswith_sep (session_id self)).
    + exists ""%string. reflexivity.
    + destruct (String.eqb (log_dir self) "" || endswith_sep (log_dir self)).
      * exists (log_dir self). reflexivity.
      * exists (log_dir self ++ "/")%string.
        rewrite string_append_assoc. reflexivity.
  - intros ->. reflexivity.
  - intros -> Hne Hend. apply String.eqb_neq in Hne. rewrite Hne, Hend. reflexivity.
Qed.

Lemma save_path_witness :
  save true (mkLogger "/tmp/x" "u" "logs"
               (mkNkc (mkMetadata "u" "/tmp/x" "t0" "NKC_v1.0_Simulation")
                      (mkStreams [] [] [])))
  = Some "/tmp/x.nkc.json"%string.
Proof.
  apply (proj1 (proj2 (proj2 (save_path
           (mkLogger "/tmp/x" "u" "logs"
              (mkNkc (mkMetadata "u" "/tmp/x" "t0" "NKC_v1.0_Simulation")
                     (mkStreams [] [] []))))))).
  reflexivity.
Defined.

(** ** The metrics *)

Import MetricAnalysis.

Lemma getitem_last_ok (v : ndarray1) : v <> [] -> getitem_last v = Ok (last v 0).
Proof.
  intros Hne. destruct (exists_last Hne) as (l & x & ->).
  unfold getitem_last. rewrite rev_app_distr, last_last. reflexivity.
Qed.

Lemma clip_range v lo hi : lo <= hi -> lo <= clip v lo hi <= hi.
Proof.
  intros H. unfold clip. split.
  - apply Rmin_glb; [apply Rmax_r | exact H].
  - apply Rmin_r.
Qed.

Lemma sum_repeat c n : sum (repeat c n) = INR n * c.
Proof.
  induction n as [| n IH]; [simpl; unfold sum; simpl; lra |].
  cbn [repeat]. rewrite sum_cons, IH, S_INR. lra.
Qed.

Lemma var_constant c n : var (repeat c n) = 0.
Proof.
  destruct n as [| n]; [unfold var, mean, sum; simpl; unfold Rdiv; lra |].
  unfold var. 
  assert (Hm : mean (repeat c (S n)) = c).
  { unfold mean. rewrite sum_repeat, repeat_length. field.
    apply not_0_INR. discriminate. }
  rewrite Hm. unfold mean.
  rewrite (map_ext_in _ (fun _ => 0)).
  - rewrite (map_const_zero (fun _ => 0)) by reflexivity.
    rewrite sum_zeros. unfold Rdiv. lra.
  - intros x Hx. apply repeat_spec in Hx. subst x.
    rewrite Rminus_diag, Rabs_R0. simpl. lra.
Qed.

Lemma calculate_metrics_points (data : nkc) :
  (features (streams data) = [] -> physics (streams data) = [] ->
   calculate_metrics data = Raise IndexError) /\
  (length (features (streams data)) = length (physics (streams data)) ->
   physics (streams data) <> [] ->
   exists m,
     calculate_metrics data = Ok m /\
     Data_Points m = length (physics (streams data))).
Proof.
  unfold calculate_metrics, corrcoef01. rewrite !length_map. split.
  - intros -> ->. reflexivity.
  - intros Hlen Hne. rewrite Hlen, Nat.eqb_refl. cbn [bind].
    destruct (physics (streams data)) as [| row rows] eqn:Hps; [contradiction |].
    rewrite getitem_last_ok by discriminate. cbn [bind getitem nth_error map].
    eexists. split; [reflexivity |].
    cbn [Data_Points map length]. reflexivity.
Qed.

(** X15. [calculate_metrics] raises [ValueError] when the feature and
    physics streams differ in length and [IndexError] on a session with no
    frame; on aligned streams with at least one frame it returns the
    number of frames, the last timestamp minus the first, a jerk score
    that is a standard deviation (never negative, 0 for a constant
    fluidity) and, when both streams vary, a coupling in [-1, 1]. *)
Theorem calculate_metrics_behaviour :
  forall data : nkc,
    let fs := features (streams data) in
    let ps := physics (streams data) in
    (length fs <> length ps ->
     calculate_metrics data = Raise (OtherError "ValueError")) /\
    (fs = [] -> ps = [] -> calculate_metrics data = Raise IndexError) /\
    (length fs = length ps -> ps <> [] ->
     exists m,
       calculate_metrics data = Ok m /\
       Data_Points m = length ps /\
       Duration m = last (map p_ts ps) 0 - hd 0 (map p_ts ps) /\
       NJS_Score m = sqrt (var (map p_fluidity ps)) /\
       0 <= NJS_Score m /\
       (0 < cov (map f_beta (features (streams data))) (map f_beta (features (streams data))) ->
        0 < cov (map p_fluidity ps) (map p_fluidity ps) ->
        -1 <= Intent_Coupling m <= 1) /\
       ((forall row, In row ps -> p_fluidity row = p_fluidity (hd (mkPhysicsRow 0 0 0) ps)) ->
        NJS_Score m = 0)).
Proof.
  intros data fs ps. subst fs ps. unfold calculate_metrics, corrcoef01.
  rewrite !length_map. split; [| split].
  - intros Hne. apply Nat.eqb_neq in Hne. rewrite Hne. reflexivity.
  - intros -> ->. reflexivity.
  - intros Hlen Hne. rewrite Hlen, Nat.eqb_refl. cbn [bind].
    destruct (physics (streams data)) as [| row rows] eqn:Hps; [contradiction |].
    rewrite getitem_last_ok by discriminate. cbn [bind getitem nth_error map].
    eexists. split; [reflexivity |].
    cbn [Data_Points Duration NJS_Score Intent_Coupling map hd length].
    split; [reflexivity |]. split; [reflexivity |]. split; [reflexivity |].
    split; [apply sqrt_pos |]. split; [intros _ _; apply clip_range; lra |].
    intros Hconst. unfold np_std.
    assert (Hrep : p_fluidity row :: map p_fluidity rows
                   = repeat (p_fluidity row) (S (length rows))).
    { cbn [repeat]. f_equal.
      assert (Hall : forall r, In r rows -> p_fluidity r = p_fluidity row)
        by (intros r Hr; apply Hconst; right; exact Hr).
      clear - Hall. induction rows as [| r rows IH]; [reflexivity |].
      cbn [map length repeat]. rewrite (Hall r) by (left; reflexivity).
      f_equal. apply IH. intros r' Hr'. apply Hall. right. exact Hr'. }
    rewrite Hrep, var_constant. apply sqrt_0.
Qed.

Lemma calculate_metrics_behaviour_witness :
  calculate_metrics (mkNkc (mkMetadata "u" "s" "t0" "NKC_v1.0_Simulation")
                           (mkStreams [mkFeature 1 0.8 0.1] [] []))
  = Raise (OtherError "ValueError") /\
  exists m,
    calculate_metrics (mkNkc (mkMetadata "u" "s" "t0" "NKC_v1.0_Simulation")
                             (mkStreams [mkFeature 1 0.8 0.1; mkFeature 4 0.4 0.5]
                                        [mkPhysicsRow 1 0.05 0.9; mkPhysicsRow 4 0.03 0.9]
                                        [])) = Ok m /\
    Data_Points m = 2%nat /\
    Duration m = last [1; 4] 0 - hd 0 [1; 4].
Proof.
  split.
  - apply (proj1 (calculate_metrics_behaviour
                    (mkNkc (mkMetadata "u" "s" "t0" "NKC_v1.0_Simulation")
                           (mkStreams [mkFeature 1 0.8 0.1] [] [])))).
    simpl. lia.
  - destruct (proj2 (proj2 (calculate_metrics_behaviour
                (mkNkc (mkMetadata "u" "s" "t0" "NKC_v1.0_Simulation")
                       (mkStreams [mkFeature 1 0.8 0.1; mkFeature 4 0.4 0.5]
                                  [mkPhysicsRow 1 0.05 0.9; mkPhysicsRow 4 0.03 0.9]
                                  [])))) eq_refl)
      as (m & H1 & H2 & H3 & _).
    + discriminate.
    + exists m. split; [exact H1 |]. split; [exact H2 | exact H3].
Defined.

Lemma flat_map_frames_length (calls : list log_call) :
  length (flat_map (fun call => match call with
                                | Frame ts _ _ al fl => [mkPhysicsRow ts al fl]
                                | Marker _ _ => []
                                end) calls) = length (filter is_frame calls) /\
  length (flat_map (fun call => match call with
                                | Frame ts th be _ _ => [mkFeature ts th be]
                                | Marker _ _ => []
                                end) calls) = length (filter is_frame calls).
Proof.
  induction calls as [| [ts th be al fl | ts label] calls [IH1 IH2]]; simpl;
    [split; reflexivity | rewrite IH1, IH2; split; reflexivity | split; assumption].
Qed.

Lemma fresh_logger_streams now iso_now dir sid subject lg :
  DataLogger__init__ now iso_now dir (Ok tt) sid subject = Ok lg ->
  streams (data_buffer lg) = mkStreams [] [] [].
Proof.
  unfold DataLogger__init__. cbn [bind]. intros H. injection H as <-. reflexivity.
Qed.

Lemma metrics_after_calls (lg : DataLogger) (calls : list log_call) :
  streams (data_buffer lg) = mkStreams [] [] [] ->
  (filter is_frame calls = [] ->
   calculate_metrics (data_buffer (fold_left apply_call calls lg)) = Raise IndexError) /\
  (filter is_frame calls <> [] ->
   exists m,
     calculate_metrics (data_buffer (fold_left apply_call calls lg)) = Ok m /\
     Data_Points m = length (filter is_frame calls)).
Proof.
  intros Hempty.
  destruct (apply_calls_streams calls lg) as (_ & _ & _ & _ & Hf & Hp & _).
  cbn zeta in Hf, Hp. rewrite Hempty in Hf, Hp. cbn [features physics app] in Hf, Hp.
  destruct (flat_map_frames_length calls) as [Lp Lf].
  destruct (calculate_metrics_points (data_buffer (fold_left apply_call calls lg)))
    as (Hidx & Hok).
  rewrite Hf, Hp in Hidx, Hok. split.
  - intros Hnone. rewrite Hnone in Lp, Lf.
    apply Hidx; apply length_zero_iff_nil; assumption.
  - intros Hsome. destruct Hok as (m & Hm & Hdp).
    + rewrite Lp, Lf. reflexivity.
    + intros Hnil. apply Hsome. apply length_zero_iff_nil. rewrite <- Lp, Hnil.
      reflexivity.
    + exists m. split; [exact Hm |]. rewrite Hdp. exact Lp.
Qed.

Lemma apply_calls_lengths (calls : list log_call) (lg : DataLogger) :
  streams (data_buffer lg) = mkStreams [] [] [] ->
  length (features (streams (data_buffer (fold_left apply_call calls lg)))) =
    length (filter is_frame calls) /\
  length (markers (streams (data_buffer (fold_left apply_call calls lg)))) =
    length (filter (fun call => negb (is_frame call)) calls).
Proof.
  intros Hempty.
  destruct (apply_calls_streams calls lg) as (_ & _ & _ & _ & Hf & _ & Hm).
  cbn zeta in Hf, Hm. rewrite Hempty in Hf, Hm. cbn [features markers app] in Hf, Hm.
  rewrite Hf, Hm. split.
  - apply flat_map_frames_length.
  - clear. induction calls as [| [ts th be al fl | ts label] calls IH]; simpl;
      [reflexivity | exact IH | rewrite IH; reflexivity].
Qed.

(** X16. For a session recorded through a freshly built logger, whatever
    the calls: [calculate_metrics] never raises [ValueError]; it raises
    [IndexError] exactly when no frame was logged, and otherwise its
    [Data_Points] is the number of [log_frame] calls. *)
Theorem metrics_of_logged_session :
  forall (now : R) (iso_now dir : string) (sid subject : option string)
         (lg : DataLogger) (calls : list log_call),
    DataLogger__init__ now iso_now dir (Ok tt) sid subject = Ok lg ->
    let data := data_buffer (fold_left apply_call calls lg) in
    (filter is_frame calls = [] -> calculate_metrics data = Raise IndexError) /\
    (filter is_frame calls <> [] ->
     exists m, calculate_metrics data = Ok m /\
               Data_Points m = length (filter is_frame calls)).
Proof.
  intros now iso_now dir sid subject lg calls Hinit. cbn zeta.
  apply metrics_after_calls.
  apply (fresh_logger_streams now iso_now dir sid subject). exact Hinit.
Qed.

Lemma metrics_of_logged_session_witness :
  exists lg m,
    DataLogger__init__ 5 "t0" "logs" (Ok tt) None None = Ok lg /\
    calculate_metrics
      (data_buffer (fold_left apply_call
                      [Marker 1 "go"; Frame 2 0.8 0.1 0.05 0.9] lg)) = Ok m /\
    Data_Points m = 1%nat.
Proof.
  eexists.
  destruct (proj2 (metrics_of_logged_session 5 "t0" "logs" None None _
                     [Marker 1 "go"; Frame 2 0.8 0.1 0.05 0.9] eq_refl))
    as (m & Hm & Hdp).
  - discriminate.
  - exists m. split; [reflexivity |]. split; [exact Hm | exact Hdp].
Defined.

(** ** The pipeline *)

Import MockCloudRunner.

Lemma simulate_action_point now name c :
  simulate_action_pattern now name c =
  process_eeg_stream now (fst (action_point name)) (snd (action_point name)) c.
Proof.
  unfold simulate_action_pattern, action_point.
  repeat match goal with
         | |- context [String.eqb ?a ?b] => destruct (String.eqb a b)
         end; reflexivity.
Qed.

Lemma frame_step_spec clock action st :
  controller_ok (controller st) ->
  exists fl,
    0 < fl <= 1 /\
    frame_step clock action st =
    Ok {| ticks := ticks st + 2;
          controller := controller st;
          logger := log_frame (clock (ticks st + 1)%nat)
                              (fst (action_point action)) (snd (action_point action))
                              (0.01 + 0.05 * fst (action_point action)) fl
                              (logger st) |}.
Proof.
  intros Hok. unfold frame_step. rewrite simulate_action_point.
  destruct (controller_ok_process (clock (ticks st)) (fst (action_point action))
              (snd (action_point action)) (controller st) Hok) as (b & Hb & _).
  rewrite Hb. cbn [bind fst snd].
  apply process_eeg_stream_inv in Hb. destruct Hb as (f & _ & _ & Hf & Hs & _).
  exists (fluidity_index b). split.
  - rewrite Hf. apply fluidity_bounds, var_nonneg.
  - rewrite Hs. reflexivity.
Qed.

Lemma action_step_spec clock st action :
  controller_ok (controller st) ->
  exists fl1 fl2 fl3,
    0 < fl1 <= 1 /\ 0 < fl2 <= 1 /\ 0 < fl3 <= 1 /\
    action_step clock st action =
    Ok {| ticks := ticks st + 7;
          controller := controller st;
          logger :=
            fold_left apply_call
              [Marker (clock (ticks st)) ("ACTION_START_" ++ action);
               Frame (clock (ticks st + 2)%nat) (fst (action_point action))
                     (snd (action_point action))
                     (0.01 + 0.05 * fst (action_point action)) fl1;
               Frame (clock (ticks st + 4)%nat) (fst (action_point action))
                     (snd (action_point action))
                     (0.01 + 0.05 * fst (action_point action)) fl2;
               Frame (clock (ticks st + 6)%nat) (fst (action_point action))
                     (snd (action_point action))
                     (0.01 + 0.05 * fst (action_point action)) fl3]
              (logger st) |}.
Proof.
  intros Hok. unfold action_step. cbn [seq for_each].
  set (st0 := {| ticks := ticks st + 1; controller := controller st;
                 logger := log_marker (clock (ticks st)) ("ACTION_START_" ++ action)
                                      (logger st) |}).
  destruct (frame_step_spec clock action st0 Hok) as (fl1 & B1 & H1).
  rewrite H1. cbn [bind].
  match goal with |- context [frame_step clock action ?s] => set (st1 := s) end.
  destruct (frame_step_spec clock action st1 Hok) as (fl2 & B2 & H2).
  rewrite H2. cbn [bind].
  match goal with |- context [frame_step clock action ?s] => set (st2 := s) end.
  destruct (frame_step_spec clock action st2 Hok) as (fl3 & B3 & H3).
  rewrite H3. cbn [bind].
  exists fl1, fl2, fl3. split; [exact B1 |]. split; [exact B2 |]. split; [exact B3 |].
  cbn [st2 st1 st0 ticks controller logger fold_left apply_call].
  replace (ticks st + 1 + 2 + 2 + 2)%nat with (ticks st + 7)%nat by lia.
  replace (ticks st + 1 + 1)%nat with (ticks st + 2)%nat by lia.
  replace (ticks st + 1 + 2 + 1)%nat with (ticks st + 4)%nat by lia.
  replace (ticks st + 1 + 2 + 2 + 1)%nat with (ticks st + 6)%nat by lia.
  reflexivity.
Qed.

Lemma pipeline_loop clock (acts : list string) :
  forall st : run_state,
    controller_ok (controller st) ->
    exists calls,
      pipeline_calls clock (ticks st) acts calls /\
      for_each (action_step clock) acts st =
      Ok {| ticks := ticks st + 7 * length acts;
            controller := controller st;
            logger := fold_left apply_call calls (logger st) |}.
Proof.
  induction acts as [| action acts IH]; intros st Hok.
  - exists []. split; [reflexivity |]. cbn [for_each length fold_left].
    rewrite Nat.mul_0_r, Nat.add_0_r. destruct st; reflexivity.
  - destruct (action_step_spec clock st action Hok)
      as (fl1 & fl2 & fl3 & B1 & B2 & B3 & Hstep).
    cbn [for_each]. rewrite Hstep. cbn [bind].
    match goal with |- context [for_each _ acts ?s] => set (st1 := s) end.
    destruct (IH st1 Hok) as (calls' & Hcalls & Hrun).
    rewrite Hrun. eexists. split.
    + cbn [pipeline_calls]. exists fl1, fl2, fl3, calls'.
      split; [reflexivity |]. split; [exact B1 |]. split; [exact B2 |].
      split; [exact B3 | exact Hcalls].
    + cbn [st1 ticks controller logger length]. rewrite fold_left_app.
      f_equal. f_equal. lia.
Qed.

Lemma pipeline_calls_frames clock (acts : list string) :
  forall t calls,
    pipeline_calls clock t acts calls ->
    length (filter is_frame calls) = (3 * length acts)%nat /\
    map (fun call => match call with
                     | Marker _ label => label
                     | Frame _ _ _ _ _ => ""%string
                     end) (filter (fun call => negb (is_frame call)) calls) =
      map (fun action => ("ACTION_START_" ++ action)%string) acts.
Proof.
  induction acts as [| action acts IH]; intros t calls H.
  - cbn [pipeline_calls] in H. subst calls. split; reflexivity.
  - cbn [pipeline_calls] in H.
    destruct H as (fl1 & fl2 & fl3 & calls' & -> & _ & _ & _ & H).
    destruct (IH _ _ H) as [IH1 IH2].
    cbn [app filter is_frame negb length map]. rewrite IH1, IH2.
    split; [lia | reflexivity].
Qed.

(** X17. When the controller can be built (the database loads or its
    import fails) and the log directory can be made, the pipeline runs to
    the end: on a logger whose session id is ["sess_<int(time.time())>"] it
    logs, for STAND, WALK, RUN, WALK, STAND in turn, one marker
    ["ACTION_START_<action>"] and three frames carrying the action's
    (theta, beta), [alpha = 0.01 + 0.05*theta] and a fluidity in (0, 1];
    [calculate_metrics] on that log returns 15 data points. A failure of
    [os.makedirs] leaves the pipeline by its exception. *)
Theorem pipeline_log :
  forall (randn : nat -> nat -> R) (loaded : result InterpolatedSimulationDB)
         (clock : nat -> R) (iso_now dir : string) (written : bool),
    loaded = SimulationDb.__init__ \/ loaded = Raise ImportError ->
    (exists (lg0 lg : DataLogger) (calls : list log_call) (m : metrics),
        DataLogger__init__ (clock 0%nat) iso_now dir (Ok tt) None
                           (Some "sim_user_001"%string) = Ok lg0 /\
        session_id lg0 = ("sess_" ++ str_of_int (py_int (clock 0%nat)))%string /\
        simulate_gcp_pipeline randn loaded clock iso_now dir (Ok tt) written
          = Ok (lg, save written lg) /\
        lg = fold_left apply_call calls lg0 /\
        pipeline_calls clock 1 actions calls /\
        length (markers (streams (data_buffer lg))) = 5%nat /\
        length (features (streams (data_buffer lg))) = 15%nat /\
        calculate_metrics (data_buffer lg) = Ok m /\
        Data_Points m = 15%nat) /\
    (forall e : exception,
        simulate_gcp_pipeline randn loaded clock iso_now dir (Raise e) written
        = Raise e).
Proof.
  intros randn loaded clock iso_now dir written Hl.
  assert (Hc : exists c, MagnonicController__init__ randn loaded = Ok c /\ controller_ok c).
  { destruct Hl as [-> | ->].
    - eexists. split; [apply init_with_db |].
      apply (controller_ok_init randn SimulationDb.__init__);
        [left; reflexivity | apply init_with_db].
    - eexists. split; [apply init_without_db |].
      apply (controller_ok_init randn (Raise ImportError));
        [right; reflexivity | apply init_without_db]. }
  destruct Hc as (c & Hinit & Hok). split.
  - set (lg0 := {| session_id := ("sess_" ++ str_of_int (py_int (clock 0%nat)))%string;
                   subject_id := "sim_user_001";
                   log_dir := dir;
                   data_buffer :=
                     {| metadata :=
                          {| md_subject_id := "sim_user_001";
                             md_session_id :=
                               ("sess_" ++ str_of_int (py_int (clock 0%nat)))%string;
                             md_timestamp_start := iso_now;
                             md_protocol := "NKC_v1.0_Simulation" |};
                        streams := mkStreams [] [] [] |} |}).
    assert (Hlg0 : DataLogger__init__ (clock 0%nat) iso_now dir (Ok tt) None
                                      (Some "sim_user_001"%string) = Ok lg0)
      by reflexivity.
    assert (Hsid : session_id lg0 = ("sess_" ++ str_of_int (py_int (clock 0%nat)))%string)
      by reflexivity.
    assert (Hempty : streams (data_buffer lg0) = mkStreams [] [] []) by reflexivity.
    destruct (pipeline_loop clock actions
                {| ticks := 1; controller := c; logger := lg0 |} Hok)
      as (calls & Hcalls & Hrun).
    cbn [ticks controller logger] in Hcalls, Hrun.
    destruct (pipeline_calls_frames clock actions 1 calls Hcalls) as [Hframes Hlabels].
    destruct (apply_calls_lengths calls lg0 Hempty) as [Hfl Hml].
    destruct (proj2 (metrics_after_calls lg0 calls Hempty)) as (m & Hm & Hdp).
    { intros Hnil. rewrite Hnil in Hframes. discriminate. }
    exists lg0, (fold_left apply_call calls lg0), calls, m.
    split; [exact Hlg0 |]. split; [exact Hsid |]. split.
    + unfold simulate_gcp_pipeline. rewrite Hinit. cbn [bind].
      rewrite Hlg0. cbn [bind]. rewrite Hrun. reflexivity.
    + split; [reflexivity |]. split; [exact Hcalls |].
      split; [| split; [| split]].
      * apply (f_equal (@length string)) in Hlabels.
        rewrite !length_map in Hlabels. rewrite Hml, Hlabels. reflexivity.
      * rewrite Hfl, Hframes. reflexivity.
      * exact Hm.
      * rewrite Hdp, Hframes. reflexivity.
  - intros e. unfold simulate_gcp_pipeline. rewrite Hinit. reflexivity.
Qed.

Lemma pipeline_log_witness :
  exists (lg : DataLogger) (m : metrics),
    simulate_gcp_pipeline (fun _ _ => 0) (Raise ImportError) (fun k => INR k)
                          "t0" "logs" (Ok tt) true
      = Ok (lg, save true lg) /\
    calculate_metrics (data_buffer lg) = Ok m /\
    Data_Points m = 15%nat.
Proof.
  destruct (proj1 (pipeline_log (fun _ _ => 0) (Raise ImportError) (fun k => INR k)
                     "t0" "logs" true (or_intror eq_refl)))
    as (lg0 & lg & calls & m & _ & _ & Hrun & _ & _ & _ & _ & Hm & Hdp).
  exists lg, m. split; [exact Hrun |]. split; [exact Hm | exact Hdp].
Defined.

(** ** Provenance and metadata *)

Lemma round_half_even_near (y : R) : Rabs (IZR (round_half_even y) - y) <= 1 / 2.
Proof.
  unfold round_half_even.
  destruct (base_Int_part y) as [Hlo Hhi].
  set (f := Int_part y) in *.
  destruct (Rlt_dec (y - IZR f) (1 / 2)) as [H1 | H1].
  - apply Rabs_le. lra.
  - destruct (Rlt_dec (1 / 2) (y - IZR f)) as [H2 | H2].
    + rewrite plus_IZR. apply Rabs_le. simpl. lra.
    + destruct (Z.even f).
      * apply Rabs_le. lra.
      * rewrite plus_IZR. apply Rabs_le. simpl. lra.
Qed.

Lemma py_round_near (x : R) (n : nat) : Rabs (py_round x n - x) <= 1 / 2 / 10 ^ n.
Proof.
  unfold py_round.
  assert (Hp : 0 < 10 ^ n) by (apply pow_lt; lra).
  replace (IZR (round_half_even (x * 10 ^ n)) / 10 ^ n - x)
    with ((IZR (round_half_even (x * 10 ^ n)) - x * 10 ^ n) / 10 ^ n)
    by (field; lra).
  unfold Rdiv at 1. rewrite Rabs_mult, (Rabs_right (/ 10 ^ n)).
  - apply Rmult_le_compat_r; [apply Rlt_le, Rinv_0_lt_compat; exact Hp |].
    apply round_half_even_near.
  - apply Rle_ge, Rlt_le, Rinv_0_lt_compat. exact Hp.
Qed.

(** X21. The physics metadata report the damping, the external field and
    the dominant frequency of their formulas to within half a unit of the
    last rounded digit (0.00005, 0.00005 and 0.005), always with the tags
    of the interpolated database and the grid "128x128". *)
Theorem physics_metadata_accuracy :
  forall (db : InterpolatedSimulationDB) (th be : R),
    let meta := get_physics_metadata db th be in
    Rabs (alpha_gilbert meta - (0.01 + 0.04 * th)) <= 0.00005 /\
    Rabs (b_external_tesla meta - (0.02 + 0.08 * be)) <= 0.00005 /\
    Rabs (dominant_freq_ghz meta - (5 + 15 * be)) <= 0.005 /\
    source meta = "interpolated_mumax3_5x5"%string /\
    grid meta = "128x128"%string /\
    material meta = "Permalloy_Ni80Fe20"%string /\
    interpolation meta = "bilinear"%string.
Proof.
  intros db th be. cbn zeta.
  unfold get_physics_metadata.
  cbn [alpha_gilbert b_external_tesla dominant_freq_ghz source grid material interpolation].
  pose proof (py_round_near (0.01 + 0.04 * th) 4) as H1.
  pose proof (py_round_near (0.02 + 0.08 * be) 4) as H2.
  pose proof (py_round_near (5 + 15 * be) 2) as H3.
  replace (1 / 2 / 10 ^ 4) with 0.00005 in H1, H2 by (simpl; lra).
  replace (1 / 2 / 10 ^ 2) with 0.005 in H3 by (simpl; lra).
  repeat split; try assumption.
Qed.

(** X20. On a controller built by [MagnonicController()] the provenance
    of a bundle tells the mode: its source is "mock" exactly when the
    controller has no database, and otherwise the bundle carries the
    database's metadata for the arguments as given. *)
Theorem provenance_tells_the_mode :
  forall (now th be : R) (c : MagnonicController),
    controller_ok c ->
    exists b,
      process_eeg_stream now th be c = Ok (b, c) /\
      (use_precomputed c = false -> NeuroController.physics b = Fallback "mock") /\
      (use_precomputed c = true ->
       NeuroController.physics b = FromDb (get_physics_metadata the_db th be) /\
       physics_source (NeuroController.physics b) = "interpolated_mumax3_5x5"%string) /\
      (physics_source (NeuroController.physics b) = "mock"%string <-> use_precomputed c = false).
Proof.
  intros now th be c Hok.
  destruct Hok as (Hwf & Hin & Hout & [[Hpre Hdb] | [Hpre Hdb]]).
  - eexists. split.
    + apply (process_eeg_stream_fallback now th be c Hwf Hin). left. exact Hpre.
    + cbn [NeuroController.physics physics_source]. rewrite Hpre.
      split; [reflexivity |]. split; [discriminate |]. split; reflexivity.
  - destruct (process_eeg_stream_db now th be c Hwf Hin Hpre Hdb) as (field & _ & Hrun).
    eexists. split; [exact Hrun |].
    cbn [NeuroController.physics physics_source]. rewrite Hpre.
    split; [discriminate |]. split; [split; reflexivity |].
    split; intros H; discriminate.
Qed.

Lemma provenance_tells_the_mode_witness :
  exists b,
    process_eeg_stream 0 0.5 0.5 mock_controller = Ok (b, mock_controller) /\
    NeuroController.physics b = Fallback "mock".
Proof.
  destruct (provenance_tells_the_mode 0 0.5 0.5 mock_controller controller_ok_mock)
    as (b & Hrun & Hmock & _).
  exists b. split; [exact Hrun | apply Hmock; reflexivity].
Defined.

(** ** Where theta, beta and the time enter the field *)

Lemma get_magnetic_state_decomposed db th be t :
  get_magnetic_state db th be t =
  (pattern <- get_magnetic_state db (clip th 0 1) (clip be 0 1) None ;;
   Ok (mul_scalar pattern
         (time_modulation be match t with Some t0 => t0 | None => 0 end))).
Proof.
  rewrite get_magnetic_state_unmodulated, !clip_idempotent.
  unfold get_magnetic_state.
  destruct (call (interpolator db) (clip th 0 1, clip be 0 1)) as [flat | e];
    [| reflexivity].
  cbn [bind].
  destruct (reshape GRID_SIZE GRID_SIZE flat) as [pattern | e]; reflexivity.
Qed.

(** X22. The field of [get_magnetic_state] is the field looked up at the
    clamped point, at time 0, times the time factor of the beta given:
    theta is clamped for every time, beta only for the lookup, so clamping
    both arguments changes nothing when beta is already in [0, 1]. *)
Theorem field_is_lookup_times_modulation :
  forall (db : InterpolatedSimulationDB) (th be : R) (t : option R),
    get_magnetic_state db th be t =
      (pattern <- get_magnetic_state db (clip th 0 1) (clip be 0 1) None ;;
       Ok (mul_scalar pattern
             (time_modulation be match t with Some t0 => t0 | None => 0 end))) /\
    get_magnetic_state db th be t = get_magnetic_state db (clip th 0 1) be t /\
    (0 <= be <= 1 ->
     get_magnetic_state db th be t =
     get_magnetic_state db (clip th 0 1) (clip be 0 1) t).
Proof.
  intros db th be t.
  assert (Hth : get_magnetic_state db th be t = get_magnetic_state db (clip th 0 1) be t).
  { unfold get_magnetic_state. rewrite clip_idempotent. reflexivity. }
  split; [apply get_magnetic_state_decomposed |]. split; [exact Hth |].
  intros Hbe. rewrite Hth, (clip_unit be Hbe). reflexivity.
Qed.

Lemma field_is_lookup_times_modulation_witness :
  get_magnetic_state the_db (-1) 0.4 (Some 3) =
  get_magnetic_state the_db (clip (-1) 0 1) (clip 0.4 0 1) (Some 3).
Proof.
  apply (proj2 (proj2 (field_is_lookup_times_modulation the_db (-1) 0.4 (Some 3)))).
  lra.
Defined.

Lemma dot1_scale (s : R) (row v : ndarray1) :
  dot1 row (map (fun x => x * s) v) = s * dot1 row v.
Proof.
  revert v. induction row as [| a row IH]; intros [| b v];
    try (unfold dot1, sum; simpl; lra).
  cbn [map]. rewrite !dot1_cons, IH. lra.
Qed.

Lemma flatten_mul_scalar (a : ndarray2) (s : R) :
  flatten (mul_scalar a s) = map (fun x => x * s) (flatten a).
Proof. unfold flatten, mul_scalar, map1. symmetry. apply concat_map. Qed.

(** X23. With the database, the time enters the joint angles only as a
    factor on the weighted part: they are
    [time_modulation(beta, t) * (W_out . p0) + bias], where [p0] is the
    field at time 0. *)
Theorem time_rescales_the_readout :
  forall (now th be : R) (c : MagnonicController),
    controller_ok c ->
    use_precomputed c = true ->
    exists (p0 : ndarray2) (b : bundle),
      get_magnetic_state the_db th be None = Ok p0 /\
      process_eeg_stream now th be c = Ok (b, c) /\
      joint_angles b =
        vmap2 Rplus
          (map (fun row => time_modulation be now * dot1 row (flatten p0))
               (W_out (readout c)))
          (bias (readout c)).
Proof.
  intros now th be c Hok Hpre.
  destruct Hok as (Hwf & Hin & Hout & [[Hpre' _] | [_ Hdb]]); [congruence |].
  destruct (get_magnetic_state_total th be None) as (p0 & Hp0 & _).
  destruct (process_eeg_stream_db now th be c Hwf Hin Hpre Hdb) as (field & Hf & Hrun).
  exists p0. eexists. split; [exact Hp0 |]. split; [exact Hrun |].
  cbn [joint_angles]. f_equal.
  pose proof (get_magnetic_state_decomposed the_db th be (Some now)) as Hdec.
  pose proof (get_magnetic_state_decomposed the_db th be None) as Hdec0.
  rewrite Hp0 in Hdec0.
  destruct (get_magnetic_state the_db (clip th 0 1) (clip be 0 1) None) as [q | e];
    [| discriminate].
  cbn [bind] in Hdec, Hdec0. rewrite time_modulation_zero in Hdec0.
  rewrite map1_scale_one in Hdec0 by reflexivity. apply Ok_inj in Hdec0. subst q.
  rewrite Hf in Hdec. apply Ok_inj in Hdec. subst field.
  apply map_ext. intros row. rewrite flatten_mul_scalar. apply dot1_scale.
Qed.

Lemma controller_ok_db : controller_ok db_controller.
Proof.
  apply (controller_ok_init (fun _ _ => 0) SimulationDb.__init__).
  - left. reflexivity.
  - apply init_with_db.
Qed.

Lemma time_rescales_the_readout_witness :
  exists (p0 : ndarray2) (b : bundle),
    get_magnetic_state the_db 0.3 0.7 None = Ok p0 /\
    process_eeg_stream 2 0.3 0.7 db_controller = Ok (b, db_controller) /\
    joint_angles b =
      vmap2 Rplus
        (map (fun row => time_modulation 0.7 2 * dot1 row (flatten p0))
             (W_out (readout db_controller)))
        (bias (readout db_controller)).
Proof.
  apply (time_rescales_the_readout 2 0.3 0.7 db_controller controller_ok_db).
  reflexivity.
Defined.
